(** * Expense tracker: period resolution, aggregation, health scoring,
    fallback parsing and connection handling

  A shallow embedding of the TypeScript tools of the expense tracker
  ([expense-insights.ts], the view and add tools) together with the
  properties its specification states about them.

  Conventions of the embedding.
  - A JavaScript number is an IEEE 754 binary64 value: the kernel's
    primitive [float].  Counters that only ever hold small integers
    (the health score, row counts) are kept in [Z].
  - A JavaScript string is the list of its UTF-16 code units.
  - A [Date] is its time value, an integer count of milliseconds since
    the epoch; local time is UTC plus the offset of the process's time
    zone in force at the instant (ECMAScript's [LocalTZA], a function of
    the instant, so that daylight-saving transitions are covered), which
    is a parameter of every date operation.
  - The database is a pair of tables; SQL queries are list functions.
  - Code that can throw runs in a small state-and-exception monad whose
    state records what happened to the connection pool. *)

From Stdlib Require Import ZArith NArith List Bool Lia Ascii String.
From Stdlib Require Import Permutation Sorted.
From Stdlib Require Import PrimFloat FloatOps SpecFloat.
From Stdlib Require FloatAxioms.
Import ListNotations.

Set Implicit Arguments.
Open Scope Z_scope.

(* ================================================================= *)
(** ** JavaScript strings *)

Module JsString.

(** A UTF-16 code unit. *)
Definition char16 := N.

Definition jsstring := list char16.

(** The code units of an ASCII literal of the source. *)
Fixpoint lit (s : string) : jsstring :=
  match s with
  | EmptyString => []
  | String a s' => N_of_ascii a :: lit s'
  end.

(** U+20B9, the rupee sign: one code unit. *)
Definition rupee : char16 := 8377%N.

Fixpoint eqb (s t : jsstring) : bool :=
  match s, t with
  | [], [] => true
  | a :: s', b :: t' => N.eqb a b && eqb s' t'
  | _, _ => false
  end.

Definition dec (s t : jsstring) : {s = t} + {s <> t} :=
  list_eq_dec N.eq_dec s t.

Definition code (a : ascii) : char16 := N_of_ascii a.

(** [s.length]. *)
Definition jslength (s : jsstring) : Z := Z.of_nat (List.length s).

(** [s.substring(0, n)]. *)
Definition substring0 (n : nat) (s : jsstring) : jsstring := firstn n s.

(** [s.startsWith(p)]. *)
Fixpoint startsWith (p s : jsstring) : bool :=
  match p, s with
  | [], _ => true
  | a :: p', b :: s' => N.eqb a b && startsWith p' s'
  | _ :: _, [] => false
  end.

(** [s.includes(p)]. *)
Fixpoint includes (p s : jsstring) : bool :=
  startsWith p s || match s with [] => false | _ :: s' => includes p s' end.

(** White space and line terminators: what [\s] matches and [trim]
    removes. *)
Definition isWhiteSpace (c : char16) : bool :=
  ((9 <=? c) && (c <=? 13) || (c =? 32) || (c =? 160) || (c =? 5760)
   || (8192 <=? c) && (c <=? 8202) || (c =? 8232) || (c =? 8233)
   || (c =? 8239) || (c =? 8287) || (c =? 12288) || (c =? 65279))%N.

Definition isDigit (c : char16) : bool := ((48 <=? c) && (c <=? 57))%N.

Definition isAsciiLetter (c : char16) : bool :=
  ((65 <=? c) && (c <=? 90) || (97 <=? c) && (c <=? 122))%N.

Fixpoint trimStart (s : jsstring) : jsstring :=
  match s with
  | c :: s' => if isWhiteSpace c then trimStart s' else s
  | [] => []
  end.

Definition trimEnd (s : jsstring) : jsstring := rev (trimStart (rev s)).

(** [s.trim()]. *)
Definition trim (s : jsstring) : jsstring := trimEnd (trimStart s).

(** [s.split(sep)] for a separator of one code unit. *)
Fixpoint split (sep : char16) (s : jsstring) : list jsstring :=
  match s with
  | [] => [[]]
  | c :: s' =>
      if N.eqb c sep then [] :: split sep s'
      else match split sep s' with
           | l :: ls => (c :: l) :: ls
           | [] => [[c]]
           end
  end.

(** Lower-casing of the letters A to Z alone: the case mapping of the
    Basic Latin block. *)
Definition toLowerCase_basic (s : jsstring) : jsstring :=
  map (fun c => if ((65 <=? c) && (c <=? 90))%N then (c + 32)%N else c) s.

End JsString.

Import JsString.

(* ================================================================= *)
(** ** Regular expressions *)

Module JsRegExp.

(** The fragment of the pattern language the tools use: one-character
    matchers (literals, classes, escapes), sequence, the greedy
    quantifiers, and one capture group. *)
Inductive regex : Type :=
| Chr (p : char16 -> bool)
| Seq (r1 r2 : regex)
| Star (r : regex)
| Opt (r : regex)
| Group (r : regex).

Definition Plus (r : regex) : regex := Seq r (Star r).

Definition lit1 (a : ascii) : regex := Chr (N.eqb (code a)).

(** A letter of a pattern under the [i] flag. *)
Definition lit1i (lower upper : ascii) : regex :=
  Chr (fun c => N.eqb c (code lower) || N.eqb c (code upper)).

(** The backtracking matcher: [rmatch r s cap k] matches [r] at the head
    of [s] and passes what is left, with the text of the group, to the
    continuation [k]; alternatives are tried in the order of the
    language (greedy first).  An iteration of [Star] that consumes
    nothing is rejected, so the length of the input bounds their number. *)
Fixpoint rmatch {A : Type} (r : regex) (s : jsstring) (cap : option jsstring)
    (k : jsstring -> option jsstring -> option A) {struct r} : option A :=
  match r with
  | Chr p =>
      match s with
      | c :: s' => if p c then k s' cap else None
      | [] => None
      end
  | Seq r1 r2 => rmatch r1 s cap (fun s' cap' => rmatch r2 s' cap' k)
  | Opt r1 =>
      match rmatch r1 s cap k with
      | Some x => Some x
      | None => k s cap
      end
  | Star r1 =>
      (fix star (fuel : nat) (s : jsstring) (cap : option jsstring)
           {struct fuel} : option A :=
         match fuel with
         | O => k s cap
         | S fuel' =>
             match rmatch r1 s cap
                     (fun s' cap' =>
                        if (List.length s' <? List.length s)%nat
                        then star fuel' s' cap' else None) with
             | Some x => Some x
             | None => k s cap
             end
         end) (List.length s) s cap
  | Group r1 =>
      rmatch r1 s cap
        (fun s' _ => k s' (Some (firstn (List.length s - List.length s') s)))
  end.

(** A match anchored at the head of [s]: the group and the rest. *)
Definition matchAt (r : regex) (s : jsstring)
  : option (option jsstring * jsstring) :=
  rmatch r s None (fun s' cap => Some (cap, s')).

(** [s.match(r)] without the [g] flag: the leftmost match; the result
    is the text of group 1. *)
Fixpoint exec (r : regex) (s : jsstring) : option (option jsstring) :=
  match matchAt r s with
  | Some (cap, _) => Some cap
  | None =>
      match s with
      | [] => None
      | _ :: s' => exec r s'
      end
  end.

(** [s.replace(/^r/, '')]. *)
Definition stripPrefix (r : regex) (s : jsstring) : jsstring :=
  match matchAt r s with
  | Some (_, rest) => rest
  | None => s
  end.

End JsRegExp.


(* ================================================================= *)
(** ** JavaScript numbers *)

Module JsNumber.

Definition number := float.

Bind Scope float_scope with number.

(** The relational operators of the language; every one of them is
    false as soon as an operand is NaN. *)
Definition gt (x y : number) : bool := PrimFloat.ltb y x.
Definition ge (x y : number) : bool := PrimFloat.leb y x.
Definition lt (x y : number) : bool := PrimFloat.ltb x y.
Definition le (x y : number) : bool := PrimFloat.leb x y.

(** The binary64 value nearest to [n / d] (ties to even), signed. *)
Definition round_ratio (neg : bool) (n d : Z) : number :=
  match n, d with
  | Zpos _, Zpos _ =>
      let '(q, e, l) := SFdiv_core_binary prec emax n 0 d 0 in
      SF2Prim (binary_round_aux prec emax neg q e l)
  | _, _ => if neg then neg_zero else zero
  end.

(** [parseFloat] of the decimal numeral whose digits, read without the
    point, are [n] and which has [scale] digits after the point. *)
Definition parseDecimal (n : Z) (scale : nat) : number :=
  round_ratio (n <? 0) (Z.abs n) (10 ^ Z.of_nat scale).

(** The decimal digits at the head of [s]: their value (after [acc]),
    their number, and the rest of [s]. *)
Fixpoint readDigits (acc : Z) (n : nat) (s : jsstring) : Z * nat * jsstring :=
  match s with
  | c :: s' =>
      if isDigit c then readDigits (10 * acc + Z.of_N (c - 48)) (S n) s'
      else (acc, n, s)
  | [] => (acc, n, s)
  end.

(** [parseFloat(s)] for an unsigned decimal numeral without exponent at
    the head of [s] (digits, then possibly a point and digits); NaN when
    [s] starts with neither a digit nor a point followed by a digit. *)
Definition parseFloat (s : jsstring) : number :=
  let '(i, ni, rest) := readDigits 0 0 s in
  let '(v, nf) :=
    match rest with
    | c :: rest' =>
        if N.eqb c (code ".")
        then let '(v, nf, _) := readDigits i 0 rest' in (v, nf)
        else (i, O)
    | [] => (i, O)
    end in
  if (ni + nf =? 0)%nat then nan else parseDecimal v nf.

End JsNumber.

Import JsNumber.

(* ================================================================= *)
(** ** Dates *)

Module JsDate.

Definition msPerDay : Z := 86400000.

(** A calendar date as [toISOString().split('T')[0]] prints it and as
    the date-only form [YYYY-MM-DD] is read; [month] counts from 1. *)
Record isodate := { year : Z; month : Z; day : Z }.

Definition isodate_eqb (a b : isodate) : bool :=
  (year a =? year b) && (month a =? month b) && (day a =? day b).

(** *** Day numbers (ECMAScript's [DayFromYear], [InLeapYear], [MakeDay]) *)

Definition DayFromYear (y : Z) : Z :=
  365 * (y - 1970) + (y - 1969) / 4 - (y - 1901) / 100 + (y - 1601) / 400.

Definition InLeapYear (y : Z) : bool :=
  (y mod 4 =? 0) && (negb (y mod 100 =? 0) || (y mod 400 =? 0)).

(** Days of the year before month [m] (counting from 0). *)
Definition DaysBeforeMonth (leap : bool) (m : Z) : Z :=
  let l := if leap then 1 else 0 in
  match m with
  | 0 => 0
  | 1 => 31
  | 2 => 59 + l
  | 3 => 90 + l
  | 4 => 120 + l
  | 5 => 151 + l
  | 6 => 181 + l
  | 7 => 212 + l
  | 8 => 243 + l
  | 9 => 273 + l
  | 10 => 304 + l
  | _ => 334 + l
  end.

Definition DaysInMonth (y m : Z) : Z :=
  match m with
  | 1 => if InLeapYear y then 29 else 28
  | 3 | 5 | 8 | 10 => 30
  | _ => 31
  end.

(** [MakeDay(year, month, date)]: months outside 0..11 carry into the
    year, dates outside the month carry into the neighbouring months. *)
Definition MakeDay (y m d : Z) : Z :=
  let ym := y + m / 12 in
  let mn := m mod 12 in
  DayFromYear ym + DaysBeforeMonth (InLeapYear ym) mn + d - 1.

Definition MakeDate (dayn time : Z) : Z := dayn * msPerDay + time.

Definition Day (t : Z) : Z := t / msPerDay.
Definition TimeWithinDay (t : Z) : Z := t mod msPerDay.
Definition WeekDay (t : Z) : Z := (Day t + 4) mod 7.

(** The day number of a calendar date. *)
Definition days_of (d : isodate) : Z := MakeDay (year d) (month d - 1) (day d).

Definition DaysInYear (y : Z) : Z := if InLeapYear y then 366 else 365.

(** The year of a day number: the largest [y] with
    [DayFromYear y <= z], found from an estimate that is off by at most
    one. *)
Definition YearFromDay (z : Z) : Z :=
  let y0 := 1970 + (400 * z) / 146097 in
  if z <? DayFromYear y0 then y0 - 1
  else if DayFromYear (y0 + 1) <=? z then y0 + 1
  else y0.

(** The month (from 0) of the day [dwy] of a year. *)
Definition MonthFromDayWithinYear (leap : bool) (dwy : Z) : Z :=
  let l := if leap then 1 else 0 in
  if dwy <? 31 then 0
  else if dwy <? 59 + l then 1
  else if dwy <? 90 + l then 2
  else if dwy <? 120 + l then 3
  else if dwy <? 151 + l then 4
  else if dwy <? 181 + l then 5
  else if dwy <? 212 + l then 6
  else if dwy <? 243 + l then 7
  else if dwy <? 273 + l then 8
  else if dwy <? 304 + l then 9
  else if dwy <? 334 + l then 10
  else 11.

(** The calendar date of a day number. *)
Definition civil_from_days (z : Z) : isodate :=
  let y := YearFromDay z in
  let leap := InLeapYear y in
  let dwy := z - DayFromYear y in
  let m := MonthFromDayWithinYear leap dwy in
  {| year := y; month := m + 1; day := dwy - DaysBeforeMonth leap m + 1 |}.

Definition YearFromTime (t : Z) : Z := year (civil_from_days (Day t)).
Definition MonthFromTime (t : Z) : Z := month (civil_from_days (Day t)) - 1.
Definition DateFromTime (t : Z) : Z := day (civil_from_days (Day t)).

Definition valid_date (d : isodate) : bool :=
  (1 <=? month d) && (month d <=? 12) &&
  (1 <=? day d) && (day d <=? DaysInMonth (year d) (month d - 1)).

(** Number of days of the closed interval of dates [[a, b]]. *)
Definition interval_days (a b : isodate) : Z := days_of b - days_of a + 1.

(** The year the constructor [new Date(year, month, date)] takes for its
    first argument: a year in 0..99 stands for 1900 + year. *)
Definition constructorYear (y : Z) : Z :=
  if (0 <=? y) && (y <=? 99) then 1900 + y else y.

(** *** Dates in the time zone of the process *)

Section Local.

(** ECMAScript's [LocalTZA(t, isUTC)]: local time minus UTC, in
    milliseconds, as in force at the UTC instant [t] ([isUTC = true]) or
    at the local time [t] ([isUTC = false]).  It changes where the zone
    has a daylight-saving transition. *)
Variable LocalTZA : Z -> bool -> Z.

Definition LocalTime (t : Z) : Z := t + LocalTZA t true.
Definition UTC (t : Z) : Z := t - LocalTZA t false.

Definition getFullYear (t : Z) : Z := YearFromTime (LocalTime t).
Definition getMonth (t : Z) : Z := MonthFromTime (LocalTime t).
Definition getDate (t : Z) : Z := DateFromTime (LocalTime t).
Definition getDay (t : Z) : Z := WeekDay (LocalTime t).

(** [new Date(year, month, date)]: local midnight. *)
Definition Date_ymd (y m d : Z) : Z :=
  UTC (MakeDate (MakeDay (constructorYear y) m d) 0).

(** [date.setDate(dt)]: the new time value. *)
Definition setDate (t dt : Z) : Z :=
  let lt := LocalTime t in
  UTC (MakeDate (MakeDay (YearFromTime lt) (MonthFromTime lt) dt)
                (TimeWithinDay lt)).

End Local.

(** A zone without transitions: one offset at every instant. *)
Definition fixedOffset (tza : Z) : Z -> bool -> Z := fun _ _ => tza.

(** A zone with one transition, at the UTC instant [change], from the
    offset [before] to the offset [after].  A local time that the
    transition skips or repeats is read with the offset before it. *)
Definition transition (change before after : Z) : Z -> bool -> Z :=
  fun t isUTC =>
    if isUTC then (if t <? change then before else after)
    else (if t <? change + Z.max before after then before else after).

(** What the date-only form accepts: a month in 1..12 and a day in
    1..31. *)
Definition parsable_date (d : isodate) : bool :=
  (1 <=? month d) && (month d <=? 12) && (1 <=? day d) && (day d <=? 31).

(** [new Date("YYYY-MM-DD").getTime()]: midnight UTC; a day past the end
    of its month carries into the next month (30 February is 1 or
    2 March), and a month or day out of range gives NaN ([None]). *)
Definition Date_parse (s : isodate) : option Z :=
  if parsable_date s then Some (MakeDate (days_of s) 0) else None.

(** [date.toISOString().split('T')[0]]. *)
Definition toISODate (t : Z) : isodate := civil_from_days (Day t).

End JsDate.

Import JsDate.

(* ================================================================= *)
(** ** Exceptions *)

(** What a [throw] carries: an [Error] of one of three classes with its
    message, or a value that is no [Error]. *)
Inductive exn : Type :=
| TypeError (message : jsstring)
| RangeError (message : jsstring)
| Error (message : jsstring)
| NonError.

(** [error instanceof Error ? error.message : 'Unknown error occurred'] *)
Definition errorMessage (e : exn) : jsstring :=
  match e with
  | TypeError m | RangeError m | Error m => m
  | NonError => lit "Unknown error occurred"
  end.

(** Reading a property of [undefined]. *)
Definition undefinedProperty : exn :=
  TypeError (lit "Cannot read properties of undefined").

Inductive result (A : Type) : Type :=
| Ok (a : A)
| Throw (e : exn).

Arguments Ok {A} a.
Arguments Throw {A} e.

(* ================================================================= *)
(** ** The fallback parser of the add-expense tool *)

Module Fallback.

Import JsRegExp.

(** The object the extraction step yields. *)
Record Extracted : Type := {
  amount : number;
  description : jsstring;
  category : jsstring;
  transactionType : jsstring;
  merchantName : option jsstring;
  confidence : number
}.

(** The categories the extraction prompt enumerates. *)
Definition categories : list jsstring :=
  [ lit "Food & Dining"; lit "Transportation"; lit "Bills & Utilities";
    lit "Shopping"; lit "Entertainment"; lit "Healthcare"; lit "Education";
    lit "Personal Care"; lit "Travel & Vacation"; lit "Family & Kids";
    lit "Gifts & Donations"; lit "Business"; lit "Investment";
    lit "EMI & Loans"; lit "Miscellaneous" ].

Definition digit : regex := Chr isDigit.

(** [/\u20B9(\d+(?:,\d+)*(?:\.\d+)?)/] *)
Definition amountPattern : regex :=
  Seq (Chr (N.eqb rupee))
      (Group (Seq (Plus digit)
                  (Seq (Star (Seq (lit1 ",") (Plus digit)))
                       (Opt (Seq (lit1 ".") (Plus digit)))))).

(** [/at\s+([A-Za-z\s]+)/i] *)
Definition merchantPattern : regex :=
  Seq (lit1i "a" "A")
      (Seq (lit1i "t" "T")
           (Seq (Plus (Chr isWhiteSpace))
                (Group (Plus (Chr (fun c => isAsciiLetter c || isWhiteSpace c)))))).

(** [g.replace(/,/g, '')] *)
Definition removeCommas (g : jsstring) : jsstring :=
  filter (fun c => negb (N.eqb c (code ","))) g.

Definition incomeKeywords : list jsstring :=
  [ lit "salary"; lit "income"; lit "payment received"; lit "earned";
    lit "bonus" ].

(** The entries of [categoryMap], in the order of the object literal. *)
Definition categoryMap : list (jsstring * jsstring) :=
  [ (lit "grocery", lit "Food & Dining");
    (lit "groceries", lit "Food & Dining");
    (lit "food", lit "Food & Dining");
    (lit "restaurant", lit "Food & Dining");
    (lit "taxi", lit "Transportation");
    (lit "auto", lit "Transportation");
    (lit "petrol", lit "Transportation");
    (lit "fuel", lit "Transportation");
    (lit "bill", lit "Bills & Utilities");
    (lit "electricity", lit "Bills & Utilities");
    (lit "mobile", lit "Bills & Utilities");
    (lit "shopping", lit "Shopping");
    (lit "clothes", lit "Shopping");
    (lit "movie", lit "Entertainment");
    (lit "entertainment", lit "Entertainment");
    (lit "doctor", lit "Healthcare");
    (lit "medicine", lit "Healthcare");
    (lit "school", lit "Education");
    (lit "travel", lit "Travel & Vacation") ].

(** The number literals [100] and [0.7]. *)
Definition defaultAmount : number := 100%float.
Definition fallbackConfidence : number := 0x1.6666666666666p-1%float.

Section Parser.

(** [String.prototype.toLowerCase]; its case mapping outside Basic Latin
    is left to the platform. *)
Variable toLowerCase : jsstring -> jsstring.

(** The loop over [Object.entries(categoryMap)]: the first keyword that
    the lower-cased entry includes sets the category and breaks. *)
Fixpoint categoryLoop (entries : list (jsstring * jsstring))
    (entry category : jsstring) : jsstring :=
  match entries with
  | [] => category
  | (keyword, cat) :: entries' =>
      if includes keyword (toLowerCase entry) then cat
      else categoryLoop entries' entry category
  end.

Definition parseExpenseWithFallback (entry : jsstring) : result Extracted :=
  let amountMatch := exec amountPattern entry in
  match
    match amountMatch with
    | Some (Some g) => Ok (parseFloat (removeCommas g))
    | Some None => Throw undefinedProperty
    | None => Ok defaultAmount
    end
  with
  | Throw e => Throw e
  | Ok amount =>
      let transactionType :=
        if existsb (fun keyword => includes keyword (toLowerCase entry))
                   incomeKeywords
        then lit "income" else lit "expense" in
      let category := categoryLoop categoryMap entry (lit "Miscellaneous") in
      let merchantMatch := exec merchantPattern entry in
      match
        match merchantMatch with
        | Some (Some g) => Ok (Some (trim g))
        | Some None => Throw undefinedProperty
        | None => Ok None
        end
      with
      | Throw e => Throw e
      | Ok merchantName =>
          Ok {| amount := amount;
                description :=
                  if (100 <? jslength entry) then substring0 100 entry
                  else entry;
                category := category;
                transactionType := transactionType;
                merchantName := merchantName;
                confidence := fallbackConfidence |}
      end
  end.

End Parser.

End Fallback.

(* ================================================================= *)
(** ** The database *)

Module Db.

(** A row of [expenses].  [amount] is a NUMERIC: the integer is the
    value read without its decimal point (the column's scale is a
    parameter of the queries below).  [transaction_date] is a DATE, kept
    as its day number. *)
Record expense : Type := {
  id : Z;
  user_id : Z;
  amount : Z;
  currency : jsstring;
  description : jsstring;
  category_id : option Z;
  transaction_type : jsstring;
  payment_method : option jsstring;
  merchant_name : option jsstring;
  location : option jsstring;
  transaction_date : Z;
  ai_suggested_category : bool;
  ai_confidence_score : number
}.

(** A row of [expense_categories]. *)
Record expense_category : Type := {
  cat_id : Z;
  name : jsstring
}.

Record database : Type := {
  expenses : list expense;
  expense_categories : list expense_category
}.

(** *** Relational operators *)

Section Relational.

Variables (R K : Type).
Variable eqb : K -> K -> bool.

Definition memb (k : K) (l : list K) : bool := existsb (eqb k) l.

(** The distinct keys of a list, in the order of their first row. *)
Fixpoint distinct (seen : list K) (keys : list K) : list K :=
  match keys with
  | [] => []
  | k :: keys' =>
      if memb k seen then distinct seen keys'
      else k :: distinct (k :: seen) keys'
  end.

(** [GROUP BY key]: one group per distinct key, with its rows. *)
Definition groupBy (key : R -> K) (rows : list R) : list (K * list R) :=
  map (fun k => (k, filter (fun r => eqb (key r) k) rows))
      (distinct [] (map key rows)).

(** [ORDER BY]: a stable insertion sort; [before a b] says that [a]
    may stay before [b]. *)
Fixpoint insertBy (before : R -> R -> bool) (x : R) (l : list R) : list R :=
  match l with
  | [] => [x]
  | y :: l' => if before x y then x :: l else y :: insertBy before x l'
  end.

Definition orderBy (before : R -> R -> bool) (l : list R) : list R :=
  fold_right (insertBy before) [] l.

End Relational.

Definition option_eqb (a b : option jsstring) : bool :=
  match a, b with
  | Some s, Some t => JsString.eqb s t
  | None, None => true
  | _, _ => false
  end.

(** [SUM(amount)] and [COUNT]. *)
Definition sumAmount (rows : list expense) : Z :=
  fold_right Z.add 0 (map amount rows).

Definition countRows (A : Type) (rows : list A) : Z := Z.of_nat (List.length rows).

(** [WHERE user_id = $1 AND transaction_date BETWEEN $2 AND $3] *)
Definition inPeriod (userId : Z) (startDate endDate : isodate) (e : expense)
  : bool :=
  (user_id e =? userId) && (days_of startDate <=? transaction_date e)
  && (transaction_date e <=? days_of endDate).

Definition isExpense (e : expense) : bool :=
  JsString.eqb (transaction_type e) (lit "expense").

(** [expenses e LEFT JOIN expense_categories ec ON e.category_id = ec.id],
    projected on the row and the category's name. *)
Definition leftJoinCategory (cats : list expense_category) (e : expense)
  : list (expense * option jsstring) :=
  match filter (fun c => match category_id e with
                         | Some i => i =? cat_id c
                         | None => false
                         end) cats with
  | [] => [(e, None)]
  | matches => map (fun c => (e, Some (name c))) matches
  end.

(** *** The four queries of [getFinancialData] *)

Record totalsRow : Type := { t_transaction_type : jsstring; t_total : Z }.

Definition totalsQuery (userId : Z) (startDate endDate : isodate)
    (d : database) : list totalsRow :=
  map (fun g => {| t_transaction_type := fst g; t_total := sumAmount (snd g) |})
      (groupBy JsString.eqb transaction_type
               (filter (inPeriod userId startDate endDate) (expenses d))).

Record categoryRow : Type := {
  c_category : option jsstring;
  c_amount : Z;
  c_count : Z
}.

Definition categoryQuery (userId : Z) (startDate endDate : isodate)
    (d : database) : list categoryRow :=
  orderBy (fun a b => c_amount b <=? c_amount a)
    (map (fun g => {| c_category := fst g;
                      c_amount := sumAmount (map fst (snd g));
                      c_count := countRows (snd g) |})
         (groupBy option_eqb snd
            (flat_map (leftJoinCategory (expense_categories d))
               (filter (fun e => inPeriod userId startDate endDate e
                                 && isExpense e)
                       (expenses d))))).

Record trendRow : Type := { d_date : isodate; d_amount : Z }.

Definition trendsQuery (userId : Z) (startDate endDate : isodate)
    (d : database) : list trendRow :=
  map (fun g => {| d_date := civil_from_days (fst g);
                   d_amount := sumAmount (snd g) |})
      (orderBy (fun a b => fst a <=? fst b)
         (groupBy Z.eqb transaction_date
            (filter (fun e => inPeriod userId startDate endDate e
                              && isExpense e)
                    (expenses d)))).

Record paymentRow : Type := {
  p_method : jsstring;
  p_amount : Z;
  p_count : Z
}.

Definition paymentQuery (userId : Z) (startDate endDate : isodate)
    (d : database) : list paymentRow :=
  orderBy (fun a b => p_amount b <=? p_amount a)
    (map (fun g => {| p_method := match fst g with
                                  | Some m => m
                                  | None => lit "Not specified"
                                  end;
                      p_amount := sumAmount (snd g);
                      p_count := countRows (snd g) |})
         (groupBy option_eqb payment_method
            (filter (inPeriod userId startDate endDate) (expenses d)))).

End Db.

(* ================================================================= *)
(** ** Effects: the connection pool and failing collaborators *)

Module Effects.

Import Db.

(** What has happened to the pool of the running invocation. *)
Inductive poolState : Type :=
| NoPool        (* [getDbPool] not called yet *)
| Idle          (* created, holds no open connection *)
| Connected     (* holds an open connection *)
| Ended.        (* [pool.end()] was called *)

(** How the next query goes. *)
Inductive outcome : Type :=
| Succeeds
| ConnectionFails (message : jsstring)   (* no connection could be opened *)
| QueryFails (message : jsstring).       (* the server rejected the query *)

(** The state an invocation runs in: the tables, the pool, and the
    outcomes of the queries to come (all succeed once the list is used
    up). *)
Record world : Type := {
  db : database;
  pool : poolState;
  script : list outcome
}.

Definition M (A : Type) : Type := world -> result A * world.

Definition ret {A : Type} (a : A) : M A := fun w => (Ok a, w).

Definition throw {A : Type} (e : exn) : M A := fun w => (Throw e, w).

Definition bind {A B : Type} (m : M A) (f : A -> M B) : M B :=
  fun w =>
    match m w with
    | (Ok a, w') => f a w'
    | (Throw e, w') => (Throw e, w')
    end.

(** [try { body } catch (error) { handler }] *)
Definition tryCatch {A : Type} (body : M A) (handler : exn -> M A) : M A :=
  fun w =>
    match body w with
    | (Ok a, w') => (Ok a, w')
    | (Throw e, w') => handler e w'
    end.

(** A pure computation that may throw. *)
Definition lift {A : Type} (r : result A) : M A := fun w => (r, w).

(** [const pool = getDbPool()] *)
Definition getDbPool : M unit :=
  fun w => (Ok tt, {| db := db w; pool := Idle; script := script w |}).

(** [await pool.query(...)]: the query [q] reads the tables and may
    change them.  The pool keeps the connection of a query that
    succeeded and closes the connection of a query that the server
    rejected. *)
Definition query {A : Type} (q : database -> A * database) : M A :=
  fun w =>
    match script w with
    | ConnectionFails m :: rest =>
        (Throw (Error m), {| db := db w; pool := pool w; script := rest |})
    | QueryFails m :: rest =>
        (Throw (Error m), {| db := db w; pool := Idle; script := rest |})
    | Succeeds :: rest =>
        let '(a, d) := q (db w) in
        (Ok a, {| db := d; pool := Connected; script := rest |})
    | [] =>
        let '(a, d) := q (db w) in
        (Ok a, {| db := d; pool := Connected; script := [] |})
    end.

(** A read-only query. *)
Definition select {A : Type} (q : database -> A) : M A :=
  query (fun d => (q d, d)).

(** [await pool.end()] *)
Definition poolEnd : M unit :=
  fun w => (Ok tt, {| db := db w; pool := Ended; script := script w |}).

End Effects.

Declare Scope monad_scope.
Delimit Scope monad_scope with monad.
Notation "x <- m ;; k" := (Effects.bind m (fun x => k))
  (at level 61, m at next level, right associativity) : monad_scope.
Notation "m ;;; k" := (Effects.bind m (fun _ => k))
  (at level 61, right associativity) : monad_scope.

(* ================================================================= *)
(** ** The insights tool ([expense-insights.ts]) *)

Module Insights.

Import Db Effects.
Local Open Scope monad_scope.

(** *** Data *)

Record CategoryEntry : Type := {
  category : option jsstring;
  amount : number;
  percentage : number;
  count : Z
}.

Record TrendEntry : Type := { date : isodate; trendAmount : number }.

Record PaymentEntry : Type := {
  method : jsstring;
  methodAmount : number;
  methodCount : Z
}.

(** What [getFinancialData] returns. *)
Record FinancialData : Type := {
  totalIncome : number;
  totalExpenses : number;
  categoryBreakdown : list CategoryEntry;
  dailyTrends : list TrendEntry;
  paymentMethods : list PaymentEntry
}.

Record Health : Type := {
  score : Z;
  status : jsstring;
  areas : list jsstring
}.

(** *** The text-generation collaborator *)

(** An agent answers a prompt with an object whose [text] (or [object])
    may be missing, or throws.  The prompt of the recommendations is
    rendered from the two aggregation results; they stand for it here. *)
Record Agent : Type := {
  generate : FinancialData -> option FinancialData -> result (option jsstring);
  (* with an output schema: the [object] of the reply to the extraction
     prompt for an entry *)
  generateObject : jsstring -> result (option Fallback.Extracted)
}.

(** [mastra?.getAgent('expenseAgent')]: [mastra] may be undefined, the
    lookup may throw, and it may find nothing. *)
Inductive Mastra : Type :=
| NoMastra
| WithAgents (getAgent : result (option Agent)).

(** *** getFinancialData *)

Section Schema.

(** The number of digits after the point of the [amount] column. *)
Variable scale : nat.

(** [parseFloat] of a NUMERIC as the driver hands it over: its decimal
    numeral. *)
Definition parseNumeric (n : Z) : number := parseDecimal n scale.

(** The [forEach] over the rows of the totals. *)
Definition totalsLoop (rows : list totalsRow) : number * number :=
  fold_left
    (fun (acc : number * number) row =>
       let '(totalIncome, totalExpenses) := acc in
       if JsString.eqb (t_transaction_type row) (lit "income")
       then (parseNumeric (t_total row), totalExpenses)
       else if JsString.eqb (t_transaction_type row) (lit "expense")
       then (totalIncome, parseNumeric (t_total row))
       else (totalIncome, totalExpenses))
    rows (zero, zero).

Definition getFinancialData (userId : Z) (startDate endDate : isodate)
  : M FinancialData :=
  totalsResult <- select (totalsQuery userId startDate endDate) ;;
  let '(totalIncome, totalExpenses) := totalsLoop totalsResult in
  categoryResult <- select (categoryQuery userId startDate endDate) ;;
  let categoryBreakdown :=
    map (fun row =>
           {| category := c_category row;
              amount := parseNumeric (c_amount row);
              percentage :=
                if gt totalExpenses zero
                then (parseNumeric (c_amount row) / totalExpenses * 100)%float
                else zero;
              count := c_count row |})
        categoryResult in
  trendsResult <- select (trendsQuery userId startDate endDate) ;;
  let dailyTrends :=
    map (fun row => {| date := d_date row;
                       trendAmount := parseNumeric (d_amount row) |})
        trendsResult in
  paymentResult <- select (paymentQuery userId startDate endDate) ;;
  let paymentMethods :=
    map (fun row => {| method := p_method row;
                       methodAmount := parseNumeric (p_amount row);
                       methodCount := p_count row |})
        paymentResult in
  ret {| totalIncome := totalIncome;
         totalExpenses := totalExpenses;
         categoryBreakdown := categoryBreakdown;
         dailyTrends := dailyTrends;
         paymentMethods := paymentMethods |}.

End Schema.

(** *** generateAIRecommendations *)

(** [/^\\d+\\.\\s*/] and [/^[-*]\\s*/] *)
Definition numberedPrefix : JsRegExp.regex :=
  JsRegExp.Seq (JsRegExp.Plus (JsRegExp.Chr isDigit))
    (JsRegExp.Seq (JsRegExp.lit1 ".")
                  (JsRegExp.Star (JsRegExp.Chr isWhiteSpace))).

Definition bulletPrefix : JsRegExp.regex :=
  JsRegExp.Seq
    (JsRegExp.Chr (fun c => N.eqb c (code "-") || N.eqb c (code "*")))
    (JsRegExp.Star (JsRegExp.Chr isWhiteSpace)).

(** The recommendations read off the reply's text. *)
Definition parseRecommendations (text : jsstring) : list jsstring :=
  firstn 5
    (filter (fun line => 10 <? jslength line)
       (map (fun line =>
               trim (JsRegExp.stripPrefix bulletPrefix
                       (JsRegExp.stripPrefix numberedPrefix line)))
          (filter (fun line => 0 <? jslength (trim line))
                  (split 10%N text)))).

Definition emptyReplyFallback : list jsstring :=
  [ lit "Monitor your top spending categories and set monthly limits";
    lit "Consider using more UPI payments for better expense tracking";
    lit "Look for opportunities to reduce food delivery expenses by cooking at home" ].

Definition failureFallback : list jsstring :=
  [ lit "Monitor your spending patterns regularly";
    lit "Set monthly budgets for each expense category";
    lit "Consider investing your savings in SIP or mutual funds" ].

(** The body of the [try] block. *)
Definition recommendationsBody (mastra : Mastra) (currentData : FinancialData)
    (comparisonData : option FinancialData) : result (list jsstring) :=
  match
    match mastra with
    | NoMastra => Ok None
    | WithAgents getAgent => getAgent
    end
  with
  | Throw e => Throw e
  | Ok None => Ok []
  | Ok (Some agent) =>
      match generate agent currentData comparisonData with
      | Throw e => Throw e
      | Ok None => Throw undefinedProperty
      | Ok (Some text) =>
          let recommendations := parseRecommendations text in
          Ok (if (0 <? Z.of_nat (List.length recommendations))
              then recommendations else emptyReplyFallback)
      end
  end.

Definition generateAIRecommendations (mastra : Mastra)
    (currentData : FinancialData) (comparisonData : option FinancialData)
  : list jsstring :=
  match recommendationsBody mastra currentData comparisonData with
  | Ok recommendations => recommendations
  | Throw _ => failureFallback
  end.

(** *** calculateFinancialHealth *)

Definition calculateFinancialHealth (data : FinancialData) : Health :=
  let score := 0 in
  let areas : list jsstring := [] in
  (* Savings rate (40% of score) *)
  let savingsRate :=
    if gt (totalIncome data) zero
    then ((totalIncome data - totalExpenses data) / totalIncome data * 100)%float
    else zero in
  let score :=
    if ge savingsRate 20 then score + 40
    else if ge savingsRate 10 then score + 30
    else if ge savingsRate 0 then score + 20
    else score + 0 in
  let areas :=
    if lt savingsRate 20 then areas ++ [lit "Increase savings rate"]
    else areas in
  (* Expense diversification (30% of score) *)
  let topCategoryPercentage :=
    match categoryBreakdown data with
    | top :: _ => percentage top
    | [] => zero
    end in
  let score :=
    if le topCategoryPercentage 40 then score + 30
    else if le topCategoryPercentage 50 then score + 20
    else score + 10 in
  let areas :=
    if gt topCategoryPercentage 40
    then areas ++ [lit "Diversify spending across categories"]
    else areas in
  (* Regular transaction pattern (30% of score) *)
  let regularityScore :=
    if 7 <=? Z.of_nat (List.length (dailyTrends data)) then 30 else 20 in
  let score := score + regularityScore in
  let areas :=
    if Z.of_nat (List.length (dailyTrends data)) <? 7
    then areas ++ [lit "Maintain regular expense tracking"]
    else areas in
  let status :=
    if 80 <=? score then lit "Excellent"
    else if 60 <=? score then lit "Good"
    else if 40 <=? score then lit "Fair"
    else lit "Needs Improvement" in
  {| score := score; status := status; areas := areas |}.

(** *** The analysis periods *)

Inductive analysisType : Type := monthly | weekly | yearly | custom.

Record periods : Type := {
  currentStartDate : isodate;
  currentEndDate : isodate;
  previousStartDate : isodate;
  previousEndDate : isodate
}.

(** [d.toISOString().split('T')[0]] for a date that may be invalid. *)
Definition toISOString (d : option Z) : result isodate :=
  match d with
  | Some t => Ok (toISODate t)
  | None => Throw (RangeError (lit "Invalid time value"))
  end.

Section Tool.

Variable scale : nat.

(** The time zone of the process (its offset from UTC at an instant)
    and the instant [new Date()] yields. *)
Variable LocalTZA : Z -> bool -> Z.
Variable today : Z.

(** The branches that determine the analysis period. *)
Definition resolvePeriods (kind : analysisType)
    (startDate endDate : option isodate) : result periods :=
  match kind with
  | monthly =>
      let firstDayOfMonth :=
        Date_ymd LocalTZA (getFullYear LocalTZA today) (getMonth LocalTZA today) 1 in
      let lastDayOfMonth :=
        Date_ymd LocalTZA (getFullYear LocalTZA today)
                 (getMonth LocalTZA today + 1) 0 in
      (* Previous month *)
      let prevMonth :=
        Date_ymd LocalTZA (getFullYear LocalTZA today)
                 (getMonth LocalTZA today - 1) 1 in
      let prevMonthEnd :=
        Date_ymd LocalTZA (getFullYear LocalTZA today) (getMonth LocalTZA today) 0 in
      Ok {| currentStartDate := toISODate firstDayOfMonth;
            currentEndDate := toISODate lastDayOfMonth;
            previousStartDate := toISODate prevMonth;
            previousEndDate := toISODate prevMonthEnd |}
  | weekly =>
      let weekStart :=
        setDate LocalTZA today (getDate LocalTZA today - getDay LocalTZA today) in
      let weekEnd :=
        setDate LocalTZA weekStart (getDate LocalTZA weekStart + 6) in
      (* Previous week *)
      let prevWeekStart :=
        setDate LocalTZA weekStart (getDate LocalTZA weekStart - 7) in
      let prevWeekEnd :=
        setDate LocalTZA weekEnd (getDate LocalTZA weekEnd - 7) in
      Ok {| currentStartDate := toISODate weekStart;
            currentEndDate := toISODate weekEnd;
            previousStartDate := toISODate prevWeekStart;
            previousEndDate := toISODate prevWeekEnd |}
  | yearly =>
      let y := getFullYear LocalTZA today in
      Ok {| currentStartDate := {| year := y; month := 1; day := 1 |};
            currentEndDate := {| year := y; month := 12; day := 31 |};
            previousStartDate := {| year := y - 1; month := 1; day := 1 |};
            previousEndDate := {| year := y - 1; month := 12; day := 31 |} |}
  | custom =>
      let currentStartDate :=
        match startDate with Some s => s | None => toISODate today end in
      let currentEndDate :=
        match endDate with Some s => s | None => toISODate today end in
      (* Calculate previous period of same length *)
      let daysDiff :=
        match Date_parse currentEndDate, Date_parse currentStartDate with
        | Some e, Some s => Some ((e - s) / msPerDay)
        | _, _ => None
        end in
      let prevEnd :=
        match Date_parse currentStartDate with
        | Some t => Some (setDate LocalTZA t (getDate LocalTZA t - 1))
        | None => None
        end in
      let prevStart :=
        match prevEnd, daysDiff with
        | Some t, Some n => Some (setDate LocalTZA t (getDate LocalTZA t - n))
        | _, _ => None
        end in
      match toISOString prevStart with
      | Throw e => Throw e
      | Ok previousStartDate =>
          match toISOString prevEnd with
          | Throw e => Throw e
          | Ok previousEndDate =>
              Ok {| currentStartDate := currentStartDate;
                    currentEndDate := currentEndDate;
                    previousStartDate := previousStartDate;
                    previousEndDate := previousEndDate |}
          end
      end
  end.

(** *** The tool's [execute] *)

Record Context : Type := {
  userId : Z;
  kind : analysisType;
  startDate : option isodate;
  endDate : option isodate;
  includeComparison : bool;
  includeAdvice : bool
}.

Record Comparison : Type := {
  previousPeriod : isodate * isodate;
  incomeChange : number;
  expenseChange : number;
  savingsChange : number
}.

(** [period] is [None] for the empty string of the error branch. *)
Record InsightsReport : Type := {
  period : option (isodate * isodate);
  reportIncome : number;
  reportExpenses : number;
  netSavings : number;
  savingsRate : number;
  topExpenseCategories : list CategoryEntry;
  spendingTrends : list TrendEntry;
  paymentMethodBreakdown : list PaymentEntry;
  comparison : option Comparison
}.

Record InsightsResult : Type := {
  success : bool;
  insights : InsightsReport;
  recommendations : list jsstring;
  financialHealth : Health
}.

(** [Math.max(x, 1)] *)
Definition maxOne (x : number) : number :=
  if PrimFloat.is_nan x then nan else if lt x 1 then 1%float else x.

Definition execute (context : Context) (mastra : Mastra) : M InsightsResult :=
  tryCatch
    (getDbPool ;;;
     p <- lift (resolvePeriods (kind context) (startDate context)
                               (endDate context)) ;;
     (* Get current period data *)
     currentData <- getFinancialData scale (userId context)
                      (currentStartDate p) (currentEndDate p) ;;
     (* Get previous period data for comparison *)
     comparisonData <-
       (if includeComparison context
        then d <- getFinancialData scale (userId context)
                    (previousStartDate p) (previousEndDate p) ;;
             ret (Some d)
        else ret None) ;;
     poolEnd ;;;
     (* Generate AI-powered recommendations *)
     let recommendations :=
       if includeAdvice context
       then generateAIRecommendations mastra currentData comparisonData
       else [] in
     (* Calculate financial health score *)
     let financialHealth := calculateFinancialHealth currentData in
     ret {| success := true;
            insights :=
              {| period := Some (currentStartDate p, currentEndDate p);
                 reportIncome := totalIncome currentData;
                 reportExpenses := totalExpenses currentData;
                 netSavings :=
                   (totalIncome currentData - totalExpenses currentData)%float;
                 savingsRate :=
                   if gt (totalIncome currentData) zero
                   then ((totalIncome currentData - totalExpenses currentData)
                         / totalIncome currentData * 100)%float
                   else zero;
                 topExpenseCategories := categoryBreakdown currentData;
                 spendingTrends := dailyTrends currentData;
                 paymentMethodBreakdown := paymentMethods currentData;
                 comparison :=
                   match comparisonData with
                   | Some c =>
                       Some
                         {| previousPeriod :=
                              (previousStartDate p, previousEndDate p);
                            incomeChange :=
                              ((totalIncome currentData - totalIncome c)
                               / maxOne (totalIncome c) * 100)%float;
                            expenseChange :=
                              ((totalExpenses currentData - totalExpenses c)
                               / maxOne (totalExpenses c) * 100)%float;
                            savingsChange :=
                              ((totalIncome currentData - totalExpenses currentData)
                               - (totalIncome c - totalExpenses c))%float |}
                   | None => None
                   end |};
            recommendations := recommendations;
            financialHealth := financialHealth |})
    (fun error =>
       ret {| success := false;
              insights :=
                {| period := None;
                   reportIncome := zero;
                   reportExpenses := zero;
                   netSavings := zero;
                   savingsRate := zero;
                   topExpenseCategories := [];
                   spendingTrends := [];
                   paymentMethodBreakdown := [];
                   comparison := None |};
              recommendations :=
                [lit "Failed to generate insights: " ++ errorMessage error];
              financialHealth :=
                {| score := 0;
                   status := lit "Error";
                   areas := [lit "Unable to calculate"] |} |}).

End Tool.

End Insights.

(* ================================================================= *)
(** ** The view tool: its use of the connection *)

Module ViewExpenses.

Import Db Effects.
Local Open Scope monad_scope.

Section Tool.

(** The rows of the three queries (the filtered expenses, the summary,
    the top categories) and the response built from them are left
    abstract: the statements below are about the connection alone.
    Building the response may throw, as [toISOString] does on a row
    without a date. *)
Variables (Rows Summary Top Response : Type).
Variable expensesQuery : database -> Rows.
Variable summaryQuery : database -> Summary.
Variable topCategoriesQuery : database -> Top.
Variable respond : Rows -> Summary -> Top -> result Response.
Variable failure : exn -> Response.

Definition execute : M (bool * Response) :=
  tryCatch
    (getDbPool ;;;
     expensesResult <- select expensesQuery ;;
     summaryResult <- select summaryQuery ;;
     topCategoriesResult <- select topCategoriesQuery ;;
     poolEnd ;;;
     r <- lift (respond expensesResult summaryResult topCategoriesResult) ;;
     ret (true, r))
    (fun error => ret (false, failure error)).

End Tool.

End ViewExpenses.

(* ================================================================= *)
(** ** The add tool *)

Module AddExpense.

Import Db Effects Insights.
Local Open Scope monad_scope.

Record Context : Type := {
  userId : Z;
  naturalLanguageEntry : jsstring;
  amount : option number;
  transactionDate : option isodate;
  paymentMethod : option jsstring;
  location : option jsstring
}.

Record Result : Type := {
  success : bool;
  expenseId : option Z;
  suggestedCategory : option jsstring;
  extractedAmount : option number;
  message : jsstring
}.

(** [SELECT id FROM expense_categories WHERE name = $1] *)
Definition categoryIdQuery (name : jsstring) (d : database) : list Z :=
  map cat_id
      (filter (fun c => JsString.eqb (Db.name c) name) (expense_categories d)).

Section Tool.

Variable toLowerCase : jsstring -> jsstring.

(** The instant [new Date()] yields. *)
Variable today : Z.

(** The server's conversion of a number to the NUMERIC of the [amount]
    column, the printing of a number in a template literal, and the
    identifier the table gives a new row. *)
Variable toNumeric : number -> Z.
Variable numberToString : number -> jsstring.
Variable nextId : database -> Z.

(** The inner [try]: the agent's extraction, or the fallback parser
    when anything in it throws. *)
Definition extract (mastra : Mastra) (entry : jsstring)
  : result Fallback.Extracted :=
  match
    match mastra with
    | NoMastra => Ok None
    | WithAgents getAgent =>
        match getAgent with
        | Throw e => Throw e
        | Ok None => Ok None
        | Ok (Some agent) => generateObject agent entry
        end
    end
  with
  | Ok (Some object) => Ok object
  | Ok None | Throw _ => Fallback.parseExpenseWithFallback toLowerCase entry
  end.

(** [INSERT INTO expenses (...) VALUES (...) RETURNING id] *)
Definition insertQuery (row : Z -> expense) (d : database) : Z * database :=
  let i := nextId d in
  (i, {| expenses := expenses d ++ [row i];
         expense_categories := expense_categories d |}).

Definition truthy (x : option number) : option number :=
  match x with
  | Some v => if PrimFloat.is_nan v || PrimFloat.is_zero v then None else Some v
  | None => None
  end.

Definition execute (context : Context) (mastra : Mastra) : M Result :=
  tryCatch
    (extracted <- lift (extract mastra (naturalLanguageEntry context)) ;;
     let finalAmount :=
       match truthy (amount context) with
       | Some a => a
       | None => Fallback.amount extracted
       end in
     let finalDate :=
       match transactionDate context with
       | Some d => days_of d
       | None => Day today
       end in
     (* Get category ID from database *)
     getDbPool ;;;
     categoryResult <- select (categoryIdQuery (Fallback.category extracted)) ;;
     match categoryResult with
     | [] =>
         throw (Error (lit "Category not found: "
                       ++ Fallback.category extracted))
     | categoryId :: _ =>
         (* Insert expense into database *)
         expenseId <-
           query (insertQuery
                    (fun i =>
                       {| id := i;
                          user_id := userId context;
                          Db.amount := toNumeric finalAmount;
                          currency := lit "INR";
                          description := Fallback.description extracted;
                          category_id := Some categoryId;
                          transaction_type := Fallback.transactionType extracted;
                          payment_method :=
                            Some match paymentMethod context with
                                 | Some (_ :: _ as m) => m
                                 | _ => lit "Not specified"
                                 end;
                          merchant_name := Fallback.merchantName extracted;
                          Db.location := location context;
                          transaction_date := finalDate;
                          ai_suggested_category := true;
                          ai_confidence_score := Fallback.confidence extracted |})) ;;
         poolEnd ;;;
         ret {| success := true;
                expenseId := Some expenseId;
                suggestedCategory := Some (Fallback.category extracted);
                extractedAmount := Some (Fallback.amount extracted);
                message :=
                  lit "Successfully added " ++ Fallback.transactionType extracted
                  ++ lit " of " ++ [rupee] ++ numberToString finalAmount
                  ++ lit " in " ++ Fallback.category extracted
                  ++ lit " category" |}
     end)
    (fun error =>
       ret {| success := false;
              expenseId := None;
              suggestedCategory := None;
              extractedAmount := None;
              message := lit "Failed to add expense: " ++ errorMessage error |}).

End Tool.

End AddExpense.

(* ================================================================= *)
(** ** Vocabulary of the statements about periods *)

Module PeriodSpec.

Import Insights.

(** The day [d] lies in the closed interval of dates [[a, b]]. *)
Definition inInterval (a b : isodate) (d : Z) : Prop :=
  days_of a <= d <= days_of b.

(** The current and the previous interval share no day. *)
Definition disjoint (p : periods) : Prop :=
  forall d : Z,
    ~ (inInterval (previousStartDate p) (previousEndDate p) d
       /\ inInterval (currentStartDate p) (currentEndDate p) d).

(** The previous interval ends on the day before the current one starts. *)
Definition adjacent (p : periods) : Prop :=
  days_of (previousEndDate p) + 1 = days_of (currentStartDate p).

Definition currentDays (p : periods) : Z :=
  interval_days (currentStartDate p) (currentEndDate p).

Definition previousDays (p : periods) : Z :=
  interval_days (previousStartDate p) (previousEndDate p).

Definition equalLength (p : periods) : Prop :=
  currentDays p = previousDays p.

(** Local time is never ahead of UTC (as in the Americas), whatever the
    season. *)
Definition neverAhead (LocalTZA : Z -> bool -> Z) : Prop :=
  forall t isUTC, - msPerDay < LocalTZA t isUTC <= 0.

(** Local time is always ahead of UTC (as in India or on the European
    continent), whatever the season. *)
Definition alwaysAhead (LocalTZA : Z -> bool -> Z) : Prop :=
  forall t isUTC, 0 < LocalTZA t isUTC <= msPerDay.

End PeriodSpec.

(* ================================================================= *)
(** ** Vocabulary of the statements about the health score *)

Module HealthSpec.

Import Insights.

(** The savings rate, in percent of the income. *)
Definition savingsRate (income expense : number) : number :=
  if gt income zero then ((income - expense) / income * 100)%float else zero.

Definition savingsContribution (rate : number) : Z :=
  if ge rate 20 then 40
  else if ge rate 10 then 30
  else if ge rate 0 then 20
  else 0.

(** The share of the first, largest, category; 0 without categories. *)
Definition topPercentage (categories : list CategoryEntry) : number :=
  match categories with
  | top :: _ => percentage top
  | [] => zero
  end.

Definition concentrationContribution (share : number) : Z :=
  if le share 40 then 30
  else if le share 50 then 20
  else 10.

(** [dates] is the number of entries of the daily trend, one for each
    date with an expense. *)
Definition regularityContribution (dates : nat) : Z :=
  if (7 <=? dates)%nat then 30 else 20.

Definition statusLabel (score : Z) : jsstring :=
  if 80 <=? score then lit "Excellent"
  else if 60 <=? score then lit "Good"
  else if 40 <=? score then lit "Fair"
  else lit "Needs Improvement".

End HealthSpec.

(* ================================================================= *)
(** ** Vocabulary of the statements about the aggregation *)

Module AggregationSpec.

(** The sum of a list of numbers as the language computes it, from the
    left. *)
Definition sumNumbers (l : list number) : number :=
  fold_left PrimFloat.add l zero.

(** The value of a finite number as a dyadic rational [m * 2^e];
    [None] for NaN and the infinities. *)
Definition exactValue (x : number) : option (Z * Z) :=
  match Prim2SF x with
  | S754_zero _ => Some (0, 0)
  | S754_finite s m e => Some (if s then Z.neg m else Z.pos m, e)
  | S754_infinity _ | S754_nan => None
  end.

Definition dyadicAdd (a b : Z * Z) : Z * Z :=
  let e := Z.min (snd a) (snd b) in
  (fst a * 2 ^ (snd a - e) + fst b * 2 ^ (snd b - e), e).

Definition dyadicEqb (a b : Z * Z) : bool :=
  let e := Z.min (snd a) (snd b) in
  fst a * 2 ^ (snd a - e) =? fst b * 2 ^ (snd b - e).

(** The sum of a list of finite numbers without any rounding. *)
Fixpoint exactSum (l : list number) : option (Z * Z) :=
  match l with
  | [] => Some (0, 0)
  | x :: l' =>
      match exactValue x, exactSum l' with
      | Some a, Some b => Some (dyadicAdd a b)
      | _, _ => None
      end
  end.

(** All the queries to come succeed. *)
Definition allSucceed (w : Effects.world) : Prop :=
  Forall (eq Effects.Succeeds) (Effects.script w).

End AggregationSpec.

(* ================================================================= *)
(** ** Inputs of the scenarios *)

Module Examples.

Import Db Effects.

(** Noon (UTC) of 15 March 2024. *)
Definition march15_2024 : Z := 19797 * msPerDay + 43200000.

Definition jan10_2024 : isodate := {| year := 2024; month := 1; day := 10 |}.
Definition jan15_2024 : isodate := {| year := 2024; month := 1; day := 15 |}.
Definition jan20_2024 : isodate := {| year := 2024; month := 1; day := 20 |}.

Definition nov3_2024 : isodate := {| year := 2024; month := 11; day := 3 |}.
Definition nov4_2024 : isodate := {| year := 2024; month := 11; day := 4 |}.
Definition nov10_2024 : isodate := {| year := 2024; month := 11; day := 10 |}.

Definition msPerHour : Z := 3600000.

(** America/New_York around the end of daylight-saving time in 2024: four
    hours behind UTC until 3 November, 06:00 UTC, five hours from then
    on. *)
Definition newYorkAutumn2024 : Z -> bool -> Z :=
  transition (MakeDate (days_of nov3_2024) (6 * msPerHour))
             (-4 * msPerHour) (-5 * msPerHour).

(** Noon (UTC) of 5 November 2024. *)
Definition nov5_2024_noon : Z := 20032 * msPerDay + 43200000.

(** Europe/London around the start of daylight-saving time in 2024: on
    UTC until 31 March, 01:00 UTC, one hour ahead from then on. *)
Definition londonSpring2024 : Z -> bool -> Z :=
  transition (MakeDate (days_of {| year := 2024; month := 3; day := 31 |})
                       msPerHour)
             0 msPerHour.

(** Europe/Berlin around the end of daylight-saving time in 2024: two
    hours ahead of UTC until 27 October, 01:00 UTC, one hour from then
    on. *)
Definition berlinAutumn2024 : Z -> bool -> Z :=
  transition (MakeDate (days_of {| year := 2024; month := 10; day := 27 |})
                       msPerHour)
             (2 * msPerHour) msPerHour.

(** Noon (UTC) of 15 April 2024, and 00:30 (UTC) of 2 November 2024. *)
Definition april15_2024_noon : Z := 19828 * msPerDay + 43200000.
Definition nov2_2024_0030 : Z := 20029 * msPerDay + 1800000.

(** "Paid [rupee]500 for groceries at BigBazaar" *)
Definition groceriesEntry : jsstring :=
  lit "Paid " ++ [rupee] ++ lit "500 for groceries at BigBazaar".

Fixpoint numbered (i : Z) (names : list jsstring) : list expense_category :=
  match names with
  | [] => []
  | n :: names' => {| cat_id := i; name := n |} :: numbered (i + 1) names'
  end.

(** The category table seeded with the fifteen categories, numbered
    from 1. *)
Definition seededCategories : list expense_category :=
  numbered 1 Fallback.categories.

(** An expense of user 1 on 15 January 2024. *)
Definition expenseOf (i amount category : Z) : expense :=
  {| id := i;
     user_id := 1;
     Db.amount := amount;
     currency := lit "INR";
     description := lit "expense";
     category_id := Some category;
     transaction_type := lit "expense";
     payment_method := Some (lit "UPI");
     merchant_name := None;
     location := None;
     transaction_date := days_of jan15_2024;
     ai_suggested_category := true;
     ai_confidence_score := Fallback.fallbackConfidence |}.

(** Two expenses, of 0.10 and 0.20 rupees at scale 2, in two
    categories. *)
Definition twoCategories : database :=
  {| expenses := [expenseOf 1 10 1; expenseOf 2 20 2];
     expense_categories := seededCategories |}.

(** A world in which no pool exists yet and no query will fail. *)
Definition fresh (d : database) : world :=
  {| db := d; pool := NoPool; script := [] |}.

(** An agent whose extraction names a category that the table does not
    hold. *)
Definition unknownCategoryAgent : Insights.Agent :=
  {| Insights.generate := fun _ _ => Ok (Some []);
     Insights.generateObject :=
       fun _ =>
         Ok (Some {| Fallback.amount := 500%float;
                     Fallback.description := lit "Vegetables";
                     Fallback.category := lit "Groceries";
                     Fallback.transactionType := lit "expense";
                     Fallback.merchantName := None;
                     Fallback.confidence := Fallback.fallbackConfidence |}) |}.

Definition vegetablesContext : AddExpense.Context :=
  {| AddExpense.userId := 1;
     AddExpense.naturalLanguageEntry := lit "Bought vegetables";
     AddExpense.amount := None;
     AddExpense.transactionDate := None;
     AddExpense.paymentMethod := None;
     AddExpense.location := None |}.

(** The monthly report of user 1, as the report workflow asks for it. *)
Definition monthlyContext : Insights.Context :=
  {| Insights.userId := 1;
     Insights.kind := Insights.monthly;
     Insights.startDate := None;
     Insights.endDate := None;
     Insights.includeComparison := true;
     Insights.includeAdvice := true |}.

(** A world whose second query is rejected by the server. *)
Definition secondQueryFails (d : database) : world :=
  {| db := d;
     pool := NoPool;
     script := [Succeeds; QueryFails (lit "canceling statement due to statement timeout")] |}.

End Examples.

(* ================================================================= *)
(** ** Definitions for the properties of the tools *)

Unset Implicit Arguments.

Module ToolSpec.

Import Db Effects Insights.

(** [m] keeps the invariant [I] of worlds, however it ends. *)
Definition keeps (I : world -> world -> Prop) (A : Type) (m : M A) : Prop :=
  forall w r w', m w = (r, w') -> I w w'.

(** The tables stay as they are. *)
Definition sameTables (w w' : world) : Prop := db w' = db w.

(** A pool that has not been ended is not ended. *)
Definition stillOpen (w w' : world) : Prop := pool w <> Ended -> pool w' <> Ended.

Section InsightsTool.

Variable scale : nat.
Variable LocalTZA : Z -> bool -> Z.
Variable today : Z.

(** The part of the tool's [try] block between the creation of the pool
    and its end. *)
Definition gather (context : Context)
  : M (periods * FinancialData * option FinancialData) :=
  bind (lift (resolvePeriods LocalTZA today (kind context) (startDate context)
                (endDate context)))
    (fun p =>
       bind (getFinancialData scale (userId context) (currentStartDate p)
               (currentEndDate p))
         (fun currentData =>
            bind (if includeComparison context
                  then bind (getFinancialData scale (userId context)
                               (previousStartDate p) (previousEndDate p))
                         (fun d => ret (Some d))
                  else ret None)
              (fun comparisonData => ret (p, currentData, comparisonData)))).

End InsightsTool.

Section ViewTool.

Variables (Rows Summary Top : Type).
Variable expensesQuery : database -> Rows.
Variable summaryQuery : database -> Summary.
Variable topCategoriesQuery : database -> Top.

(** The three queries of the view tool. *)
Definition viewQueries : M (Rows * Summary * Top) :=
  bind (select expensesQuery)
    (fun a => bind (select summaryQuery)
                (fun b => bind (select topCategoriesQuery)
                            (fun c => ret (a, b, c)))).

End ViewTool.

Section AddTool.

Variable today : Z.
Variable toNumeric : number -> Z.

(** What the tool stores: the row for the extraction [x], the category
    identifier [c] and the row identifier [i]. *)
Definition storedRow (context : AddExpense.Context) (x : Fallback.Extracted)
    (c i : Z) : expense :=
  {| id := i;
     user_id := AddExpense.userId context;
     Db.amount :=
       toNumeric match AddExpense.truthy (AddExpense.amount context) with
                 | Some a => a
                 | None => Fallback.amount x
                 end;
     currency := lit "INR";
     description := Fallback.description x;
     category_id := Some c;
     transaction_type := Fallback.transactionType x;
     payment_method :=
       Some match AddExpense.paymentMethod context with
            | Some (_ :: _ as m) => m
            | _ => lit "Not specified"
            end;
     merchant_name := Fallback.merchantName x;
     Db.location := AddExpense.location context;
     transaction_date :=
       match AddExpense.transactionDate context with
       | Some d => days_of d
       | None => Day today
       end;
     ai_suggested_category := true;
     ai_confidence_score := Fallback.confidence x |}.

End AddTool.

(** The rows that count as income. *)
Definition isIncome (e : expense) : bool :=
  JsString.eqb (transaction_type e) (lit "income").

(** The aggregation result of a period without rows. *)
Definition noData : FinancialData :=
  {| totalIncome := zero; totalExpenses := zero; categoryBreakdown := [];
     dailyTrends := []; paymentMethods := [] |}.

End ToolSpec.

(* ================================================================= *)
(** ** Definitions for the properties of the fallback parser *)

Module ParserSpec.

Import JsRegExp Fallback.

(** The loop of an iterated pattern, with the number of iterations left. *)
Definition starLoop {A : Type} (r : regex)
    (k : jsstring -> option jsstring -> option A)
  : nat -> jsstring -> option jsstring -> option A :=
  fix star (fuel : nat) (s : jsstring) (cap : option jsstring) : option A :=
    match fuel with
    | O => k s cap
    | S fuel' =>
        match rmatch r s cap
                (fun s' cap' =>
                   if (List.length s' <? List.length s)%nat
                   then star fuel' s' cap' else None) with
        | Some x => Some x
        | None => k s cap
        end
    end.

(** The text does not start with a character of the class. *)
Definition headFails (p : char16 -> bool) (s : jsstring) : bool :=
  match s with
  | [] => true
  | c :: _ => negb (p c)
  end.

Definition merchantClass (c : char16) : bool :=
  isAsciiLetter c || isWhiteSpace c.

Definition digitStep (acc : Z) (c : char16) : Z := 10 * acc + Z.of_N (c - 48).

(** The number a run of decimal digits writes. *)
Definition digitsValue (ds : jsstring) : Z := fold_left digitStep ds 0.

Definition allDigits (ds : jsstring) : bool :=
  negb (Nat.eqb (List.length ds) 0) && forallb isDigit ds.

Definition fractionDigits (frac : option jsstring) : jsstring :=
  match frac with Some df => df | None => [] end.

(** A numeral as the amount pattern reads it: digits, groups of digits
    after commas, and possibly a point and digits. *)
Definition numeral (ds : jsstring) (groups : list jsstring)
    (frac : option jsstring) : jsstring :=
  ds ++ List.concat (map (cons (code ",")) groups)
     ++ match frac with Some df => code "." :: df | None => [] end.

Definition numeralOk (ds : jsstring) (groups : list jsstring)
    (frac : option jsstring) : bool :=
  allDigits ds && forallb allDigits groups
  && match frac with Some df => allDigits df | None => true end.

Definition startsGroup (sep : ascii) (s : jsstring) : bool :=
  match s with
  | c :: d :: _ => N.eqb (code sep) c && isDigit d
  | _ => false
  end.

(** The text after the numeral does not continue it. *)
Definition numeralEnds (frac : option jsstring) (post : jsstring) : bool :=
  headFails isDigit post
  && match frac with
     | Some _ => true
     | None => negb (startsGroup "," post) && negb (startsGroup "." post)
     end.

Definition commaGroups (groups : list jsstring) : jsstring :=
  List.concat (map (cons (code ",")) groups).

End ParserSpec.

(* ================================================================= *)
(** ** The report step of the workflow *)

Module Workflow.

Import Db Effects Insights.
Local Open Scope monad_scope.

(** [z.enum(["weekly", "monthly"])] *)
Inductive ReportType : Type := weeklyReport | monthlyReport.

Definition reportTypeName (t : ReportType) : jsstring :=
  match t with
  | weeklyReport => lit "weekly"
  | monthlyReport => lit "monthly"
  end.

Record InputData : Type := {
  defaultUserId : Z;
  reportType : ReportType;
  includeInsights : bool;
  includeComparison : bool
}.

Record StepResult : Type := {
  success : bool;
  reportsGenerated : Z;
  summary : jsstring;
  insights : list jsstring
}.

Section Step.

Variable scale : nat.
Variable LocalTZA : Z -> bool -> Z.
Variable today : Z.

(** The digits of a number in a template literal. *)
Variable numberToString : Z -> jsstring.

(** The loop over [userIds], with the two variables it updates.  The
    dynamic import of the tool's module is taken to succeed. *)
Fixpoint reportLoop (inputData : InputData) (mastra : Mastra)
    (userIds : list Z) (reportsGenerated : Z) (allInsights : list jsstring)
  : M (Z * list jsstring) :=
  match userIds with
  | [] => ret (reportsGenerated, allInsights)
  | userId :: userIds' =>
      (* Generate expense insights using our tool directly *)
      insightsResult <-
        Insights.execute scale LocalTZA today
          {| Insights.userId := userId;
             kind := match reportType inputData with
                     | weeklyReport => weekly
                     | monthlyReport => monthly
                     end;
             startDate := None;
             endDate := None;
             Insights.includeComparison := includeComparison inputData;
             includeAdvice := includeInsights inputData |}
          mastra ;;
      if Insights.success insightsResult
      then reportLoop inputData mastra userIds' (reportsGenerated + 1)
             (allInsights ++ recommendations insightsResult)
      else reportLoop inputData mastra userIds' reportsGenerated allInsights
  end.

Definition generateExpenseReportStep (inputData : InputData) (mastra : Mastra)
  : M StepResult :=
  tryCatch
    (let userIds := [defaultUserId inputData] in
     r <- reportLoop inputData mastra userIds 0 [] ;;
     let '(reportsGenerated, allInsights) := r in
     let summary :=
       lit "Generated " ++ numberToString reportsGenerated ++ lit " "
       ++ reportTypeName (reportType inputData) ++ lit " expense reports. "
       ++ lit "Key insights include spending optimization, category analysis, and financial health assessment." in
     ret {| success := true;
            reportsGenerated := reportsGenerated;
            summary := summary;
            insights := firstn 10 allInsights |})
    (fun error =>
       ret {| success := false;
              reportsGenerated := 0;
              summary :=
                lit "Failed to generate expense reports: " ++ errorMessage error;
              insights := [] |}).

End Step.

End Workflow.

(* ================================================================= *)
(** ** The queries of the view tool *)

Module ViewQueries.

Import Db.

(** [z.enum(["expense", "income", "all"])] *)
Inductive TransactionType : Type := expenseOnly | incomeOnly | all.

Definition typeName (t : TransactionType) : jsstring :=
  match t with
  | expenseOnly => lit "expense"
  | incomeOnly => lit "income"
  | all => lit "all"
  end.

(** The fields of the context that the WHERE clause reads.  A date is
    taken to be a legal one. *)
Record Context : Type := {
  userId : Z;
  startDate : option isodate;
  endDate : option isodate;
  category : option jsstring;
  transactionType : TransactionType
}.

(** The conditions pushed onto [conditions], in their order, as
    predicates on a row of the join; an empty string is no filter. *)
Definition conditions (context : Context)
  : list (expense * option jsstring -> bool) :=
  [fun r => user_id (fst r) =? userId context]
  ++ match startDate context with
     | Some s => [fun r => days_of s <=? transaction_date (fst r)]
     | None => []
     end
  ++ match endDate context with
     | Some s => [fun r => transaction_date (fst r) <=? days_of s]
     | None => []
     end
  ++ match category context with
     | Some (_ :: _ as c) =>
         [fun r => match snd r with
                   | Some n => JsString.eqb n c
                   | None => false
                   end]
     | _ => []
     end
  ++ match transactionType context with
     | all => []
     | t => [fun r => JsString.eqb (transaction_type (fst r)) (typeName t)]
     end.

(** [conditions.join(' AND ')] *)
Definition whereClause (context : Context) (r : expense * option jsstring)
  : bool :=
  forallb (fun condition => condition r) (conditions context).

Record topRow : Type := {
  top_category : option jsstring;
  top_amount : Z;
  top_count : Z
}.

(** The query of the top categories: the WHERE clause and
    [e.transaction_type = 'expense'], grouped by the category's name,
    by decreasing amount, five rows at most. *)
Definition topCategoriesQuery (context : Context) (d : database)
  : list topRow :=
  firstn 5
    (orderBy (fun a b => top_amount b <=? top_amount a)
       (map (fun g => {| top_category := fst g;
                         top_amount := sumAmount (map fst (snd g));
                         top_count := countRows (snd g) |})
            (groupBy option_eqb snd
               (filter (fun r => whereClause context r && isExpense (fst r))
                  (flat_map (leftJoinCategory (expense_categories d))
                            (expenses d)))))).

End ViewQueries.

(* ================================================================= *)
(** ** Further example data *)

Module Scenarios.

Import Db Effects Insights Examples.

(** A custom analysis from 20 January back to 10 January. *)
Definition reversedContext : Context :=
  {| userId := 1; kind := custom; startDate := Some jan20_2024;
     endDate := Some jan10_2024; includeComparison := true;
     includeAdvice := false |}.

(** Income of 60000 against expenses of 45000, with an expense on each
    of seven days. *)
Definition thriftyData : FinancialData :=
  {| totalIncome := 60000;
     totalExpenses := 45000;
     categoryBreakdown := [];
     dailyTrends :=
       map (fun d => {| date := {| year := 2024; month := 1; day := d |};
                        trendAmount := 100 |})
           [1; 2; 3; 4; 5; 6; 7];
     paymentMethods := [] |}.

End Scenarios.

(* ================================================================= *)
(** * Properties *)

Unset Implicit Arguments.
Arguments JsString.lit : simpl never.

(* ================================================================= *)
Module StringFacts.

Import Db.

Lemma jsstring_eqb_spec (s t : jsstring) : reflect (s = t) (JsString.eqb s t).
Proof.
  revert t; induction s as [|a s IH]; intros [|b t]; simpl;
    try (constructor; congruence).
  destruct (N.eqb_spec a b) as [->|Hab]; simpl.
  - destruct (IH t) as [->|Hst]; constructor; congruence.
  - constructor; congruence.
Qed.

Lemma option_eqb_spec (a b : option jsstring) : reflect (a = b) (option_eqb a b).
Proof.
  destruct a as [s|], b as [t|]; simpl; try (constructor; congruence).
  destruct (jsstring_eqb_spec s t); constructor; congruence.
Qed.

End StringFacts.

(* ================================================================= *)
Module DateFacts.

(** ** Calendar facts *)

Lemma leap_div (y : Z) :
  (if InLeapYear y then 1 else 0)
  = ((y - 1968) / 4 - (y - 1969) / 4) - ((y - 1900) / 100 - (y - 1901) / 100)
    + ((y - 1600) / 400 - (y - 1601) / 400).
Proof.
  unfold InLeapYear.
  pose proof (Z.div_mod y 400 ltac:(lia)) as H400.
  pose proof (Z.mod_pos_bound y 400 ltac:(lia)) as Hb.
  set (a := y / 400) in *. set (b := y mod 400) in *.
  assert (Hb4 : y mod 4 = b mod 4).
  { rewrite H400, Z.add_comm, (Z.mul_comm 400).
    replace (a * 400) with (a * 100 * 4) by lia. apply Z.mod_add; lia. }
  assert (Hb100 : y mod 100 = b mod 100).
  { rewrite H400, Z.add_comm, (Z.mul_comm 400).
    replace (a * 400) with (a * 4 * 100) by lia. apply Z.mod_add; lia. }
  rewrite Hb4, Hb100.
  destruct (Z.eqb_spec (b mod 4) 0), (Z.eqb_spec (b mod 100) 0),
    (Z.eqb_spec b 0); simpl; Z.div_mod_to_equations; lia.
Qed.

Lemma DayFromYear_succ (y : Z) :
  DayFromYear (y + 1) = DayFromYear y + DaysInYear y.
Proof.
  unfold DaysInYear.
  assert (H : DaysInYear y = 365 + if InLeapYear y then 1 else 0)
    by (unfold DaysInYear; destruct (InLeapYear y); reflexivity).
  unfold DaysInYear in H. rewrite H, leap_div. unfold DayFromYear.
  replace (y + 1 - 1970) with (y - 1969) by lia.
  replace (y + 1 - 1969) with (y - 1968) by lia.
  replace (y + 1 - 1901) with (y - 1900) by lia.
  replace (y + 1 - 1601) with (y - 1600) by lia.
  lia.
Qed.

Lemma DaysInYear_bounds (y : Z) : 365 <= DaysInYear y <= 366.
Proof. unfold DaysInYear; destruct (InLeapYear y); lia. Qed.

Lemma DayFromYear_lt (y y' : Z) : y < y' -> DayFromYear y < DayFromYear y'.
Proof.
  intros H. replace y' with (y + 1 + Z.of_nat (Z.to_nat (y' - y - 1))) by lia.
  induction (Z.to_nat (y' - y - 1)) as [|n IH].
  - rewrite Z.add_0_r, DayFromYear_succ. pose proof (DaysInYear_bounds y). lia.
  - replace (y + 1 + Z.of_nat (S n)) with (y + 1 + Z.of_nat n + 1) by lia.
    rewrite DayFromYear_succ. pose proof (DaysInYear_bounds (y + 1 + Z.of_nat n)). lia.
Qed.

Lemma DayFromYear_estimate (y : Z) :
  146097 * (y - 1970) - 1000 <= 400 * DayFromYear y <= 146097 * (y - 1970) + 1000.
Proof. unfold DayFromYear. Z.div_mod_to_equations. lia. Qed.

Lemma YearFromDay_spec (z : Z) :
  DayFromYear (YearFromDay z) <= z < DayFromYear (YearFromDay z + 1).
Proof.
  unfold YearFromDay.
  assert (Hy0 : exists y0, y0 = 1970 + 400 * z / 146097) by eauto.
  destruct Hy0 as [y0 Hy0]. rewrite <- Hy0.
  assert (Hz : 146097 * (y0 - 1970) <= 400 * z < 146097 * (y0 - 1970) + 146097)
    by (subst y0; Z.div_mod_to_equations; lia).
  clear Hy0.
  destruct (Z.ltb_spec z (DayFromYear y0)) as [Hlt|Hge].
  - replace (y0 - 1 + 1) with y0 by lia. split; [|lia].
    pose proof (DayFromYear_estimate (y0 - 1)). lia.
  - destruct (Z.leb_spec (DayFromYear (y0 + 1)) z) as [Hle|Hgt]; [|lia].
    split; [lia|]. pose proof (DayFromYear_estimate (y0 + 1 + 1)). lia.
Qed.

Lemma DayFromYear_le (y y' : Z) : y <= y' -> DayFromYear y <= DayFromYear y'.
Proof.
  intros H. destruct (Z.eq_dec y y') as [->|Hne]; [lia|].
  pose proof (DayFromYear_lt y y' ltac:(lia)). lia.
Qed.

Lemma YearFromDay_unique (z y : Z) :
  DayFromYear y <= z < DayFromYear (y + 1) -> YearFromDay z = y.
Proof.
  intros H. pose proof (YearFromDay_spec z) as Hs.
  destruct (Z.lt_trichotomy (YearFromDay z) y) as [Hlt|[Heq|Hgt]]; [|exact Heq|].
  - pose proof (DayFromYear_le (YearFromDay z + 1) y ltac:(lia)). lia.
  - pose proof (DayFromYear_le (y + 1) (YearFromDay z) ltac:(lia)). lia.
Qed.

Lemma MonthFromDayWithinYear_range (leap : bool) (dwy : Z) :
  0 <= MonthFromDayWithinYear leap dwy <= 11.
Proof.
  unfold MonthFromDayWithinYear.
  repeat match goal with |- context [if ?c then _ else _] => destruct c end; lia.
Qed.

(** The day number of the calendar date of a day is that day. *)
Lemma days_of_civil (z : Z) : days_of (civil_from_days z) = z.
Proof.
  unfold days_of, civil_from_days, MakeDay; simpl.
  set (y := YearFromDay z). set (leap := InLeapYear y).
  set (dwy := z - DayFromYear y).
  pose proof (MonthFromDayWithinYear_range leap dwy) as Hm.
  set (m := MonthFromDayWithinYear leap dwy) in *.
  replace (m + 1 - 1) with m by lia.
  rewrite Z.div_small, Z.mod_small, Z.add_0_r by lia.
  fold leap. lia.
Qed.

Lemma civil_valid (z : Z) : valid_date (civil_from_days z) = true.
Proof.
  pose proof (YearFromDay_spec z) as Hy. rewrite DayFromYear_succ in Hy.
  unfold valid_date, civil_from_days; simpl.
  set (y := YearFromDay z) in *. unfold DaysInYear in Hy.
  set (dwy := z - DayFromYear y).
  assert (Hd : 0 <= dwy < if InLeapYear y then 366 else 365) by (subst dwy; lia).
  clearbody dwy. clear Hy.
  unfold MonthFromDayWithinYear, DaysInMonth.
  destruct (InLeapYear y);
    repeat match goal with
           | |- context [if ?a <? ?b then _ else _] =>
               destruct (Z.ltb_spec a b)
           end; simpl; lia.
Qed.

(** The calendar date of the day number of a valid date is that date. *)
Lemma civil_days_of (d : isodate) :
  valid_date d = true -> civil_from_days (days_of d) = d.
Proof.
  destruct d as [y m dd]. unfold valid_date, days_of, MakeDay; simpl.
  intros H. repeat (apply andb_prop in H; destruct H as [H ?]).
  assert (Hdd : 1 <= dd <= DaysInMonth y (m - 1)) by lia.
  rewrite Z.div_small, Z.mod_small, Z.add_0_r by lia.
  assert (Hc : m = 1 \/ m = 2 \/ m = 3 \/ m = 4 \/ m = 5 \/ m = 6 \/ m = 7
               \/ m = 8 \/ m = 9 \/ m = 10 \/ m = 11 \/ m = 12) by lia.
  clear - Hdd Hc.
  assert (Hgoal : forall z dwy,
             dwy = z - DayFromYear y ->
             0 <= dwy < DaysInYear y ->
             MonthFromDayWithinYear (InLeapYear y) dwy = m - 1 ->
             dd = dwy - DaysBeforeMonth (InLeapYear y) (m - 1) + 1 ->
             civil_from_days z = {| year := y; month := m; day := dd |}).
  { intros z dwy Hz Hr Hmon Hday.
    assert (Hy : YearFromDay z = y)
      by (apply YearFromDay_unique; rewrite DayFromYear_succ; lia).
    unfold civil_from_days. rewrite Hy, <- Hz, Hmon, <- Hday. f_equal. lia. }
  unfold DaysInMonth, DaysInYear, MonthFromDayWithinYear in *.
  destruct (InLeapYear y);
    repeat (destruct Hc as [Hc|Hc]);
    subst m; simpl in Hdd |- *;
    (eapply Hgoal; [reflexivity | simpl; lia | | simpl; lia]);
    simpl;
    repeat match goal with
           | |- context [if ?a <? ?b then _ else _] =>
               destruct (Z.ltb_spec a b)
           end; lia.
Qed.

Lemma MakeDay_date (y m d k : Z) : MakeDay y m (d + k) = MakeDay y m d + k.
Proof. unfold MakeDay. lia. Qed.

(** The first of the next month is [DaysInMonth] days after the first
    of a month. *)
Lemma MakeDay_next_month (y m : Z) :
  0 <= m <= 11 ->
  MakeDay y (m + 1) 1 = MakeDay y m 1 + DaysInMonth y m.
Proof.
  intros Hm. unfold MakeDay.
  assert (Hc : m = 11 \/ 0 <= m <= 10) by lia. destruct Hc as [->|Hc].
  - change ((11 + 1) / 12) with 1. change ((11 + 1) mod 12) with 0.
    change (11 / 12) with 0. change (11 mod 12) with 11.
    replace (y + 0) with y by lia. rewrite DayFromYear_succ.
    unfold DaysInYear, DaysInMonth, DaysBeforeMonth.
    destruct (InLeapYear y), (InLeapYear (y + 1)); lia.
  - rewrite !Z.div_small, !Z.mod_small, !Z.add_0_r by lia.
    unfold DaysInMonth, DaysBeforeMonth.
    assert (Hc' : m = 0 \/ m = 1 \/ m = 2 \/ m = 3 \/ m = 4 \/ m = 5 \/ m = 6
                  \/ m = 7 \/ m = 8 \/ m = 9 \/ m = 10) by lia.
    destruct (InLeapYear y);
      repeat (destruct Hc' as [->|Hc']; [simpl; lia|]); subst m; simpl; lia.
Qed.

(** The first of a month is [DaysInMonth] of the month before after the
    first of that month. *)
Lemma MakeDay_prev_month (y m : Z) :
  0 <= m <= 11 ->
  MakeDay y m 1
  = MakeDay y (m - 1) 1 + DaysInMonth (y + (m - 1) / 12) ((m - 1) mod 12).
Proof.
  intros Hm.
  assert (Hc : m = 0 \/ 1 <= m <= 11) by lia. destruct Hc as [->|Hc].
  - unfold MakeDay. change ((0 - 1) / 12) with (-1).
    change ((0 - 1) mod 12) with 11. change (0 / 12) with 0.
    change (0 mod 12) with 0.
    replace (y + 0) with (y + -1 + 1) by lia. rewrite DayFromYear_succ.
    unfold DaysInYear, DaysInMonth, DaysBeforeMonth.
    destruct (InLeapYear (y + -1)), (InLeapYear (y + -1 + 1)); lia.
  - rewrite (Z.div_small (m - 1)), (Z.mod_small (m - 1)), Z.add_0_r by lia.
    replace m with (m - 1 + 1) at 1 by lia.
    apply MakeDay_next_month. lia.
Qed.

Lemma DaysInMonth_bounds (y m : Z) : 28 <= DaysInMonth y m <= 31.
Proof.
  unfold DaysInMonth.
  repeat match goal with
         | |- context [match ?x with _ => _ end] => destruct x
         end; lia.
Qed.

(** *** Time values *)

Lemma Day_MakeDate (d t : Z) : Day (MakeDate d t) = d + Day t.
Proof.
  unfold Day, MakeDate. rewrite Z.add_comm, Z.div_add by (unfold msPerDay; lia).
  lia.
Qed.

Lemma Day_shift (t k : Z) : Day (t + k * msPerDay) = Day t + k.
Proof. unfold Day. apply Z.div_add. unfold msPerDay; lia. Qed.

Lemma days_of_toISODate (t : Z) : days_of (toISODate t) = Day t.
Proof. apply days_of_civil. Qed.

Lemma Day_small (t : Z) : 0 <= t < msPerDay -> Day t = 0.
Proof. unfold Day. intros H. apply Z.div_small. exact H. Qed.

Lemma Day_before (t : Z) : - msPerDay <= t < 0 -> Day t = -1.
Proof.
  unfold Day, msPerDay. intros H. symmetry.
  apply (Z.div_unique t 86400000 (-1) (t + 86400000)); lia.
Qed.

(** A legal calendar date is read as it is written. *)
Lemma valid_parsable (d : isodate) :
  valid_date d = true -> parsable_date d = true.
Proof.
  unfold valid_date, parsable_date. intros H.
  pose proof (DaysInMonth_bounds (year d) (month d - 1)) as Hb.
  repeat (apply andb_prop in H; destruct H as [H ?]).
  repeat (apply andb_true_iff; split); try assumption.
  apply Z.leb_le. apply Z.leb_le in H0. lia.
Qed.

Lemma Date_parse_valid (d : isodate) :
  valid_date d = true -> Date_parse d = Some (MakeDate (days_of d) 0).
Proof. intros H. unfold Date_parse. rewrite (valid_parsable d H). reflexivity. Qed.

Section LocalFacts.

Variable LocalTZA : Z -> bool -> Z.

(** The UTC date of a local midnight is the local date, moved by the
    whole days that the offset in force at that midnight takes off. *)
Lemma Day_Date_ymd (y m d : Z) :
  Day (Date_ymd LocalTZA y m d)
  = MakeDay (constructorYear y) m d
    + Day (- LocalTZA (MakeDate (MakeDay (constructorYear y) m d) 0) false).
Proof.
  unfold Date_ymd, UTC.
  set (l := MakeDate (MakeDay (constructorYear y) m d) 0).
  replace (l - LocalTZA l false)
    with (MakeDate (MakeDay (constructorYear y) m d) (- LocalTZA l false))
    by (unfold l, MakeDate; lia).
  apply Day_MakeDate.
Qed.

Lemma getMonth_range (t : Z) : 0 <= getMonth LocalTZA t <= 11.
Proof.
  unfold getMonth, MonthFromTime, civil_from_days; simpl.
  pose proof (MonthFromDayWithinYear_range
                (InLeapYear (YearFromDay (Day (LocalTime LocalTZA t))))
                (Day (LocalTime LocalTZA t)
                 - DayFromYear (YearFromDay (Day (LocalTime LocalTZA t))))).
  lia.
Qed.

End LocalFacts.

Section FixedFacts.

(** The offset of a zone without transitions. *)
Variable tza : Z.

(** Setting the day of the month to the current one plus [k] moves the
    instant by [k] days. *)
Lemma setDate_shift (t k : Z) :
  setDate (fixedOffset tza) t (getDate (fixedOffset tza) t + k)
  = t + k * msPerDay.
Proof.
  unfold setDate, getDate, DateFromTime, YearFromTime, MonthFromTime.
  set (lt := LocalTime (fixedOffset tza) t).
  rewrite MakeDay_date.
  change (MakeDay (year (civil_from_days (Day lt)))
                  (month (civil_from_days (Day lt)) - 1)
                  (day (civil_from_days (Day lt))))
    with (days_of (civil_from_days (Day lt))).
  rewrite days_of_civil.
  unfold UTC, MakeDate, TimeWithinDay, Day. subst lt.
  unfold LocalTime, fixedOffset.
  pose proof (Z.div_mod (t + tza) msPerDay ltac:(unfold msPerDay; lia)).
  lia.
Qed.

End FixedFacts.

End DateFacts.

(* ================================================================= *)
Module PeriodFacts.

Import DateFacts Insights PeriodSpec Examples.

(** ** The period resolver *)

Lemma adjacent_disjoint (p : periods) : adjacent p -> disjoint p.
Proof. unfold adjacent, disjoint, inInterval. intros H d. lia. Qed.

Section ResolverFacts.

Variable today : Z.

(** The weekly branch in a zone without transitions. *)
Lemma weekly_periods (tza : Z) (s e : option isodate) :
  exists p,
    resolvePeriods (fixedOffset tza) today weekly s e = Ok p
    /\ days_of (currentStartDate p)
       = Day today - getDay (fixedOffset tza) today
    /\ days_of (currentEndDate p) = days_of (currentStartDate p) + 6
    /\ days_of (previousStartDate p) = days_of (currentStartDate p) - 7
    /\ days_of (previousEndDate p) = days_of (currentStartDate p) - 1.
Proof.
  eexists. split; [reflexivity|].
  cbn [currentStartDate currentEndDate previousStartDate previousEndDate].
  rewrite !days_of_toISODate.
  replace (getDate (fixedOffset tza) today - getDay (fixedOffset tza) today)
    with (getDate (fixedOffset tza) today + - getDay (fixedOffset tza) today)
    by lia.
  rewrite setDate_shift.
  set (weekStart := today + - getDay (fixedOffset tza) today * msPerDay).
  rewrite (setDate_shift tza weekStart 6).
  replace (getDate (fixedOffset tza) weekStart - 7)
    with (getDate (fixedOffset tza) weekStart + -7) by lia.
  rewrite (setDate_shift tza weekStart (-7)).
  replace (getDate (fixedOffset tza) (weekStart + 6 * msPerDay) - 7)
    with (getDate (fixedOffset tza) (weekStart + 6 * msPerDay) + -7) by lia.
  rewrite (setDate_shift tza (weekStart + 6 * msPerDay) (-7)).
  subst weekStart. rewrite !Day_shift. lia.
Qed.

(** The monthly branch in a zone whose local midnights all lie the same
    number [k] of whole days from the UTC date. *)
Lemma monthly_periods (LocalTZA : Z -> bool -> Z) (k : Z)
    (s e : option isodate) :
  (forall t, Day (- LocalTZA t false) = k) ->
  let y := constructorYear (getFullYear LocalTZA today) in
  let m := getMonth LocalTZA today in
  exists p,
    resolvePeriods LocalTZA today monthly s e = Ok p
    /\ days_of (currentStartDate p) = MakeDay y m 1 + k
    /\ days_of (currentEndDate p)
       = days_of (currentStartDate p) + DaysInMonth y m - 1
    /\ days_of (previousStartDate p)
       = days_of (currentStartDate p)
         - DaysInMonth (y + (m - 1) / 12) ((m - 1) mod 12)
    /\ days_of (previousEndDate p) = days_of (currentStartDate p) - 1.
Proof.
  intros Hk y m. eexists. split; [reflexivity|].
  cbn [currentStartDate currentEndDate previousStartDate previousEndDate].
  rewrite !days_of_toISODate, !Day_Date_ymd, !Hk. fold y m.
  pose proof (getMonth_range LocalTZA today) as Hm. fold m in Hm.
  assert (H0 : forall a b, MakeDay a b 0 = MakeDay a b 1 - 1)
    by (intros; unfold MakeDay; lia).
  rewrite !H0, (MakeDay_next_month y m Hm), (MakeDay_prev_month y m Hm).
  lia.
Qed.

Lemma neverAhead_days (LocalTZA : Z -> bool -> Z) :
  neverAhead LocalTZA -> forall t, Day (- LocalTZA t false) = 0.
Proof. intros H t. apply Day_small. specialize (H t false). lia. Qed.

Lemma alwaysAhead_days (LocalTZA : Z -> bool -> Z) :
  alwaysAhead LocalTZA -> forall t, Day (- LocalTZA t false) = -1.
Proof. intros H t. apply Day_before. specialize (H t false). lia. Qed.

(** The yearly branch, in any zone. *)
Lemma yearly_periods (LocalTZA : Z -> bool -> Z) (s e : option isodate) :
  let y := getFullYear LocalTZA today in
  exists p,
    resolvePeriods LocalTZA today yearly s e = Ok p
    /\ days_of (currentStartDate p) = DayFromYear y
    /\ days_of (currentEndDate p) = DayFromYear y + DaysInYear y - 1
    /\ days_of (previousStartDate p) = DayFromYear y - DaysInYear (y - 1)
    /\ days_of (previousEndDate p) = DayFromYear y - 1.
Proof.
  intros y. eexists. split; [reflexivity|].
  cbn [currentStartDate currentEndDate previousStartDate previousEndDate]. fold y.
  unfold days_of, MakeDay; simpl.
  change ((1 - 1) / 12) with 0. change ((1 - 1) mod 12) with 0.
  change ((12 - 1) / 12) with 0. change ((12 - 1) mod 12) with 11.
  rewrite !Z.add_0_r. unfold DaysBeforeMonth.
  pose proof (DayFromYear_succ (y - 1)) as Hp.
  replace (y - 1 + 1) with y in Hp by lia.
  unfold DaysInYear in *.
  destruct (InLeapYear y), (InLeapYear (y - 1)); lia.
Qed.

(** The custom branch on two legal dates, in either order, in any zone:
    the bounds are returned as they are. *)
Lemma custom_current (LocalTZA : Z -> bool -> Z) (s e : isodate) :
  valid_date s = true -> valid_date e = true ->
  exists previousStart previousEnd,
    resolvePeriods LocalTZA today custom (Some s) (Some e)
    = Ok {| currentStartDate := s;
            currentEndDate := e;
            previousStartDate := previousStart;
            previousEndDate := previousEnd |}.
Proof.
  intros Hs He. unfold resolvePeriods.
  rewrite (Date_parse_valid s Hs), (Date_parse_valid e He).
  cbv beta iota zeta delta [toISOString]. eauto.
Qed.

(** The custom branch on two legal dates, in either order, in a zone
    without transitions. *)
Lemma custom_periods (tza : Z) (s e : isodate) :
  valid_date s = true -> valid_date e = true ->
  resolvePeriods (fixedOffset tza) today custom (Some s) (Some e)
  = Ok {| currentStartDate := s;
          currentEndDate := e;
          previousStartDate :=
            civil_from_days (days_of s - 1 - (days_of e - days_of s));
          previousEndDate := civil_from_days (days_of s - 1) |}.
Proof.
  intros Hs He. unfold resolvePeriods.
  rewrite (Date_parse_valid s Hs), (Date_parse_valid e He).
  cbv beta iota zeta delta [toISOString].
  replace (getDate (fixedOffset tza) (MakeDate (days_of s) 0) - 1)
    with (getDate (fixedOffset tza) (MakeDate (days_of s) 0) + -1) by lia.
  rewrite setDate_shift.
  set (prevEnd := MakeDate (days_of s) 0 + -1 * msPerDay).
  assert (Hd : (MakeDate (days_of e) 0 - MakeDate (days_of s) 0) / msPerDay
               = days_of e - days_of s).
  { unfold MakeDate.
    replace (days_of e * msPerDay + 0 - (days_of s * msPerDay + 0))
      with ((days_of e - days_of s) * msPerDay) by lia.
    apply Z.div_mul. unfold msPerDay; lia. }
  rewrite Hd.
  replace (getDate (fixedOffset tza) prevEnd - (days_of e - days_of s))
    with (getDate (fixedOffset tza) prevEnd + - (days_of e - days_of s)) by lia.
  rewrite setDate_shift. subst prevEnd. unfold toISODate.
  rewrite !Day_shift, Day_MakeDate. change (Day 0) with 0.
  f_equal. f_equal; (apply f_equal; lia).
Qed.

End ResolverFacts.

(** *** The claims about the periods *)

(** C3, as stated, fails: on 15 March 2024, in UTC, the monthly analysis
    compares the 31 days of March with the 29 days of February. *)
Lemma monthly_periods_unequal :
  ~ (exists p,
        resolvePeriods (fixedOffset 0) march15_2024 monthly None None = Ok p
        /\ disjoint p /\ equalLength p /\ adjacent p).
Proof.
  intros (p & H & _ & Heq & _).
  vm_compute in H. inversion H; subst p; clear H.
  vm_compute in Heq. discriminate Heq.
Qed.

(** C3 (amended): the two intervals are disjoint and the previous one
    ends on the day before the current one starts
    - for the weekly analysis, with 7 days each, in a zone whose offset
      from UTC is fixed;
    - for the monthly analysis, with the days of a calendar month and of
      its predecessor, in a zone that is never ahead of UTC or always
      ahead of it, daylight saving included;
    - for the yearly analysis, with the days of a calendar year and of
      its predecessor, in every zone. *)
Theorem noncustom_periods_adjacent (today : Z) (s e : option isodate) :
  (forall tza : Z,
      exists p,
        resolvePeriods (fixedOffset tza) today weekly s e = Ok p
        /\ disjoint p /\ adjacent p
        /\ currentDays p = 7 /\ previousDays p = 7)
  /\ (forall LocalTZA : Z -> bool -> Z,
         neverAhead LocalTZA \/ alwaysAhead LocalTZA ->
         exists p,
           resolvePeriods LocalTZA today monthly s e = Ok p
           /\ disjoint p /\ adjacent p
           /\ currentDays p
              = DaysInMonth (constructorYear (getFullYear LocalTZA today))
                            (getMonth LocalTZA today)
           /\ previousDays p
              = DaysInMonth (constructorYear (getFullYear LocalTZA today)
                             + (getMonth LocalTZA today - 1) / 12)
                            ((getMonth LocalTZA today - 1) mod 12))
  /\ (forall LocalTZA : Z -> bool -> Z,
         exists p,
           resolvePeriods LocalTZA today yearly s e = Ok p
           /\ disjoint p /\ adjacent p
           /\ currentDays p = DaysInYear (getFullYear LocalTZA today)
           /\ previousDays p = DaysInYear (getFullYear LocalTZA today - 1)).
Proof.
  split; [|split].
  - intros tza.
    destruct (weekly_periods today tza s e)
      as (p & Hp & Hcs & Hce & Hps & Hpe).
    exists p. split; [exact Hp|].
    assert (Ha : adjacent p) by (unfold adjacent; lia).
    split; [apply adjacent_disjoint, Ha|]. split; [exact Ha|].
    unfold currentDays, previousDays, interval_days. lia.
  - intros LocalTZA Hzone.
    assert (Hk : exists k, forall t, Day (- LocalTZA t false) = k).
    { destruct Hzone as [H|H];
        [exists 0; apply neverAhead_days, H
        |exists (-1); apply alwaysAhead_days, H]. }
    destruct Hk as [k Hk].
    destruct (monthly_periods today LocalTZA k s e Hk)
      as (p & Hp & Hcs & Hce & Hps & Hpe).
    exists p. split; [exact Hp|].
    assert (Ha : adjacent p) by (unfold adjacent; lia).
    split; [apply adjacent_disjoint, Ha|]. split; [exact Ha|].
    unfold currentDays, previousDays, interval_days. lia.
  - intros LocalTZA.
    destruct (yearly_periods today LocalTZA s e)
      as (p & Hp & Hcs & Hce & Hps & Hpe).
    exists p. split; [exact Hp|].
    assert (Ha : adjacent p) by (unfold adjacent; lia).
    split; [apply adjacent_disjoint, Ha|]. split; [exact Ha|].
    unfold currentDays, previousDays, interval_days. lia.
Qed.

(** The conditions on the zone are needed.  In London, which is on UTC in
    winter and ahead of it in summer, the monthly analysis of 15 April
    2024 has 31 March in both intervals; in Berlin the weekly analysis of
    2 November 2024, 00:30 UTC, spans eight days, across the end of
    daylight-saving time. *)
Lemma monthly_overlap_in_london :
  resolvePeriods londonSpring2024 april15_2024_noon monthly None None
  = Ok {| currentStartDate := {| year := 2024; month := 3; day := 31 |};
          currentEndDate := {| year := 2024; month := 4; day := 29 |};
          previousStartDate := {| year := 2024; month := 3; day := 1 |};
          previousEndDate := {| year := 2024; month := 3; day := 31 |} |}.
Proof. vm_compute. reflexivity. Qed.

Lemma weekly_eight_days_in_berlin :
  resolvePeriods berlinAutumn2024 nov2_2024_0030 weekly None None
  = Ok {| currentStartDate := {| year := 2024; month := 10; day := 26 |};
          currentEndDate := {| year := 2024; month := 11; day := 2 |};
          previousStartDate := {| year := 2024; month := 10; day := 19 |};
          previousEndDate := {| year := 2024; month := 10; day := 25 |} |}.
Proof. vm_compute. reflexivity. Qed.

Lemma noncustom_periods_adjacent_witness :
  exists p,
    resolvePeriods newYorkAutumn2024 nov5_2024_noon monthly None None = Ok p
    /\ disjoint p /\ adjacent p
    /\ currentDays p
       = DaysInMonth
           (constructorYear (getFullYear newYorkAutumn2024 nov5_2024_noon))
           (getMonth newYorkAutumn2024 nov5_2024_noon)
    /\ previousDays p
       = DaysInMonth
           (constructorYear (getFullYear newYorkAutumn2024 nov5_2024_noon)
            + (getMonth newYorkAutumn2024 nov5_2024_noon - 1) / 12)
           ((getMonth newYorkAutumn2024 nov5_2024_noon - 1) mod 12).
Proof.
  apply (proj1 (proj2 (noncustom_periods_adjacent nov5_2024_noon None None))
           newYorkAutumn2024).
  left. intros t isUTC. unfold newYorkAutumn2024, transition, msPerHour, msPerDay.
  destruct isUTC;
    match goal with |- context [if ?b then _ else _] => destruct b end; lia.
Defined.




(** C8, as stated, fails: in UTC a custom range from 20 January back to
    10 January is not rejected; the resolver returns it with a previous
    window that is reversed as well. *)
Lemma reversed_custom_range_accepted :
  days_of jan10_2024 < days_of jan20_2024
  /\ resolvePeriods (fixedOffset 0) march15_2024 custom
       (Some jan20_2024) (Some jan10_2024)
     = Ok {| currentStartDate := jan20_2024;
             currentEndDate := jan10_2024;
             previousStartDate := {| year := 2024; month := 1; day := 29 |};
             previousEndDate := {| year := 2024; month := 1; day := 19 |} |}
  /\ (forall err : exn,
         resolvePeriods (fixedOffset 0) march15_2024 custom (Some jan20_2024)
           (Some jan10_2024) <> Throw err).
Proof.
  split; [vm_compute; reflexivity|].
  assert (H : resolvePeriods (fixedOffset 0) march15_2024 custom
                (Some jan20_2024) (Some jan10_2024)
              = Ok {| currentStartDate := jan20_2024;
                      currentEndDate := jan10_2024;
                      previousStartDate :=
                        {| year := 2024; month := 1; day := 29 |};
                      previousEndDate :=
                        {| year := 2024; month := 1; day := 19 |} |})
    by (vm_compute; reflexivity).
  split; [exact H|]. intros err. rewrite H. discriminate.
Qed.

(** C8 (amended): in every zone, a custom analysis whose legal start
    date lies after its end date does not fail; the resolver returns the
    bounds as they are, a current interval in which no day lies. *)
Theorem reversed_custom_range (LocalTZA : Z -> bool -> Z) (today : Z)
    (s e : isodate) :
  valid_date s = true -> valid_date e = true ->
  days_of e < days_of s ->
  exists p,
    resolvePeriods LocalTZA today custom (Some s) (Some e) = Ok p
    /\ currentStartDate p = s /\ currentEndDate p = e
    /\ (forall d : Z,
           ~ inInterval (currentStartDate p) (currentEndDate p) d).
Proof.
  intros Hs He Hlt.
  destruct (custom_current today LocalTZA s e Hs He) as (ps & pe & Hp).
  eexists. split; [exact Hp|].
  cbn [currentStartDate currentEndDate].
  split; [reflexivity|]. split; [reflexivity|].
  intros d. unfold inInterval. lia.
Qed.

Lemma reversed_custom_range_witness :
  exists p,
    resolvePeriods newYorkAutumn2024 nov5_2024_noon custom
      (Some nov10_2024) (Some nov4_2024)
    = Ok p
    /\ currentStartDate p = nov10_2024 /\ currentEndDate p = nov4_2024
    /\ (forall d : Z,
           ~ inInterval (currentStartDate p) (currentEndDate p) d).
Proof.
  apply (reversed_custom_range newYorkAutumn2024 nov5_2024_noon
           nov10_2024 nov4_2024);
    vm_compute; reflexivity.
Defined.

End PeriodFacts.

(* ================================================================= *)
Module HealthFacts.

Import Insights HealthSpec.

(** ** The health score *)

(** C1: the score is the sum of the savings, concentration and
    regularity contributions, each read off its thresholds, and the
    status is the label of the score; an income of 60000 with expenses
    of 45000, a top category at 35 percent and ten dates with an expense
    give the score 100 and the status "Excellent". *)
Theorem health_score_formula :
  (forall data : FinancialData,
      score (calculateFinancialHealth data)
      = savingsContribution
          (savingsRate (totalIncome data) (totalExpenses data))
        + concentrationContribution (topPercentage (categoryBreakdown data))
        + regularityContribution (List.length (dailyTrends data))
      /\ status (calculateFinancialHealth data)
         = statusLabel (score (calculateFinancialHealth data)))
  /\ (forall (data : FinancialData) (top : CategoryEntry)
             (rest : list CategoryEntry),
         totalIncome data = 60000%float ->
         totalExpenses data = 45000%float ->
         categoryBreakdown data = top :: rest ->
         percentage top = 35%float ->
         List.length (dailyTrends data) = 10%nat ->
         score (calculateFinancialHealth data) = 100
         /\ status (calculateFinancialHealth data) = lit "Excellent").
Proof.
  assert (Hgen : forall data : FinancialData,
      score (calculateFinancialHealth data)
      = savingsContribution
          (savingsRate (totalIncome data) (totalExpenses data))
        + concentrationContribution (topPercentage (categoryBreakdown data))
        + regularityContribution (List.length (dailyTrends data))
      /\ status (calculateFinancialHealth data)
         = statusLabel (score (calculateFinancialHealth data))).
  { intros data. split; [|reflexivity].
    unfold calculateFinancialHealth, savingsContribution, savingsRate,
      concentrationContribution, topPercentage, regularityContribution.
    cbv zeta. cbn [score]. unfold number.
    assert (Hr : (7 <=? Z.of_nat (List.length (dailyTrends data)))
                 = (7 <=? List.length (dailyTrends data))%nat).
    { destruct (Nat.leb_spec 7 (List.length (dailyTrends data)));
        [apply Z.leb_le | apply Z.leb_gt]; lia. }
    rewrite Hr.
    destruct (gt (totalIncome data) zero);
      repeat match goal with
             | |- context [if ?c then _ else _] => destruct c
             end; reflexivity. }
  split; [exact Hgen|].
  intros data top rest Hi He Hc Hp Hn.
  destruct (Hgen data) as [Hs Hl]. rewrite Hl, Hs, Hi, He, Hc, Hn.
  unfold topPercentage. rewrite Hp. vm_compute. split; reflexivity.
Qed.

End HealthFacts.

(* ================================================================= *)
Module AggregationFacts.

Import StringFacts DateFacts Db Effects Insights HealthSpec AggregationSpec Examples.

(** ** Grouping and ordering *)

Section GroupFacts.

Variables (R K : Type).
Variable eqb : K -> K -> bool.
Hypothesis eqb_spec : forall a b, reflect (a = b) (eqb a b).

Lemma memb_In (k : K) (l : list K) : memb eqb k l = true <-> In k l.
Proof.
  unfold memb. rewrite existsb_exists. split.
  - intros (x & Hx & He). destruct (eqb_spec k x); congruence.
  - intros H. exists k. split; [exact H|]. destruct (eqb_spec k k); congruence.
Qed.

Lemma distinct_In (seen keys : list K) (k : K) :
  In k (distinct eqb seen keys) <-> In k keys /\ ~ In k seen.
Proof.
  revert seen; induction keys as [|a keys IH]; intros seen; simpl.
  - tauto.
  - destruct (memb eqb a seen) eqn:Hm.
    + apply memb_In in Hm. rewrite IH. split.
      * tauto.
      * intros [[->|H] Hn]; tauto.
    + assert (Hn : ~ In a seen) by (rewrite <- memb_In; congruence).
      simpl. rewrite IH. simpl. split.
      * intros [->|[H1 H2]]; tauto.
      * intros [[->|H] Hs]; [tauto|].
        destruct (eqb_spec a k) as [->|Hne]; [tauto|]. right. tauto.
Qed.

Lemma distinct_NoDup (seen keys : list K) : NoDup (distinct eqb seen keys).
Proof.
  revert seen; induction keys as [|a keys IH]; intros seen; simpl.
  - constructor.
  - destruct (memb eqb a seen); [apply IH|].
    constructor; [|apply IH]. rewrite distinct_In. simpl. tauto.
Qed.

Lemma insertBy_perm (before : R -> R -> bool) (x : R) (l : list R) :
  Permutation (insertBy before x l) (x :: l).
Proof.
  induction l as [|y l IH]; simpl; [reflexivity|].
  destruct (before x y); [reflexivity|].
  rewrite IH. apply perm_swap.
Qed.

Lemma orderBy_perm (before : R -> R -> bool) (l : list R) :
  Permutation (orderBy before l) l.
Proof.
  induction l as [|x l IH]; simpl; [reflexivity|].
  unfold orderBy in *. simpl. rewrite insertBy_perm. constructor. exact IH.
Qed.

(** Sums of a weight over rows. *)
Variable weight : R -> Z.

Definition total (rows : list R) : Z := fold_right Z.add 0 (map weight rows).

Lemma total_app (l l' : list R) : total (l ++ l') = total l + total l'.
Proof. unfold total. induction l; simpl; lia. Qed.

Lemma total_filter_split (p q : R -> bool) (rows : list R) :
  (forall r, p r && q r = false) ->
  total (filter (fun r => p r || q r) rows)
  = total (filter p rows) + total (filter q rows).
Proof.
  intros Hd. unfold total. induction rows as [|r rows IH]; simpl; [reflexivity|].
  specialize (Hd r). destruct (p r), (q r); simpl in *; try discriminate; lia.
Qed.

Variable key : R -> K.

(** The groups of distinct keys add up to the rows with one of the keys. *)
Lemma groups_total (ks : list K) (rows : list R) :
  NoDup ks ->
  fold_right Z.add 0
    (map (fun k => total (filter (fun r => eqb (key r) k) rows)) ks)
  = total (filter (fun r => memb eqb (key r) ks) rows).
Proof.
  induction 1 as [|k ks Hk Hnd IH]; simpl.
  - unfold total. induction rows; simpl; auto.
  - rewrite IH. symmetry. apply total_filter_split.
    intros r. destruct (eqb_spec (key r) k) as [->|]; simpl; [|reflexivity].
    destruct (memb eqb k ks) eqn:Hm; [|reflexivity].
    apply memb_In in Hm. contradiction.
Qed.

Lemma filter_all (p : R -> bool) (rows : list R) :
  (forall r, In r rows -> p r = true) -> filter p rows = rows.
Proof.
  induction rows as [|r rows IH]; intros H; simpl; [reflexivity|].
  rewrite (H r (or_introl eq_refl)), IH; [reflexivity|].
  intros r' Hr'. apply H. right. exact Hr'.
Qed.

(** [GROUP BY] partitions: the sums of the groups add up to the sum of
    all rows. *)
Lemma groupBy_total (rows : list R) :
  fold_right Z.add 0 (map (fun g => total (snd g)) (groupBy eqb key rows))
  = total rows.
Proof.
  unfold groupBy. rewrite map_map. simpl.
  rewrite groups_total by apply distinct_NoDup.
  f_equal. apply filter_all. intros r Hr.
  apply memb_In, distinct_In. split; [apply in_map, Hr|intros []].
Qed.

(** The keys of the groups are distinct. *)
Lemma groupBy_keys_NoDup (rows : list R) :
  NoDup (map fst (groupBy eqb key rows)).
Proof.
  unfold groupBy. rewrite map_map. simpl. rewrite map_id.
  apply distinct_NoDup.
Qed.

Lemma groupBy_In (rows : list R) (k : K) (g : list R) :
  In (k, g) (groupBy eqb key rows) ->
  g = filter (fun r => eqb (key r) k) rows /\ In k (map key rows).
Proof.
  unfold groupBy. rewrite in_map_iff. intros (k' & Heq & Hin).
  inversion Heq; subst. split; [reflexivity|].
  apply distinct_In in Hin. tauto.
Qed.

Lemma groupBy_keys (rows : list R) (k : K) :
  In k (map fst (groupBy eqb key rows)) <-> In k (map key rows).
Proof.
  unfold groupBy. rewrite map_map. simpl. rewrite map_id, distinct_In.
  simpl. tauto.
Qed.

End GroupFacts.

Lemma fold_total_perm (l l' : list Z) :
  Permutation l l' -> fold_right Z.add 0 l = fold_right Z.add 0 l'.
Proof. induction 1; simpl; lia. Qed.

(** ** The aggregation *)

(** The loop over the totals keeps the sum of the only row of kind
    "expense". *)
Lemma totalsLoop_expenses (scale : nat) (rows : list totalsRow)
    (acc : number * number) :
  NoDup (map t_transaction_type rows) ->
  snd (fold_left
         (fun (acc : number * number) row =>
            let '(totalIncome, totalExpenses) := acc in
            if JsString.eqb (t_transaction_type row) (lit "income")
            then (parseNumeric scale (t_total row), totalExpenses)
            else if JsString.eqb (t_transaction_type row) (lit "expense")
            then (totalIncome, parseNumeric scale (t_total row))
            else (totalIncome, totalExpenses))
         rows acc)
  = match find (fun row => JsString.eqb (t_transaction_type row) (lit "expense"))
                rows with
    | Some row => parseNumeric scale (t_total row)
    | None => snd acc
    end.
Proof.
  revert acc; induction rows as [|r rows IH]; intros [ti te] Hnd; simpl;
    [reflexivity|].
  inversion Hnd as [|? ? Hn Hnd']; subst.
  destruct (jsstring_eqb_spec (t_transaction_type r) (lit "income")) as [Hi|Hi].
  - rewrite Hi. simpl. rewrite IH by exact Hnd'. reflexivity.
  - destruct (jsstring_eqb_spec (t_transaction_type r) (lit "expense"))
      as [He|He].
    + rewrite IH by exact Hnd'.
      destruct (find _ rows) as [r'|] eqn:Hf; [|reflexivity].
      apply find_some in Hf. destruct Hf as [Hin Heq].
      destruct (jsstring_eqb_spec (t_transaction_type r') (lit "expense"))
        as [He'|]; [|discriminate].
      exfalso. apply Hn. rewrite He, <- He'. apply in_map, Hin.
    + rewrite IH by exact Hnd'. reflexivity.
Qed.

Lemma filter_period_expense (u : Z) (s e : isodate) (l : list expense) :
  filter (fun x => inPeriod u s e x && isExpense x) l
  = filter isExpense (filter (inPeriod u s e) l).
Proof.
  induction l as [|x l IH]; simpl; [reflexivity|].
  destruct (inPeriod u s e x); simpl; [|exact IH].
  destruct (isExpense x); simpl; congruence.
Qed.

Lemma totalsLoop_totalExpenses (scale : nat) (u : Z) (s e : isodate)
    (d : database) :
  snd (totalsLoop scale (totalsQuery u s e d))
  = parseNumeric scale
      (sumAmount (filter (fun x => inPeriod u s e x && isExpense x)
                         (expenses d))).
Proof.
  unfold totalsLoop. rewrite totalsLoop_expenses.
  2:{ unfold totalsQuery. rewrite map_map. simpl.
      apply (groupBy_keys_NoDup _ _ _ jsstring_eqb_spec). }
  rewrite filter_period_expense. unfold totalsQuery.
  set (rows := filter (inPeriod u s e) (expenses d)).
  destruct (find _ _) as [r|] eqn:Hfind.
  - apply find_some in Hfind. destruct Hfind as [Hin Heq].
    apply in_map_iff in Hin. destruct Hin as ([k g] & <- & Hg).
    simpl in *. apply (groupBy_In _ _ _ jsstring_eqb_spec) in Hg.
    destruct Hg as [-> _].
    destruct (jsstring_eqb_spec k (lit "expense")) as [Hk|]; [|discriminate].
    rewrite Hk. reflexivity.
  - simpl. replace (filter isExpense rows) with (@nil expense); [reflexivity|].
    symmetry.
    assert (Hnone : forall x, In x rows -> isExpense x = false).
    { intros x Hx. destruct (isExpense x) eqn:Hex; [|reflexivity].
      exfalso.
      assert (Hk : In (transaction_type x)
                      (map fst (groupBy JsString.eqb transaction_type rows)))
        by (apply (groupBy_keys _ _ _ jsstring_eqb_spec), in_map, Hx).
      apply in_map_iff in Hk. destruct Hk as ([k g] & Hk & Hg). simpl in Hk.
      subst k.
      pose proof (find_none _ _ Hfind
                    {| t_transaction_type := transaction_type x;
                       t_total := sumAmount g |}) as Hn.
      simpl in Hn. unfold isExpense in Hex. rewrite Hex in Hn.
      enough (true = false) by discriminate. apply Hn.
      apply in_map_iff. exists (transaction_type x, g).
      split; [reflexivity|exact Hg]. }
    clear - Hnone. induction rows as [|x rows IH]; simpl; [reflexivity|].
    rewrite (Hnone x (or_introl eq_refl)). apply IH.
    intros y Hy. apply Hnone. right. exact Hy.
Qed.

Lemma filter_key_le1 (cats : list expense_category) (i : Z) :
  NoDup (map cat_id cats) ->
  filter (fun c => i =? cat_id c) cats = []
  \/ exists c, filter (fun c => i =? cat_id c) cats = [c].
Proof.
  induction cats as [|c cats IH]; intros Hnd; simpl; [left; reflexivity|].
  inversion Hnd as [|? ? Hn Hnd']; subst.
  destruct (Z.eqb_spec i (cat_id c)) as [->|Hne]; [|apply IH, Hnd'].
  right. exists c. f_equal.
  clear - Hn. induction cats as [|c' cats IH]; simpl; [reflexivity|].
  destruct (Z.eqb_spec (cat_id c) (cat_id c')) as [Heq|_].
  - exfalso. apply Hn. simpl. left. congruence.
  - apply IH. intros H. apply Hn. right. exact H.
Qed.

(** With distinct category identifiers the join keeps every expense
    once. *)
Lemma leftJoin_single (cats : list expense_category) (x : expense) :
  NoDup (map cat_id cats) ->
  exists c, leftJoinCategory cats x = [(x, c)].
Proof.
  intros Hnd. unfold leftJoinCategory.
  destruct (category_id x) as [i|].
  - destruct (filter_key_le1 cats i Hnd) as [->|[c ->]]; simpl; eauto.
  - replace (filter (fun _ => false) cats) with (@nil expense_category);
      [eauto|].
    clear. induction cats; simpl; auto.
Qed.

Lemma leftJoin_rows (cats : list expense_category) (rows : list expense) :
  NoDup (map cat_id cats) ->
  map fst (flat_map (leftJoinCategory cats) rows) = rows.
Proof.
  intros Hnd. induction rows as [|x rows IH]; simpl; [reflexivity|].
  destruct (leftJoin_single cats x Hnd) as [c ->]. simpl. rewrite IH. reflexivity.
Qed.

(** The per-category sums add up to the sum of the expenses of the
    period. *)
Lemma categoryQuery_total (u : Z) (s e : isodate) (d : database) :
  NoDup (map cat_id (expense_categories d)) ->
  fold_right Z.add 0 (map c_amount (categoryQuery u s e d))
  = sumAmount (filter (fun x => inPeriod u s e x && isExpense x) (expenses d)).
Proof.
  intros Hnd. unfold categoryQuery.
  set (rows := filter _ (expenses d)).
  set (joined := flat_map _ rows).
  rewrite (fold_total_perm _ _ (Permutation_map c_amount (orderBy_perm _ _ _))).
  rewrite map_map. cbn [c_amount].
  rewrite <- (leftJoin_rows _ rows Hnd). fold joined.
  transitivity
    (fold_right Z.add 0
       (map (fun g => total _ (fun r : expense * option jsstring =>
                                 Db.amount (fst r)) (snd g))
            (groupBy option_eqb snd joined))).
  - f_equal. apply map_ext. intros g. unfold total, sumAmount.
    rewrite map_map. reflexivity.
  - rewrite (groupBy_total _ _ _ option_eqb_spec). unfold total, sumAmount.
    rewrite map_map. reflexivity.
Qed.

(** ** Running the queries *)

Lemma select_succeeds (A : Type) (q : database -> A) (w : world) :
  allSucceed w ->
  exists w',
    select q w = (Ok (q (db w)), w')
    /\ db w' = db w /\ pool w' = Connected /\ allSucceed w'.
Proof.
  unfold allSucceed, select, query. intros H.
  destruct (script w) as [|o rest]; simpl.
  - eexists. split; [reflexivity|]. simpl. auto.
  - inversion H as [|? ? Ho Hrest]; subst. eexists. split; [reflexivity|].
    simpl. auto.
Qed.

Lemma getFinancialData_succeeds (scale : nat) (u : Z) (s e : isodate)
    (w : world) :
  allSucceed w ->
  exists data w',
    getFinancialData scale u s e w = (Ok data, w')
    /\ db w' = db w /\ pool w' = Connected /\ allSucceed w'
    /\ totalIncome data = fst (totalsLoop scale (totalsQuery u s e (db w)))
    /\ totalExpenses data = snd (totalsLoop scale (totalsQuery u s e (db w)))
    /\ categoryBreakdown data
       = map (fun row =>
                {| category := c_category row;
                   amount := parseNumeric scale (c_amount row);
                   percentage :=
                     if gt (snd (totalsLoop scale (totalsQuery u s e (db w))))
                           zero
                     then (parseNumeric scale (c_amount row)
                           / snd (totalsLoop scale (totalsQuery u s e (db w)))
                           * 100)%float
                     else zero;
                   count := c_count row |})
             (categoryQuery u s e (db w))
    /\ dailyTrends data
       = map (fun row => {| date := d_date row;
                            trendAmount := parseNumeric scale (d_amount row) |})
             (trendsQuery u s e (db w))
    /\ paymentMethods data
       = map (fun row => {| method := p_method row;
                            methodAmount := parseNumeric scale (p_amount row);
                            methodCount := p_count row |})
             (paymentQuery u s e (db w)).
Proof.
  intros H0. unfold getFinancialData, bind.
  destruct (select_succeeds _ (totalsQuery u s e) w H0) as (w1 & -> & Hd1 & _ & H1).
  destruct (totalsLoop scale (totalsQuery u s e (db w))) as [ti te] eqn:Ht.
  destruct (select_succeeds _ (categoryQuery u s e) w1 H1) as (w2 & -> & Hd2 & _ & H2).
  destruct (select_succeeds _ (trendsQuery u s e) w2 H2) as (w3 & -> & Hd3 & _ & H3).
  destruct (select_succeeds _ (paymentQuery u s e) w3 H3) as (w4 & -> & Hd4 & Hp & H4).
  unfold ret. do 2 eexists. split; [reflexivity|].
  cbn [totalIncome totalExpenses categoryBreakdown dailyTrends paymentMethods
       fst snd].
  rewrite Hd3, Hd2, Hd1 in *. repeat split; auto; congruence.
Qed.

Lemma filter_none (A : Type) (p : A -> bool) (l : list A) :
  (forall x, In x l -> p x = false) -> filter p l = [].
Proof.
  induction l as [|x l IH]; intros H; simpl; [reflexivity|].
  rewrite (H x (or_introl eq_refl)). apply IH. intros y Hy. apply H. right. exact Hy.
Qed.

(** C5: when no row of the user lies in the period (and the queries
    succeed), the aggregator returns zero totals and empty lists, and
    the health scorer gives it 20 + 30 + 20 = 70 points and the status
    "Good". *)
Theorem no_transactions_score (scale : nat) (u : Z) (s e : isodate)
    (w : world) :
  allSucceed w ->
  (forall x, In x (expenses (db w)) -> inPeriod u s e x = false) ->
  exists data w',
    getFinancialData scale u s e w = (Ok data, w')
    /\ totalIncome data = zero /\ totalExpenses data = zero
    /\ categoryBreakdown data = [] /\ dailyTrends data = []
    /\ paymentMethods data = []
    /\ savingsRate (totalIncome data) (totalExpenses data) = zero
    /\ savingsContribution
         (savingsRate (totalIncome data) (totalExpenses data)) = 20
    /\ concentrationContribution (topPercentage (categoryBreakdown data)) = 30
    /\ regularityContribution (List.length (dailyTrends data)) = 20
    /\ score (calculateFinancialHealth data) = 70
    /\ status (calculateFinancialHealth data) = lit "Good".
Proof.
  intros Hw Hnone.
  destruct (getFinancialData_succeeds scale u s e w Hw)
    as (data & w' & Hrun & _ & _ & _ & Hti & Hte & Hcb & Hdt & Hpm).
  assert (H1 : filter (inPeriod u s e) (expenses (db w)) = [])
    by (apply filter_none, Hnone).
  assert (H2 : filter (fun x => inPeriod u s e x && isExpense x)
                 (expenses (db w)) = []).
  { apply filter_none. intros x Hx. rewrite (Hnone x Hx). reflexivity. }
  unfold totalsQuery in Hti, Hte. unfold categoryQuery in Hcb.
  unfold trendsQuery in Hdt. unfold paymentQuery in Hpm.
  rewrite H1 in Hti, Hte, Hpm. rewrite H2 in Hcb, Hdt.
  cbn in Hti, Hte, Hcb, Hdt, Hpm.
  exists data, w'. split; [exact Hrun|].
  destruct data as [ti te cb dt pm]. cbn in *. subst.
  repeat split; reflexivity.
Qed.

Lemma no_transactions_score_witness :
  exists data w',
    getFinancialData 2 2 jan10_2024 jan20_2024 (fresh twoCategories)
    = (Ok data, w')
    /\ totalIncome data = zero /\ totalExpenses data = zero
    /\ categoryBreakdown data = [] /\ dailyTrends data = []
    /\ paymentMethods data = []
    /\ savingsRate (totalIncome data) (totalExpenses data) = zero
    /\ savingsContribution
         (savingsRate (totalIncome data) (totalExpenses data)) = 20
    /\ concentrationContribution (topPercentage (categoryBreakdown data)) = 30
    /\ regularityContribution (List.length (dailyTrends data)) = 20
    /\ score (calculateFinancialHealth data) = 70
    /\ status (calculateFinancialHealth data) = lit "Good".
Proof.
  apply (no_transactions_score 2 2 jan10_2024 jan20_2024 (fresh twoCategories)).
  - constructor.
  - intros x [<-|[<-|[]]]; reflexivity.
Defined.

(** C2, as stated, fails: with one expense of 0.10 in one category and
    one of 0.20 in another, totalExpenses is the number 0.3 while the
    amounts of the breakdown, 0.2 and 0.1, add up to
    0.30000000000000004, both as the language adds them and as exact
    values. *)
Lemma category_amounts_do_not_add_up :
  exists data w',
    getFinancialData 2 1 jan10_2024 jan20_2024 (fresh twoCategories)
    = (Ok data, w')
    /\ map amount (categoryBreakdown data) = [parseDecimal 20 2; parseDecimal 10 2]
    /\ totalExpenses data = parseDecimal 30 2
    /\ totalExpenses data <> sumNumbers (map amount (categoryBreakdown data))
    /\ match exactValue (totalExpenses data),
             exactSum (map amount (categoryBreakdown data)) with
       | Some total, Some sum => dyadicEqb total sum = false
       | _, _ => False
       end.
Proof.
  do 2 eexists. split; [vm_compute; reflexivity|].
  split; [vm_compute; reflexivity|]. split; [vm_compute; reflexivity|].
  split.
  - intros H.
    apply (f_equal (fun x => PrimFloat.eqb x (parseDecimal 30 2))) in H.
    vm_compute in H. discriminate H.
  - vm_compute. reflexivity.
Qed.

(** C2 (amended): when the queries succeed and category identifiers
    are unique, the amounts of the breakdown are the binary64 roundings
    of the per-category decimal sums, totalExpenses is the rounding of
    the sum of these decimal sums, and that sum is the decimal sum of
    the user's expense rows in the interval. *)
Theorem expense_total_is_category_sum (scale : nat) (u : Z) (s e : isodate)
    (w : world) :
  allSucceed w ->
  NoDup (map cat_id (expense_categories (db w))) ->
  exists data w',
    getFinancialData scale u s e w = (Ok data, w')
    /\ map amount (categoryBreakdown data)
       = map (parseNumeric scale) (map c_amount (categoryQuery u s e (db w)))
    /\ totalExpenses data
       = parseNumeric scale
           (fold_right Z.add 0 (map c_amount (categoryQuery u s e (db w))))
    /\ fold_right Z.add 0 (map c_amount (categoryQuery u s e (db w)))
       = sumAmount (filter (fun x => inPeriod u s e x && isExpense x)
                           (expenses (db w))).
Proof.
  intros Hw Hnd.
  destruct (getFinancialData_succeeds scale u s e w Hw)
    as (data & w' & Hrun & _ & _ & _ & _ & Hte & Hcb & _ & _).
  exists data, w'. split; [exact Hrun|].
  rewrite Hcb, Hte, totalsLoop_totalExpenses, categoryQuery_total by exact Hnd.
  rewrite !map_map. cbn [amount]. repeat split; reflexivity.
Qed.

Lemma expense_total_is_category_sum_witness :
  exists data w',
    getFinancialData 2 1 jan10_2024 jan20_2024 (fresh twoCategories)
    = (Ok data, w')
    /\ map amount (categoryBreakdown data)
       = map (parseNumeric 2)
           (map c_amount (categoryQuery 1 jan10_2024 jan20_2024
                            (db (fresh twoCategories))))
    /\ totalExpenses data
       = parseNumeric 2
           (fold_right Z.add 0
              (map c_amount (categoryQuery 1 jan10_2024 jan20_2024
                               (db (fresh twoCategories)))))
    /\ fold_right Z.add 0
         (map c_amount (categoryQuery 1 jan10_2024 jan20_2024
                          (db (fresh twoCategories))))
       = sumAmount (filter (fun x => inPeriod 1 jan10_2024 jan20_2024 x
                                     && isExpense x)
                           (expenses (db (fresh twoCategories)))).
Proof.
  apply (expense_total_is_category_sum 2 1 jan10_2024 jan20_2024
           (fresh twoCategories)).
  - constructor.
  - vm_compute. repeat constructor; simpl; intuition discriminate.
Defined.

End AggregationFacts.

(* ================================================================= *)
Module ParserFacts.

Import StringFacts JsRegExp Fallback Examples.

(** ** Strings and patterns *)

Lemma startsWith_spec (p s : jsstring) :
  startsWith p s = true <-> exists post, s = p ++ post.
Proof.
  revert s; induction p as [|a p IH]; intros s; simpl.
  - split; eauto.
  - destruct s as [|b s]; [split; [discriminate|intros [? ?]; discriminate]|].
    rewrite andb_true_iff, IH, N.eqb_eq. split.
    + intros [-> [post ->]]. eauto.
    + intros [post H]. inversion H; subst. eauto.
Qed.

(** [includes] is the substring relation. *)
Lemma includes_spec (p s : jsstring) :
  includes p s = true <-> exists pre post, s = pre ++ p ++ post.
Proof.
  induction s as [|c s IH]; simpl.
  - rewrite orb_false_r, startsWith_spec. split.
    + intros [post H]. exists [], post. exact H.
    + intros (pre & post & H). destruct pre; [eauto|discriminate].
  - rewrite orb_true_iff, startsWith_spec, IH. split.
    + intros [[post H]|(pre & post & H)].
      * exists [], post. exact H.
      * exists (c :: pre), post. rewrite H. reflexivity.
    + intros (pre & post & H). destruct pre as [|c' pre]; simpl in H.
      * left. eauto.
      * right. inversion H; subst. eauto.
Qed.

(** A match reaches its continuation. *)
Lemma rmatch_continues (A : Type) (r : regex) :
  forall (s : jsstring) (cap : option jsstring)
         (k : jsstring -> option jsstring -> option A) (x : A),
    rmatch r s cap k = Some x ->
    exists s' cap', k s' cap' = Some x.
Proof.
  induction r as [p|r1 IH1 r2 IH2|r IH|r IH|r IH]; intros s cap k x; simpl.
  - destruct s as [|c s]; [discriminate|]. destruct (p c); [eauto|discriminate].
  - intros H. apply IH1 in H. destruct H as (s1 & c1 & H). eapply IH2, H.
  - generalize (List.length s) as fuel. intros fuel. revert s cap.
    induction fuel as [|fuel IHf]; intros s cap; [eauto|].
    destruct (rmatch r s cap _) as [y|] eqn:Hm.
    + intros Hy. inversion Hy; subst y. apply IH in Hm.
      destruct Hm as (s1 & c1 & H).
      destruct (List.length s1 <? List.length s)%nat; [|discriminate].
      eapply IHf, H.
    + eauto.
  - destruct (rmatch r s cap k) as [y|] eqn:Hm.
    + intros Hy. inversion Hy; subst y. eapply IH, Hm.
    + eauto.
  - intros H. apply IH in H. destruct H as (s1 & c1 & H). eauto.
Qed.

(** A match of a group reaches its continuation with the group's text. *)
Lemma rmatch_group (A : Type) (r : regex) (s : jsstring)
    (cap : option jsstring) (k : jsstring -> option jsstring -> option A)
    (x : A) :
  rmatch (Group r) s cap k = Some x ->
  exists s' g, k s' (Some g) = Some x.
Proof.
  simpl. intros H. apply rmatch_continues in H.
  destruct H as (s' & _ & H). eauto.
Qed.

Lemma exec_matchAt (r : regex) (s : jsstring) (c : option jsstring) :
  exec r s = Some c ->
  exists pre s' rest, s = pre ++ s' /\ matchAt r s' = Some (c, rest).
Proof.
  induction s as [|a s IH]; simpl.
  - destruct (matchAt r []) as [[c' rest]|] eqn:Hm; [|discriminate].
    intros H; inversion H; subst. exists [], [], rest. auto.
  - destruct (matchAt r (a :: s)) as [[c' rest]|] eqn:Hm.
    + intros H; inversion H; subst. exists [], (a :: s), rest. auto.
    + intros H. apply IH in H. destruct H as (pre & s' & rest & -> & H).
      exists (a :: pre), s', rest. auto.
Qed.

Lemma rmatch_Seq (A : Type) (r1 r2 : regex) (s : jsstring)
    (cap : option jsstring) (k : jsstring -> option jsstring -> option A) :
  rmatch (Seq r1 r2) s cap k
  = rmatch r1 s cap (fun s' cap' => rmatch r2 s' cap' k).
Proof. reflexivity. Qed.

Lemma rmatch_Chr (A : Type) (p : char16 -> bool) (s : jsstring)
    (cap : option jsstring) (k : jsstring -> option jsstring -> option A) :
  rmatch (Chr p) s cap k
  = match s with
    | c :: s' => if p c then k s' cap else None
    | [] => None
    end.
Proof. reflexivity. Qed.

(** Whenever the amount pattern matches, its group has a text. *)
Lemma amountPattern_group (s : jsstring) (c : option jsstring) :
  exec amountPattern s = Some c -> exists g, c = Some g.
Proof.
  intros H. apply exec_matchAt in H. destruct H as (_ & s' & rest & _ & H).
  unfold matchAt, amountPattern in H. rewrite rmatch_Seq in H.
  apply rmatch_continues in H. destruct H as (s1 & c1 & H).
  apply rmatch_group in H. destruct H as (s2 & g & H).
  inversion H; subst. eauto.
Qed.

Lemma merchantPattern_group (s : jsstring) (c : option jsstring) :
  exec merchantPattern s = Some c -> exists g, c = Some g.
Proof.
  intros H. apply exec_matchAt in H. destruct H as (_ & s' & rest & _ & H).
  unfold matchAt, merchantPattern in H.
  rewrite rmatch_Seq in H.
  apply rmatch_continues in H. destruct H as (s1 & c1 & H).
  rewrite rmatch_Seq in H.
  apply rmatch_continues in H. destruct H as (s2 & c2 & H).
  rewrite rmatch_Seq in H.
  apply rmatch_continues in H. destruct H as (s3 & c3 & H).
  apply rmatch_group in H. destruct H as (s4 & g & H).
  inversion H; subst. eauto.
Qed.

(** The amount pattern matches at the head of a text only if the text
    starts with the rupee sign and a digit. *)
Lemma amountPattern_head (s : jsstring) (x : option jsstring * jsstring) :
  matchAt amountPattern s = Some x ->
  exists d rest, s = rupee :: d :: rest /\ isDigit d = true.
Proof.
  unfold matchAt, amountPattern. rewrite rmatch_Seq, rmatch_Chr.
  destruct s as [|a s]; [discriminate|].
  destruct (N.eqb_spec rupee a) as [<-|]; [|discriminate].
  change (rmatch (Group ?r) ?s ?c ?k)
    with (rmatch r s c
            (fun s' _ => k s' (Some (firstn (List.length s - List.length s') s)))).
  unfold Plus at 1. rewrite !rmatch_Seq. unfold digit at 1. rewrite rmatch_Chr.
  destruct s as [|d s]; [discriminate|].
  destruct (isDigit d) eqn:Hd; [|discriminate]. eauto.
Qed.

Lemma amountPattern_absent (s : jsstring) :
  (forall pre d post, isDigit d = true -> s <> pre ++ rupee :: d :: post) ->
  exec amountPattern s = None.
Proof.
  induction s as [|a s IH]; intros H; simpl.
  - destruct (matchAt amountPattern []) as [x|] eqn:Hm; [|reflexivity].
    apply amountPattern_head in Hm. destruct Hm as (d & rest & Heq & _).
    discriminate.
  - destruct (matchAt amountPattern (a :: s)) as [x|] eqn:Hm.
    + apply amountPattern_head in Hm. destruct Hm as (d & rest & Heq & Hd).
      exfalso. apply (H [] d rest Hd). exact Heq.
    + apply IH. intros pre d post Hd Heq. apply (H (a :: pre) d post Hd).
      rewrite Heq. reflexivity.
Qed.

(** ** The fallback parser *)

Lemma categoryLoop_In (toLowerCase : jsstring -> jsstring)
    (entries : list (jsstring * jsstring)) (entry c : jsstring) :
  In (categoryLoop toLowerCase entries entry c) (c :: map snd entries).
Proof.
  induction entries as [|[k cat] entries IH]; simpl; [auto|].
  destruct (includes k (toLowerCase entry)); [auto|].
  destruct IH as [IH|IH]; auto.
Qed.

Lemma categoryMap_enumerated (c : jsstring) :
  In c (lit "Miscellaneous" :: map snd categoryMap) -> In c categories.
Proof.
  intros H.
  assert (Hall : forallb (fun c => existsb (JsString.eqb c) categories)
                   (lit "Miscellaneous" :: map snd categoryMap) = true)
    by (vm_compute; reflexivity).
  rewrite forallb_forall in Hall. specialize (Hall c H).
  apply existsb_exists in Hall. destruct Hall as (c' & Hin & Heq).
  destruct (jsstring_eqb_spec c c'); [subst; exact Hin|discriminate].
Qed.

Lemma description_truncated (entry : jsstring) :
  (if 100 <? jslength entry then substring0 100 entry else entry)
  = firstn 100 entry.
Proof.
  unfold jslength, substring0. destruct (Z.ltb_spec 100 (Z.of_nat (List.length entry))).
  - reflexivity.
  - symmetry. apply firstn_all2. lia.
Qed.

(** The parser reads [toLowerCase] at the entry alone. *)
Lemma categoryLoop_ext (f g : jsstring -> jsstring)
    (entries : list (jsstring * jsstring)) (entry c : jsstring) :
  f entry = g entry ->
  categoryLoop f entries entry c = categoryLoop g entries entry c.
Proof.
  intros H. induction entries as [|[k cat] entries IH]; simpl; [reflexivity|].
  rewrite H, IH. reflexivity.
Qed.

Lemma parseExpenseWithFallback_ext (f g : jsstring -> jsstring)
    (entry : jsstring) :
  f entry = g entry ->
  parseExpenseWithFallback f entry = parseExpenseWithFallback g entry.
Proof.
  intros H. unfold parseExpenseWithFallback.
  rewrite (categoryLoop_ext f g _ _ _ H), H. reflexivity.
Qed.

(** The parser always returns; every field but the amount and the
    merchant is read off the entry directly. *)
Lemma parseExpenseWithFallback_fields (toLowerCase : jsstring -> jsstring)
    (entry : jsstring) :
  exists a m,
    parseExpenseWithFallback toLowerCase entry
    = Ok {| amount := a;
            description := firstn 100 entry;
            category :=
              categoryLoop toLowerCase categoryMap entry (lit "Miscellaneous");
            transactionType :=
              if existsb (fun keyword => includes keyword (toLowerCase entry))
                         incomeKeywords
              then lit "income" else lit "expense";
            merchantName := m;
            confidence := fallbackConfidence |}
    /\ (exec amountPattern entry = None -> a = defaultAmount)
    /\ (exec merchantPattern entry = None -> m = None).
Proof.
  unfold parseExpenseWithFallback. rewrite description_truncated.
  destruct (exec amountPattern entry) as [c|] eqn:Ha;
    [destruct (amountPattern_group _ _ Ha) as [g ->]|];
    (destruct (exec merchantPattern entry) as [c'|] eqn:Hm;
     [destruct (merchantPattern_group _ _ Hm) as [g' ->]|]);
    do 2 eexists; (split; [reflexivity|]); split; intros H;
    try discriminate H; reflexivity.
Qed.

(** The kind is "income" exactly when the lower-cased entry contains
    one of the income keywords. *)
Lemma income_keywords (lowered : jsstring) :
  existsb (fun keyword => includes keyword lowered) incomeKeywords = true
  <-> exists keyword pre post,
        In keyword incomeKeywords /\ lowered = pre ++ keyword ++ post.
Proof.
  rewrite existsb_exists. split.
  - intros (k & Hk & Hi). apply includes_spec in Hi.
    destruct Hi as (pre & post & Hi). eauto.
  - intros (k & pre & post & Hk & Heq). exists k. split; [exact Hk|].
    apply includes_spec. eauto.
Qed.

(** C6: the fallback parser returns a record for every text; its
    category is one of the fifteen enumerated ones, its kind is "income"
    exactly when the lower-cased text contains an income keyword and
    "expense" otherwise, its confidence is 0.7, its amount is 100 when
    the text has no rupee sign followed by a digit, and its description
    is the first 100 code units of the text. *)
Theorem fallback_parser_total (toLowerCase : jsstring -> jsstring)
    (entry : jsstring) :
  exists r,
    parseExpenseWithFallback toLowerCase entry = Ok r
    /\ In (category r) categories
    /\ (transactionType r = lit "income" \/ transactionType r = lit "expense")
    /\ (transactionType r = lit "income"
        <-> exists keyword pre post,
              In keyword incomeKeywords
              /\ toLowerCase entry = pre ++ keyword ++ post)
    /\ confidence r = fallbackConfidence
    /\ fallbackConfidence = parseDecimal 7 1
    /\ ((forall pre d post,
            isDigit d = true -> entry <> pre ++ rupee :: d :: post) ->
        amount r = 100%float)
    /\ description r = firstn 100 entry
    /\ (List.length (description r) <= 100)%nat.
Proof.
  destruct (parseExpenseWithFallback_fields toLowerCase entry)
    as (a & m & Hr & Ha & _).
  eexists. split; [exact Hr|].
  cbn [category transactionType confidence amount description].
  split; [apply categoryMap_enumerated, categoryLoop_In|].
  split; [destruct (existsb _ incomeKeywords); auto|].
  split.
  { rewrite <- income_keywords.
    destruct (existsb _ incomeKeywords); split; intros H;
      try reflexivity; try discriminate H;
      vm_compute in H; discriminate H. }
  split; [reflexivity|]. split; [vm_compute; reflexivity|].
  split; [intros Habs; apply Ha, amountPattern_absent, Habs|].
  split; [reflexivity|]. apply firstn_le_length.
Qed.

(** C7: on "Paid [rupee]500 for groceries at BigBazaar", which lower-cases
    to itself with small letters, the fallback parser returns amount
    500, category "Food & Dining", kind "expense", merchant "BigBazaar"
    and confidence 0.7. *)
Theorem groceries_scenario (toLowerCase : jsstring -> jsstring) :
  toLowerCase groceriesEntry
  = lit "paid " ++ [rupee] ++ lit "500 for groceries at bigbazaar" ->
  parseExpenseWithFallback toLowerCase groceriesEntry
  = Ok {| amount := 500%float;
          description := groceriesEntry;
          category := lit "Food & Dining";
          transactionType := lit "expense";
          merchantName := Some (lit "BigBazaar");
          confidence := fallbackConfidence |}
  /\ fallbackConfidence = parseDecimal 7 1.
Proof.
  intros H. split; [|vm_compute; reflexivity].
  rewrite (parseExpenseWithFallback_ext toLowerCase toLowerCase_basic).
  - vm_compute. reflexivity.
  - rewrite H. vm_compute. reflexivity.
Qed.

Lemma groceries_scenario_witness :
  parseExpenseWithFallback toLowerCase_basic groceriesEntry
  = Ok {| amount := 500%float;
          description := groceriesEntry;
          category := lit "Food & Dining";
          transactionType := lit "expense";
          merchantName := Some (lit "BigBazaar");
          confidence := fallbackConfidence |}
  /\ fallbackConfidence = parseDecimal 7 1.
Proof.
  apply (groceries_scenario toLowerCase_basic). vm_compute. reflexivity.
Defined.

End ParserFacts.

(* ================================================================= *)
Module ToolFacts.

Import Db Effects Insights Examples.

(** ** The recommendations *)

(** C9: with an agent at hand, a call that throws or whose reply has no
    text yields the three recommendations of the catch block, a reply
    without a usable line yields the three of the empty-reply fallback,
    and any other reply its usable lines; the result is never empty, and
    nothing thrown inside the generator gets past it. *)
Theorem recommendations_never_fail (agent : Agent)
    (currentData : FinancialData) (comparisonData : option FinancialData) :
  match generate agent currentData comparisonData with
  | Throw _ | Ok None =>
      generateAIRecommendations (WithAgents (Ok (Some agent)))
        currentData comparisonData = failureFallback
  | Ok (Some text) =>
      match parseRecommendations text with
      | [] =>
          generateAIRecommendations (WithAgents (Ok (Some agent)))
            currentData comparisonData = emptyReplyFallback
      | usable =>
          generateAIRecommendations (WithAgents (Ok (Some agent)))
            currentData comparisonData = usable
      end
  end
  /\ generateAIRecommendations (WithAgents (Ok (Some agent)))
       currentData comparisonData <> []
  /\ (forall mastra e,
         recommendationsBody mastra currentData comparisonData = Throw e ->
         generateAIRecommendations mastra currentData comparisonData
         = failureFallback)
  /\ List.length failureFallback = 3%nat
  /\ List.length emptyReplyFallback = 3%nat.
Proof.
  unfold generateAIRecommendations, recommendationsBody.
  split; [|split; [|split; [|split; reflexivity]]].
  - destruct (generate agent currentData comparisonData) as [[text|]|e];
      try reflexivity.
    destruct (parseRecommendations text) as [|l ls]; reflexivity.
  - destruct (generate agent currentData comparisonData) as [[text|]|e];
      try discriminate.
    destruct (parseRecommendations text) as [|l ls]; discriminate.
  - intros mastra e H. unfold recommendationsBody in H.
    destruct mastra as [|[[a|]|e']]; try discriminate;
      try reflexivity.
    destruct (generate a currentData comparisonData) as [[text|]|e''];
      try discriminate; reflexivity.
Qed.

(** ** The connection *)

Section AddTool.

Variable toLowerCase : jsstring -> jsstring.
Variable today : Z.
Variable toNumeric : number -> Z.
Variable numberToString : number -> jsstring.
Variable nextId : database -> Z.

(** C10 fails on the code: when the agent extracts a category that the
    table does not hold, the add tool has opened a connection for the
    lookup, throws, and returns its failure result without ever ending
    the pool. *)
Theorem add_expense_leaks_connection :
  exists r w',
    AddExpense.execute toLowerCase today toNumeric numberToString nextId
      vegetablesContext (WithAgents (Ok (Some unknownCategoryAgent)))
      (fresh twoCategories)
    = (Ok r, w')
    /\ AddExpense.success r = false
    /\ AddExpense.message r
       = lit "Failed to add expense: Category not found: Groceries"
    /\ pool w' = Connected.
Proof.
  do 2 eexists. split; [vm_compute; reflexivity|].
  repeat split; vm_compute; reflexivity.
Qed.

End AddTool.

End ToolFacts.

(* ================================================================= *)
Module HealthBounds.

Import FloatAxioms.
Import StringFacts DateFacts Db Effects Insights HealthSpec AggregationSpec AggregationFacts Examples ToolSpec Scenarios.

(** ** More on the health score *)

(** X1: the score is one of 30, 40, ..., 100. *)
Theorem health_score_range (data : FinancialData) :
  30 <= score (calculateFinancialHealth data) <= 100
  /\ (score (calculateFinancialHealth data)) mod 10 = 0
  /\ (status (calculateFinancialHealth data) = lit "Needs Improvement"
      <-> score (calculateFinancialHealth data) = 30)
  /\ (List.length (areas (calculateFinancialHealth data)) <= 3)%nat.
Proof.
  unfold calculateFinancialHealth. cbv zeta. cbn [score status areas].
  unfold number.
  set (n := Z.of_nat (List.length (dailyTrends data))).
  destruct (gt (totalIncome data) zero);
    repeat match goal with
           | |- context [if ge ?a ?b then _ else _] => destruct (ge a b)
           | |- context [if le ?a ?b then _ else _] => destruct (le a b)
           | |- context [if lt ?a ?b then _ else _] => destruct (lt a b)
           | |- context [if gt ?a ?b then _ else _] => destruct (gt a b)
           end;
    destruct (7 <=? n); destruct (n <? 7);
    (split; [cbn; lia|]); (split; [reflexivity|]);
    (split; [split; intros H; vm_compute in H |- *; congruence|]);
    cbn; lia.
Qed.

(** ** The order of numbers *)

Lemma SFcompare_swap (a b : spec_float) :
  SFcompare b a = option_map CompOpp (SFcompare a b).
Proof.
  destruct a as [sa|sa| |sa ma ea], b as [sb|sb| |sb mb eb]; simpl;
    try reflexivity;
    try (destruct sa; reflexivity); try (destruct sb; reflexivity);
    try (destruct sa, sb; reflexivity).
  destruct sa, sb; try reflexivity;
    rewrite (Z.compare_antisym ea eb); destruct (ea ?= eb); simpl;
    try reflexivity;
    rewrite (Pos.compare_cont_antisym ma mb Eq); simpl;
    try rewrite CompOpp_involutive; reflexivity.
Qed.

(** [x >= y] excludes [x < y], and [x <= y] excludes [x > y]. *)
Lemma ge_not_lt (x y : number) : ge x y = true -> lt x y = false.
Proof.
  unfold ge, lt. rewrite leb_spec, ltb_spec. unfold SFleb, SFltb.
  rewrite (SFcompare_swap (Prim2SF x) (Prim2SF y)).
  destruct (SFcompare (Prim2SF x) (Prim2SF y)) as [[| |]|]; simpl; congruence.
Qed.

Lemma le_not_gt (x y : number) : le x y = true -> gt x y = false.
Proof. intros H. apply (ge_not_lt y x). exact H. Qed.

Lemma SFcompare_nan (a b : spec_float) :
  SFcompare a b = None -> SFcompare a a = None \/ SFcompare b b = None.
Proof.
  destruct a as [sa|sa| |sa ma ea], b as [sb|sb| |sb mb eb]; simpl;
    try discriminate; auto.
Qed.

Lemma is_nan_compare (x : number) :
  PrimFloat.is_nan x = false -> SFcompare (Prim2SF x) (Prim2SF x) <> None.
Proof.
  unfold PrimFloat.is_nan. rewrite eqb_spec. unfold SFeqb.
  destruct (SFcompare (Prim2SF x) (Prim2SF x)); [discriminate|].
  simpl. discriminate.
Qed.

(** Two numbers that are not NaN are comparable. *)
Lemma not_lt_ge (x y : number) :
  PrimFloat.is_nan x = false -> PrimFloat.is_nan y = false ->
  lt x y = false -> ge x y = true.
Proof.
  intros Hx Hy. apply is_nan_compare in Hx. apply is_nan_compare in Hy.
  unfold ge, lt. rewrite leb_spec, ltb_spec. unfold SFleb, SFltb.
  rewrite (SFcompare_swap (Prim2SF x) (Prim2SF y)).
  destruct (SFcompare (Prim2SF x) (Prim2SF y)) as [[| |]|] eqn:Hc; simpl;
    try congruence.
  destruct (SFcompare_nan _ _ Hc); contradiction.
Qed.

Lemma not_gt_le (x y : number) :
  PrimFloat.is_nan x = false -> PrimFloat.is_nan y = false ->
  gt x y = false -> le x y = true.
Proof. intros Hx Hy H. apply (not_lt_ge y x Hy Hx H). Qed.

(** X2: a full score comes with no area to improve; without a full score
    an area is named unless the savings rate or the top share is NaN. *)
Theorem full_score_no_areas (data : FinancialData) :
  (score (calculateFinancialHealth data) = 100 ->
   areas (calculateFinancialHealth data) = [])
  /\ (PrimFloat.is_nan (savingsRate (totalIncome data) (totalExpenses data))
      = false ->
      PrimFloat.is_nan (topPercentage (categoryBreakdown data)) = false ->
      areas (calculateFinancialHealth data) = [] ->
      score (calculateFinancialHealth data) = 100).
Proof.
  unfold calculateFinancialHealth, savingsRate, topPercentage. cbv zeta.
  cbn [score areas]. unfold number.
  set (rate := if gt (totalIncome data) zero
               then ((totalIncome data - totalExpenses data)
                     / totalIncome data * 100)%float
               else zero).
  set (share := match categoryBreakdown data with
                | [] => zero
                | top :: _ => percentage top
                end).
  set (n := Z.of_nat (List.length (dailyTrends data))).
  split.
  - destruct (ge rate 20) eqn:H20.
    + rewrite (ge_not_lt _ _ H20).
      destruct (le share 40) eqn:H40.
      * rewrite (le_not_gt _ _ H40).
        destruct (Z.leb_spec 7 n); [|intros; lia].
        destruct (Z.ltb_spec n 7); [lia|]. reflexivity.
      * destruct (le share 50), (7 <=? n); intros; lia.
    + destruct (ge rate 10), (ge rate 0), (le share 40), (le share 50),
        (7 <=? n); intros; lia.
  - intros Hr Hs.
    destruct (lt rate 20) eqn:H20; [destruct (gt share 40), (n <? 7); discriminate|].
    rewrite (not_lt_ge rate 20 Hr eq_refl H20).
    destruct (gt share 40) eqn:H40; [destruct (n <? 7); discriminate|].
    rewrite (not_gt_le share 40 Hs eq_refl H40).
    destruct (Z.ltb_spec n 7); [discriminate|].
    destruct (Z.leb_spec 7 n); [reflexivity|lia].
Qed.

Lemma full_score_no_areas_witness :
  areas (calculateFinancialHealth thriftyData) = []
  /\ score (calculateFinancialHealth thriftyData) = 100.
Proof.
  assert (H : areas (calculateFinancialHealth thriftyData) = [])
    by (vm_compute; reflexivity).
  split; [exact H|].
  apply (proj2 (full_score_no_areas thriftyData));
    [vm_compute; reflexivity|vm_compute; reflexivity|exact H].
Defined.

End HealthBounds.

(* ================================================================= *)
Module ReportFacts.

Import StringFacts DateFacts Db Effects Insights HealthSpec AggregationSpec AggregationFacts Examples ToolSpec Scenarios.

(** ** Ordering *)

Section OrderFacts.

Variable R : Type.
Variable before : R -> R -> bool.
Hypothesis before_total : forall a b, before a b = false -> before b a = true.
Hypothesis before_trans :
  forall a b c, before a b = true -> before b c = true -> before a c = true.

Lemma insertBy_In (x y : R) (l : list R) :
  In y (insertBy before x l) <-> y = x \/ In y l.
Proof.
  induction l as [|z l IH]; simpl; [intuition|].
  destruct (before x z); simpl; [intuition|]. rewrite IH. intuition.
Qed.

Lemma insertBy_sorted (x : R) (l : list R) :
  StronglySorted (fun a b => before a b = true) l ->
  StronglySorted (fun a b => before a b = true) (insertBy before x l).
Proof.
  induction 1 as [|z l Hs IH Hz]; simpl.
  - repeat constructor.
  - destruct (before x z) eqn:Hxz.
    + constructor; [constructor; assumption|].
      constructor; [exact Hxz|].
      rewrite Forall_forall in *. intros y Hy.
      apply (before_trans x z y Hxz), Hz, Hy.
    + constructor; [exact IH|].
      rewrite Forall_forall in *. intros y Hy.
      apply insertBy_In in Hy. destruct Hy as [->|Hy]; [|apply Hz, Hy].
      apply before_total, Hxz.
Qed.

(** [ORDER BY] sorts. *)
Lemma orderBy_sorted (l : list R) :
  StronglySorted (fun a b => before a b = true) (orderBy before l).
Proof.
  induction l as [|x l IH]; simpl; [constructor|].
  apply insertBy_sorted, IH.
Qed.

End OrderFacts.

Lemma orderBy_In (R : Type) (before : R -> R -> bool) (x : R) (l : list R) :
  In x (orderBy before l) <-> In x l.
Proof.
  split; apply Permutation_in; [|symmetry]; apply orderBy_perm.
Qed.

Lemma StronglySorted_map (A B : Type) (f : A -> B) (P : B -> B -> Prop)
    (l : list A) :
  StronglySorted (fun a b => P (f a) (f b)) l -> StronglySorted P (map f l).
Proof.
  induction 1 as [|a l Hs IH Ha]; simpl; constructor; [exact IH|].
  rewrite Forall_forall in *. intros b Hb. apply in_map_iff in Hb.
  destruct Hb as (x & <- & Hx). apply Ha, Hx.
Qed.

(** ** More on the aggregation *)

Lemma totalsLoop_income (scale : nat) (rows : list totalsRow)
    (acc : number * number) :
  NoDup (map t_transaction_type rows) ->
  fst (fold_left
         (fun (acc : number * number) row =>
            let '(totalIncome, totalExpenses) := acc in
            if JsString.eqb (t_transaction_type row) (lit "income")
            then (parseNumeric scale (t_total row), totalExpenses)
            else if JsString.eqb (t_transaction_type row) (lit "expense")
            then (totalIncome, parseNumeric scale (t_total row))
            else (totalIncome, totalExpenses))
         rows acc)
  = match find (fun row => JsString.eqb (t_transaction_type row) (lit "income"))
                rows with
    | Some row => parseNumeric scale (t_total row)
    | None => fst acc
    end.
Proof.
  revert acc; induction rows as [|r rows IH]; intros [ti te] Hnd; simpl;
    [reflexivity|].
  inversion Hnd as [|? ? Hn Hnd']; subst.
  destruct (jsstring_eqb_spec (t_transaction_type r) (lit "income")) as [Hi|Hi].
  - rewrite IH by exact Hnd'.
    destruct (find _ rows) as [r'|] eqn:Hf; [|reflexivity].
    apply find_some in Hf. destruct Hf as [Hin Heq].
    destruct (jsstring_eqb_spec (t_transaction_type r') (lit "income"))
      as [Hi'|]; [|discriminate].
    exfalso. apply Hn. rewrite Hi, <- Hi'. apply in_map, Hin.
  - destruct (JsString.eqb (t_transaction_type r) (lit "expense"));
      rewrite IH by exact Hnd'; reflexivity.
Qed.

Lemma filter_filter (A : Type) (p q : A -> bool) (l : list A) :
  filter (fun x => p x && q x) l = filter q (filter p l).
Proof.
  induction l as [|x l IH]; simpl; [reflexivity|].
  destruct (p x); simpl; [|exact IH]. destruct (q x); simpl; congruence.
Qed.

Lemma totalsLoop_totalIncome (scale : nat) (u : Z) (s e : isodate)
    (d : database) :
  fst (totalsLoop scale (totalsQuery u s e d))
  = parseNumeric scale
      (sumAmount (filter (fun x => inPeriod u s e x && isIncome x)
                         (expenses d))).
Proof.
  unfold totalsLoop. rewrite totalsLoop_income.
  2:{ unfold totalsQuery. rewrite map_map. simpl.
      apply (groupBy_keys_NoDup _ _ _ jsstring_eqb_spec). }
  rewrite filter_filter. unfold totalsQuery.
  set (rows := filter (inPeriod u s e) (expenses d)).
  destruct (find _ _) as [r|] eqn:Hfind.
  - apply find_some in Hfind. destruct Hfind as [Hin Heq].
    apply in_map_iff in Hin. destruct Hin as ([k g] & <- & Hg).
    simpl in *. apply (groupBy_In _ _ _ jsstring_eqb_spec) in Hg.
    destruct Hg as [-> _].
    destruct (jsstring_eqb_spec k (lit "income")) as [Hk|]; [|discriminate].
    rewrite Hk. reflexivity.
  - simpl. replace (filter isIncome rows) with (@nil expense); [reflexivity|].
    symmetry. apply filter_none. intros x Hx.
    destruct (isIncome x) eqn:Hex; [|reflexivity]. exfalso.
    assert (Hk : In (transaction_type x)
                    (map fst (groupBy JsString.eqb transaction_type rows)))
      by (apply (groupBy_keys _ _ _ jsstring_eqb_spec), in_map, Hx).
    apply in_map_iff in Hk. destruct Hk as ([k g] & Hk & Hg). simpl in Hk.
    subst k.
    pose proof (find_none _ _ Hfind
                  {| t_transaction_type := transaction_type x;
                     t_total := sumAmount g |}) as Hn.
    simpl in Hn. unfold isIncome in Hex. rewrite Hex in Hn.
    enough (true = false) by discriminate. apply Hn.
    apply in_map_iff. exists (transaction_type x, g).
    split; [reflexivity|exact Hg].
Qed.

(** X3: the totals are the roundings of the decimal sums of the rows of
    kind "income" and of kind "expense"; rows of any other kind count
    for neither. *)
Theorem totals_by_kind (scale : nat) (u : Z) (s e : isodate) (w : world) :
  allSucceed w ->
  exists data w',
    getFinancialData scale u s e w = (Ok data, w')
    /\ totalIncome data
       = parseNumeric scale
           (sumAmount (filter (fun x => inPeriod u s e x && isIncome x)
                              (expenses (db w))))
    /\ totalExpenses data
       = parseNumeric scale
           (sumAmount (filter (fun x => inPeriod u s e x && isExpense x)
                              (expenses (db w)))).
Proof.
  intros Hw.
  destruct (getFinancialData_succeeds scale u s e w Hw)
    as (data & w' & Hrun & _ & _ & _ & Hti & Hte & _).
  exists data, w'. split; [exact Hrun|].
  rewrite Hti, Hte, totalsLoop_totalIncome, totalsLoop_totalExpenses.
  split; reflexivity.
Qed.

Lemma totals_by_kind_witness :
  exists data w',
    getFinancialData 2 1 jan10_2024 jan20_2024 (fresh twoCategories)
    = (Ok data, w')
    /\ totalIncome data
       = parseNumeric 2
           (sumAmount (filter (fun x => inPeriod 1 jan10_2024 jan20_2024 x
                                        && isIncome x)
                              (expenses (db (fresh twoCategories)))))
    /\ totalExpenses data
       = parseNumeric 2
           (sumAmount (filter (fun x => inPeriod 1 jan10_2024 jan20_2024 x
                                        && isExpense x)
                              (expenses (db (fresh twoCategories))))).
Proof.
  apply (totals_by_kind 2 1 jan10_2024 jan20_2024 (fresh twoCategories)).
  constructor.
Defined.

Lemma sorted_le_NoDup_lt (l : list Z) :
  StronglySorted Z.le l -> NoDup l -> StronglySorted Z.lt l.
Proof.
  induction 1 as [|a l Hs IH Ha]; intros Hnd; constructor.
  - apply IH. inversion Hnd; assumption.
  - inversion Hnd as [|? ? Hn _]; subst.
    rewrite Forall_forall in *. intros b Hb. specialize (Ha b Hb).
    assert (a <> b) by (intros ->; contradiction). lia.
Qed.

Lemma period_expense_rows (u : Z) (s e : isodate) (d : database) (x : expense) :
  In x (filter (fun x => inPeriod u s e x && isExpense x) (expenses d))
  <-> In x (expenses d) /\ inPeriod u s e x = true /\ isExpense x = true.
Proof. rewrite filter_In, andb_true_iff. tauto. Qed.

(** X4: the daily trend has one entry for each date on which the user has an
    expense in the period, in the order of the dates, with the rounding
    of the decimal sum of that date's expenses. *)
Theorem daily_trends_by_date (scale : nat) (u : Z) (s e : isodate)
    (w : world) :
  allSucceed w ->
  exists data w',
    getFinancialData scale u s e w = (Ok data, w')
    /\ StronglySorted Z.lt
         (map (fun t => days_of (date t)) (dailyTrends data))
    /\ (forall z,
           In z (map (fun t => days_of (date t)) (dailyTrends data))
           <-> exists x,
                 In x (expenses (db w)) /\ inPeriod u s e x = true
                 /\ isExpense x = true /\ transaction_date x = z)
    /\ (forall t,
           In t (dailyTrends data) ->
           trendAmount t
           = parseNumeric scale
               (sumAmount
                  (filter (fun x => transaction_date x =? days_of (date t))
                     (filter (fun x => inPeriod u s e x && isExpense x)
                             (expenses (db w)))))).
Proof.
  intros Hw.
  destruct (getFinancialData_succeeds scale u s e w Hw)
    as (data & w' & Hrun & _ & _ & _ & _ & _ & _ & Hdt & _).
  exists data, w'. split; [exact Hrun|]. rewrite Hdt. clear Hdt Hrun.
  unfold trendsQuery.
  set (rows := filter (fun x => inPeriod u s e x && isExpense x)
                      (expenses (db w))).
  set (groups := orderBy (fun a b : Z * list expense => fst a <=? fst b)
                         (groupBy Z.eqb transaction_date rows)).
  assert (Hmap : map (fun t => days_of (date t))
                   (map (fun row => {| date := d_date row;
                                       trendAmount :=
                                         parseNumeric scale (d_amount row) |})
                      (map (fun g : Z * list expense =>
                              {| d_date := civil_from_days (fst g);
                                 d_amount := sumAmount (snd g) |}) groups))
                 = map fst groups).
  { rewrite !map_map. apply map_ext. intros g. cbn [date d_date].
    apply days_of_civil. }
  rewrite Hmap.
  assert (Hperm : Permutation (map fst groups)
                    (map fst (groupBy Z.eqb transaction_date rows)))
    by (apply Permutation_map, orderBy_perm).
  split; [|split].
  - apply sorted_le_NoDup_lt.
    + apply StronglySorted_map.
      assert (Hs := orderBy_sorted (Z * list expense)
                      (fun a b => fst a <=? fst b)
                      ltac:(intros a b H; apply Z.leb_le; apply Z.leb_gt in H; lia)
                      ltac:(intros a b c H1 H2; apply Z.leb_le;
                            apply Z.leb_le in H1; apply Z.leb_le in H2; lia)
                      (groupBy Z.eqb transaction_date rows)).
      fold groups in Hs. clear - Hs.
      induction Hs as [|a l Hs IH Ha]; constructor; [exact IH|].
      rewrite Forall_forall in *. intros b Hb. apply Z.leb_le, Ha, Hb.
    + apply (Permutation_NoDup (Permutation_sym Hperm)).
      apply (groupBy_keys_NoDup _ _ _ Z.eqb_spec).
  - intros z. split.
    + intros Hz. apply (Permutation_in _ Hperm) in Hz.
      apply (proj1 (groupBy_keys _ _ _ Z.eqb_spec transaction_date rows z)) in Hz.
      apply in_map_iff in Hz.
      destruct Hz as (x & Hx & Hin). apply period_expense_rows in Hin.
      exists x. tauto.
    + intros (x & Hin & Hp & He & Hz).
      apply (Permutation_in _ (Permutation_sym Hperm)).
      apply (proj2 (groupBy_keys _ _ _ Z.eqb_spec transaction_date rows z)).
      apply in_map_iff. exists x.
      split; [exact Hz|]. apply period_expense_rows. tauto.
  - intros t Ht. apply in_map_iff in Ht. destruct Ht as (r & <- & Hr).
    apply in_map_iff in Hr. destruct Hr as ([z g] & <- & Hg).
    cbn [trendAmount d_amount date d_date fst snd].
    apply orderBy_In in Hg. apply (groupBy_In _ _ _ Z.eqb_spec) in Hg.
    destruct Hg as [-> _]. rewrite days_of_civil. reflexivity.
Qed.

Lemma daily_trends_by_date_witness :
  exists data w',
    getFinancialData 2 1 jan10_2024 jan20_2024 (fresh twoCategories)
    = (Ok data, w')
    /\ StronglySorted Z.lt
         (map (fun t => days_of (date t)) (dailyTrends data))
    /\ (forall z,
           In z (map (fun t => days_of (date t)) (dailyTrends data))
           <-> exists x,
                 In x (expenses (db (fresh twoCategories)))
                 /\ inPeriod 1 jan10_2024 jan20_2024 x = true
                 /\ isExpense x = true /\ transaction_date x = z)
    /\ (forall t,
           In t (dailyTrends data) ->
           trendAmount t
           = parseNumeric 2
               (sumAmount
                  (filter (fun x => transaction_date x =? days_of (date t))
                     (filter (fun x => inPeriod 1 jan10_2024 jan20_2024 x
                                       && isExpense x)
                             (expenses (db (fresh twoCategories))))))).
Proof.
  apply (daily_trends_by_date 2 1 jan10_2024 jan20_2024 (fresh twoCategories)).
  constructor.
Defined.

Lemma countRows_total (A : Type) (l : list A) :
  countRows l = total A (fun _ => 1) l.
Proof.
  unfold countRows, total. induction l as [|x l IH]; [reflexivity|].
  cbn [List.length map fold_right]. rewrite <- IH. lia.
Qed.

Lemma sorted_desc (R : Type) (f : R -> Z) (l : list R) :
  StronglySorted Z.ge (map f (orderBy (fun a b => f b <=? f a) l)).
Proof.
  apply StronglySorted_map.
  assert (Hs := orderBy_sorted R (fun a b => f b <=? f a)
                  ltac:(intros a b H; apply Z.leb_le; apply Z.leb_gt in H; lia)
                  ltac:(intros a b c H1 H2; apply Z.leb_le;
                        apply Z.leb_le in H1; apply Z.leb_le in H2; lia) l).
  induction Hs as [|a l' Hs IH Ha]; constructor; [exact IH|].
  rewrite Forall_forall in *. intros b Hb. specialize (Ha b Hb).
  apply Z.leb_le in Ha. lia.
Qed.

(** X5: the payment methods partition all rows of the period: their counts
    and decimal sums add up to those of the rows, whatever their kind,
    the list is ordered by decreasing decimal sum, and rows without a
    method are found under "Not specified". *)
Theorem payment_methods_partition (scale : nat) (u : Z) (s e : isodate)
    (w : world) :
  allSucceed w ->
  exists data w' sums,
    getFinancialData scale u s e w = (Ok data, w')
    /\ map methodAmount (paymentMethods data) = map (parseNumeric scale) sums
    /\ StronglySorted Z.ge sums
    /\ fold_right Z.add 0 sums
       = sumAmount (filter (inPeriod u s e) (expenses (db w)))
    /\ fold_right Z.add 0 (map methodCount (paymentMethods data))
       = Z.of_nat (List.length (filter (inPeriod u s e) (expenses (db w))))
    /\ (forall x,
           In x (expenses (db w)) -> inPeriod u s e x = true ->
           In (match payment_method x with
               | Some m => m
               | None => lit "Not specified"
               end)
              (map method (paymentMethods data))).
Proof.
  intros Hw.
  destruct (getFinancialData_succeeds scale u s e w Hw)
    as (data & w' & Hrun & _ & _ & _ & _ & _ & _ & _ & Hpm).
  exists data, w', (map p_amount (paymentQuery u s e (db w))).
  split; [exact Hrun|]. rewrite Hpm. clear Hpm Hrun.
  unfold paymentQuery.
  set (rows := filter (inPeriod u s e) (expenses (db w))).
  set (mk := fun g : option jsstring * list expense =>
               {| p_method := match fst g with
                              | Some m => m
                              | None => lit "Not specified"
                              end;
                  p_amount := sumAmount (snd g);
                  p_count := countRows (snd g) |}).
  set (groups := groupBy option_eqb payment_method rows).
  split; [rewrite !map_map; reflexivity|].
  split; [apply sorted_desc|].
  split; [|split].
  - rewrite (fold_total_perm _ _ (Permutation_map p_amount (orderBy_perm _ _ _))).
    rewrite map_map. cbn [p_amount mk].
    apply (groupBy_total _ _ _ option_eqb_spec Db.amount payment_method rows).
  - rewrite map_map. cbn [methodCount].
    rewrite (fold_total_perm _ _ (Permutation_map p_count (orderBy_perm _ _ _))).
    rewrite map_map. cbn [p_count mk].
    transitivity (total _ (fun _ : expense => 1) rows).
    + rewrite <- (groupBy_total _ _ _ option_eqb_spec (fun _ => 1)
                   payment_method rows).
      f_equal. apply map_ext. intros g. apply countRows_total.
    + rewrite <- countRows_total. reflexivity.
  - intros x Hx Hp. rewrite map_map. cbn [method].
    apply in_map_iff.
    assert (Hk : In (payment_method x) (map fst groups)).
    { apply (proj2 (groupBy_keys _ _ _ option_eqb_spec payment_method rows _)).
      apply in_map. apply filter_In. auto. }
    apply in_map_iff in Hk. destruct Hk as ([k g] & Hk & Hg). simpl in Hk.
    subst k. exists (mk (payment_method x, g)). split; [reflexivity|].
    apply orderBy_In. apply in_map. exact Hg.
Qed.

Lemma payment_methods_partition_witness :
  exists data w' sums,
    getFinancialData 2 1 jan10_2024 jan20_2024 (fresh twoCategories)
    = (Ok data, w')
    /\ map methodAmount (paymentMethods data) = map (parseNumeric 2) sums
    /\ StronglySorted Z.ge sums
    /\ fold_right Z.add 0 sums
       = sumAmount (filter (inPeriod 1 jan10_2024 jan20_2024)
                           (expenses (db (fresh twoCategories))))
    /\ fold_right Z.add 0 (map methodCount (paymentMethods data))
       = Z.of_nat (List.length (filter (inPeriod 1 jan10_2024 jan20_2024)
                                       (expenses (db (fresh twoCategories)))))
    /\ (forall x,
           In x (expenses (db (fresh twoCategories))) ->
           inPeriod 1 jan10_2024 jan20_2024 x = true ->
           In (match payment_method x with
               | Some m => m
               | None => lit "Not specified"
               end)
              (map method (paymentMethods data))).
Proof.
  apply (payment_methods_partition 2 1 jan10_2024 jan20_2024
           (fresh twoCategories)).
  constructor.
Defined.

(** X6: with unique category identifiers, the breakdown names each category
    once, is ordered by decreasing decimal sum, and its counts add up to
    the number of the period's expense rows. *)
Theorem category_breakdown_partition (scale : nat) (u : Z) (s e : isodate)
    (w : world) :
  allSucceed w ->
  NoDup (map cat_id (expense_categories (db w))) ->
  exists data w' sums,
    getFinancialData scale u s e w = (Ok data, w')
    /\ map amount (categoryBreakdown data) = map (parseNumeric scale) sums
    /\ StronglySorted Z.ge sums
    /\ NoDup (map category (categoryBreakdown data))
    /\ fold_right Z.add 0 (map count (categoryBreakdown data))
       = Z.of_nat
           (List.length (filter (fun x => inPeriod u s e x && isExpense x)
                                (expenses (db w)))).
Proof.
  intros Hw Hnd.
  destruct (getFinancialData_succeeds scale u s e w Hw)
    as (data & w' & Hrun & _ & _ & _ & _ & _ & Hcb & _).
  exists data, w', (map c_amount (categoryQuery u s e (db w))).
  split; [exact Hrun|]. rewrite Hcb. clear Hcb Hrun.
  unfold categoryQuery.
  set (rows := filter (fun x => inPeriod u s e x && isExpense x)
                      (expenses (db w))).
  set (joined := flat_map (leftJoinCategory (expense_categories (db w))) rows).
  set (mk := fun g : option jsstring * list (expense * option jsstring) =>
               {| c_category := fst g;
                  c_amount := sumAmount (map fst (snd g));
                  c_count := countRows (snd g) |}).
  split; [rewrite !map_map; reflexivity|].
  split; [apply sorted_desc|].
  split.
  - rewrite map_map. cbn [category].
    apply (Permutation_NoDup
             (Permutation_sym (Permutation_map c_category (orderBy_perm _ _ _)))).
    rewrite map_map. cbn [c_category mk].
    apply (groupBy_keys_NoDup _ _ _ option_eqb_spec).
  - rewrite map_map. cbn [count].
    rewrite (fold_total_perm _ _ (Permutation_map c_count (orderBy_perm _ _ _))).
    rewrite map_map. cbn [c_count mk].
    transitivity (total _ (fun _ : expense * option jsstring => 1) joined).
    + rewrite <- (groupBy_total _ _ _ option_eqb_spec (fun _ => 1) snd joined).
      f_equal. apply map_ext. intros g. apply countRows_total.
    + rewrite <- countRows_total. unfold countRows. f_equal.
      transitivity (List.length (map fst joined));
        [symmetry; apply length_map|].
      unfold joined. rewrite (leftJoin_rows _ rows Hnd). reflexivity.
Qed.

Lemma category_breakdown_partition_witness :
  exists data w' sums,
    getFinancialData 2 1 jan10_2024 jan20_2024 (fresh twoCategories)
    = (Ok data, w')
    /\ map amount (categoryBreakdown data) = map (parseNumeric 2) sums
    /\ StronglySorted Z.ge sums
    /\ NoDup (map category (categoryBreakdown data))
    /\ fold_right Z.add 0 (map count (categoryBreakdown data))
       = Z.of_nat
           (List.length
              (filter (fun x => inPeriod 1 jan10_2024 jan20_2024 x
                                && isExpense x)
                      (expenses (db (fresh twoCategories))))).
Proof.
  apply (category_breakdown_partition 2 1 jan10_2024 jan20_2024
           (fresh twoCategories)).
  - constructor.
  - vm_compute. repeat constructor; simpl; intuition discriminate.
Defined.

End ReportFacts.

(* ================================================================= *)
Module ConnectionFacts.

Import PeriodFacts ParserFacts ReportFacts.
Import StringFacts DateFacts Db Effects Insights HealthSpec AggregationSpec AggregationFacts Examples ToolSpec Scenarios.

(** ** Invariants of computations *)

Section Keeps.

Variable I : world -> world -> Prop.
Hypothesis I_refl : forall w, I w w.
Hypothesis I_trans : forall a b c, I a b -> I b c -> I a c.

Lemma keeps_ret (A : Type) (a : A) : keeps I A (ret a).
Proof. intros w r w' H. inversion H. apply I_refl. Qed.

Lemma keeps_throw (A : Type) (e : exn) : keeps I A (throw e).
Proof. intros w r w' H. inversion H. apply I_refl. Qed.

Lemma keeps_lift (A : Type) (x : result A) : keeps I A (lift x).
Proof. intros w r w' H. inversion H. apply I_refl. Qed.

Lemma keeps_bind (A B : Type) (m : M A) (f : A -> M B) :
  keeps I A m -> (forall a, keeps I B (f a)) -> keeps I B (bind m f).
Proof.
  intros Hm Hf w r w'. unfold bind.
  destruct (m w) as [[a|e] w1] eqn:H1; intros H.
  - eapply I_trans; [eapply Hm, H1|eapply Hf, H].
  - inversion H; subst. eapply Hm, H1.
Qed.

Lemma keeps_tryCatch (A : Type) (m : M A) (h : exn -> M A) :
  keeps I A m -> (forall e, keeps I A (h e)) -> keeps I A (tryCatch m h).
Proof.
  intros Hm Hh w r w'. unfold tryCatch.
  destruct (m w) as [[a|e] w1] eqn:H1; intros H.
  - inversion H; subst. eapply Hm, H1.
  - eapply I_trans; [eapply Hm, H1|eapply Hh, H].
Qed.

End Keeps.

Lemma sameTables_refl (w : world) : sameTables w w.
Proof. reflexivity. Qed.

Lemma sameTables_trans (a b c : world) :
  sameTables a b -> sameTables b c -> sameTables a c.
Proof. unfold sameTables. congruence. Qed.

Lemma stillOpen_refl (w : world) : stillOpen w w.
Proof. unfold stillOpen. auto. Qed.

Lemma stillOpen_trans (a b c : world) :
  stillOpen a b -> stillOpen b c -> stillOpen a c.
Proof. unfold stillOpen. auto. Qed.

Lemma select_sameTables (A : Type) (q : database -> A) :
  keeps sameTables A (select q).
Proof.
  intros w r w'. unfold select, query, sameTables.
  destruct (script w) as [|[|m|m] rest]; intros H; inversion H; reflexivity.
Qed.

Lemma query_stillOpen (A : Type) (q : database -> A * database) :
  keeps stillOpen A (query q).
Proof.
  intros w r w'. unfold query, stillOpen.
  destruct (script w) as [|[|m|m] rest]; try destruct (q (db w));
    intros H; inversion H; cbn [pool]; auto; discriminate.
Qed.

Lemma getFinancialData_sameTables (scale : nat) (u : Z) (s e : isodate) :
  keeps sameTables FinancialData (getFinancialData scale u s e).
Proof.
  unfold getFinancialData.
  apply (keeps_bind _ sameTables_trans); [apply select_sameTables|]. intros t.
  destruct (totalsLoop scale t) as [ti te].
  apply (keeps_bind _ sameTables_trans); [apply select_sameTables|]. intros c.
  apply (keeps_bind _ sameTables_trans); [apply select_sameTables|]. intros d.
  apply (keeps_bind _ sameTables_trans); [apply select_sameTables|]. intros p.
  apply (keeps_ret _ sameTables_refl).
Qed.

Lemma getFinancialData_stillOpen (scale : nat) (u : Z) (s e : isodate) :
  keeps stillOpen FinancialData (getFinancialData scale u s e).
Proof.
  unfold getFinancialData, select.
  apply (keeps_bind _ stillOpen_trans); [apply query_stillOpen|]. intros t.
  destruct (totalsLoop scale t) as [ti te].
  apply (keeps_bind _ stillOpen_trans); [apply query_stillOpen|]. intros c.
  apply (keeps_bind _ stillOpen_trans); [apply query_stillOpen|]. intros d.
  apply (keeps_bind _ stillOpen_trans); [apply query_stillOpen|]. intros p.
  apply (keeps_ret _ stillOpen_refl).
Qed.

(** ** The insights tool *)

Section InsightsTool.

Variable scale : nat.
Variable LocalTZA : Z -> bool -> Z.
Variable today : Z.

Local Notation gather := (ToolSpec.gather scale LocalTZA today).

Lemma gather_sameTables (context : Context) :
  keeps sameTables _ (gather context).
Proof.
  unfold gather.
  apply (keeps_bind _ sameTables_trans); [apply (keeps_lift _ sameTables_refl)|].
  intros p.
  apply (keeps_bind _ sameTables_trans); [apply getFinancialData_sameTables|].
  intros c.
  apply (keeps_bind _ sameTables_trans);
    [|intros; apply (keeps_ret _ sameTables_refl)].
  destruct (includeComparison context); [|apply (keeps_ret _ sameTables_refl)].
  apply (keeps_bind _ sameTables_trans); [apply getFinancialData_sameTables|].
  intros; apply (keeps_ret _ sameTables_refl).
Qed.

Lemma gather_stillOpen (context : Context) :
  keeps stillOpen _ (gather context).
Proof.
  unfold gather.
  apply (keeps_bind _ stillOpen_trans); [apply (keeps_lift _ stillOpen_refl)|].
  intros p.
  apply (keeps_bind _ stillOpen_trans); [apply getFinancialData_stillOpen|].
  intros c.
  apply (keeps_bind _ stillOpen_trans);
    [|intros; apply (keeps_ret _ stillOpen_refl)].
  destruct (includeComparison context); [|apply (keeps_ret _ stillOpen_refl)].
  apply (keeps_bind _ stillOpen_trans); [apply getFinancialData_stillOpen|].
  intros; apply (keeps_ret _ stillOpen_refl).
Qed.

(** The tool in terms of [gather]. *)
Lemma execute_gather (context : Context) (mastra : Mastra) (w : world) :
  execute scale LocalTZA today context mastra w
  = match gather context {| db := db w; pool := Idle; script := script w |} with
    | (Ok (p, currentData, comparisonData), w1) =>
        execute scale LocalTZA today context mastra w
    | (Throw error, w1) =>
        (Ok {| success := false;
               insights :=
                 {| period := None; reportIncome := zero;
                    reportExpenses := zero; netSavings := zero;
                    Insights.savingsRate := zero; topExpenseCategories := [];
                    spendingTrends := []; paymentMethodBreakdown := [];
                    comparison := None |};
               recommendations :=
                 [lit "Failed to generate insights: " ++ errorMessage error];
               financialHealth :=
                 {| score := 0; status := lit "Error";
                    areas := [lit "Unable to calculate"] |} |}, w1)
    end.
Proof.
  destruct (gather context _) as [[[[p c] m]|err] w1] eqn:Hg; [reflexivity|].
  unfold execute, tryCatch, bind, getDbPool, ret, poolEnd, lift.
  unfold gather, bind, lift, ret in Hg.
  destruct (resolvePeriods LocalTZA today (kind context) (startDate context)
              (endDate context)) as [p|e0]; [|inversion Hg; subst; reflexivity].
  destruct (getFinancialData scale (userId context) (currentStartDate p)
              (currentEndDate p) _) as [[cur|e1] w2];
    [|inversion Hg; subst; reflexivity].
  destruct (includeComparison context).
  - destruct (getFinancialData scale (userId context) (previousStartDate p)
                (previousEndDate p) w2) as [[cmp|e2] w3];
      inversion Hg; subst; reflexivity.
  - inversion Hg.
Qed.

(** The two ways the tool ends. *)
Lemma execute_cases (context : Context) (mastra : Mastra) (w : world) :
  exists r w',
    execute scale LocalTZA today context mastra w = (Ok r, w')
    /\ db w' = db w
    /\ ((success r = true /\ pool w' = Ended
         /\ exists currentData comparisonData,
              recommendations r
              = if includeAdvice context
                then generateAIRecommendations mastra currentData comparisonData
                else [])
        \/ (success r = false /\ pool w' <> Ended
            /\ financialHealth r
               = {| score := 0; status := lit "Error";
                    areas := [lit "Unable to calculate"] |}
            /\ exists error,
                 recommendations r
                 = [lit "Failed to generate insights: " ++ errorMessage error])).
Proof.
  rewrite execute_gather.
  destruct (gather context _) as [[[[p c] m]|err] w1] eqn:Hg.
  - pose proof (gather_sameTables context _ _ _ Hg) as Hdb.
    unfold sameTables in Hdb. cbn [db] in Hdb.
    unfold execute, tryCatch, bind, getDbPool, ret, poolEnd, lift.
    unfold gather, bind, lift, ret in Hg.
    destruct (resolvePeriods LocalTZA today (kind context) (startDate context)
                (endDate context)) as [p'|e0]; [|discriminate Hg].
    destruct (getFinancialData scale (userId context) (currentStartDate p')
                (currentEndDate p') _) as [[cur|e1] w2]; [|discriminate Hg].
    destruct (includeComparison context).
    + destruct (getFinancialData scale (userId context) (previousStartDate p')
                  (previousEndDate p') w2) as [[cmp|e2] w3];
        [|discriminate Hg].
      inversion Hg; subst. do 2 eexists. split; [reflexivity|].
      cbn [db pool success recommendations]. split; [exact Hdb|].
      left. split; [reflexivity|]. split; [reflexivity|]. eauto.
    + inversion Hg; subst. do 2 eexists. split; [reflexivity|].
      cbn [db pool success recommendations]. split; [exact Hdb|].
      left. split; [reflexivity|]. split; [reflexivity|]. eauto.
  - pose proof (gather_sameTables context _ _ _ Hg) as Hdb.
    pose proof (gather_stillOpen context _ _ _ Hg) as Hop.
    unfold sameTables in Hdb. unfold stillOpen in Hop. cbn [db pool] in *.
    do 2 eexists. split; [reflexivity|].
    cbn [success financialHealth recommendations].
    split; [exact Hdb|]. right. split; [reflexivity|].
    split; [apply Hop; discriminate|]. split; [reflexivity|]. eauto.
Qed.

(** X7: the insights tool always returns a result and never changes the
    tables; it reports success only after it has ended the pool, and
    when it reports failure the pool it created has not been ended. *)
Theorem insights_success_releases (context : Context) (mastra : Mastra)
    (w : world) :
  exists r w',
    execute scale LocalTZA today context mastra w = (Ok r, w')
    /\ db w' = db w
    /\ (success r = true -> pool w' = Ended)
    /\ (success r = false ->
        pool w' <> Ended
        /\ financialHealth r
           = {| score := 0; status := lit "Error";
                areas := [lit "Unable to calculate"] |}
        /\ exists error,
             recommendations r
             = [lit "Failed to generate insights: " ++ errorMessage error]).
Proof.
  destruct (execute_cases context mastra w)
    as (r & w' & Hrun & Hdb & [(Hs & Hp & _)|(Hs & Hp & Hh & Hr)]);
    exists r, w'; (split; [exact Hrun|]); (split; [exact Hdb|]).
  - split; [intros _; exact Hp|]. rewrite Hs. discriminate.
  - split; [rewrite Hs; discriminate|]. intros _. auto.
Qed.

End InsightsTool.

Lemma getFinancialData_empty (scale : nat) (u : Z) (s e : isodate) (w : world) :
  allSucceed w ->
  (forall x, In x (expenses (db w)) -> inPeriod u s e x = false) ->
  exists w',
    getFinancialData scale u s e w = (Ok noData, w')
    /\ db w' = db w /\ pool w' = Connected /\ allSucceed w'.
Proof.
  intros Hw Hnone.
  destruct (getFinancialData_succeeds scale u s e w Hw)
    as (data & w' & Hrun & Hdb & Hp & Hs & Hti & Hte & Hcb & Hdt & Hpm).
  assert (H1 : filter (inPeriod u s e) (expenses (db w)) = [])
    by (apply filter_none, Hnone).
  assert (H2 : filter (fun x => inPeriod u s e x && isExpense x)
                 (expenses (db w)) = []).
  { apply filter_none. intros x Hx. rewrite (Hnone x Hx). reflexivity. }
  unfold totalsQuery in Hti, Hte. unfold categoryQuery in Hcb.
  unfold trendsQuery in Hdt. unfold paymentQuery in Hpm.
  rewrite H1 in Hti, Hte, Hpm. rewrite H2 in Hcb, Hdt.
  cbn in Hti, Hte, Hcb, Hdt, Hpm.
  exists w'. destruct data as [ti te cb dt pm]. cbn in *. subst.
  auto.
Qed.

Lemma reversed_period_empty (u : Z) (s e : isodate) (x : expense) :
  days_of e < days_of s -> inPeriod u s e x = false.
Proof.
  intros H. unfold inPeriod.
  destruct (user_id x =? u); [|reflexivity]. simpl.
  destruct (Z.leb_spec (days_of s) (transaction_date x)); [|reflexivity].
  simpl. apply Z.leb_gt. lia.
Qed.

Section InsightsReports.

Variable scale : nat.
Variable LocalTZA : Z -> bool -> Z.
Variable today : Z.

(** X8: a custom analysis whose start lies after its end is not refused: the
    tool reports success for the period as given, with zero totals,
    empty breakdowns and the 70 points of a period without rows. *)
Theorem reversed_range_report (context : Context) (mastra : Mastra)
    (w : world) (s e : isodate) :
  allSucceed w ->
  kind context = custom ->
  startDate context = Some s -> endDate context = Some e ->
  valid_date s = true -> valid_date e = true ->
  days_of e < days_of s ->
  exists r w',
    execute scale LocalTZA today context mastra w = (Ok r, w')
    /\ success r = true
    /\ period (insights r) = Some (s, e)
    /\ reportIncome (insights r) = zero
    /\ reportExpenses (insights r) = zero
    /\ topExpenseCategories (insights r) = []
    /\ spendingTrends (insights r) = []
    /\ paymentMethodBreakdown (insights r) = []
    /\ score (financialHealth r) = 70
    /\ status (financialHealth r) = lit "Good"
    /\ pool w' = Ended.
Proof.
  intros Hw Hk Hs He Hvs Hve Hlt.
  unfold execute, tryCatch, bind, getDbPool, ret, poolEnd, lift.
  destruct (custom_current today LocalTZA s e Hvs Hve)
    as (previousStart & previousEnd & Hp).
  rewrite Hk, Hs, He, Hp.
  cbn [currentStartDate currentEndDate previousStartDate previousEndDate].
  destruct (getFinancialData_empty scale (userId context) s e
              {| db := db w; pool := Idle; script := script w |} Hw
              (fun x _ => reversed_period_empty (userId context) s e x Hlt))
    as (w1 & -> & Hdb1 & _ & Hw1).
  destruct (includeComparison context).
  - destruct (getFinancialData_succeeds scale (userId context)
                previousStart previousEnd w1 Hw1)
      as (cmp & w2 & -> & _).
    do 2 eexists. split; [reflexivity|].
    cbn [success insights period reportIncome reportExpenses
         topExpenseCategories spendingTrends paymentMethodBreakdown
         financialHealth pool noData totalIncome totalExpenses
         categoryBreakdown dailyTrends paymentMethods].
    repeat split; reflexivity.
  - do 2 eexists. split; [reflexivity|].
    cbn [success insights period reportIncome reportExpenses
         topExpenseCategories spendingTrends paymentMethodBreakdown
         financialHealth pool noData totalIncome totalExpenses
         categoryBreakdown dailyTrends paymentMethods].
    repeat split; reflexivity.
Qed.

End InsightsReports.

Lemma reversed_range_report_witness :
  exists r w',
    execute 2 (fixedOffset 0) march15_2024 reversedContext NoMastra
      (fresh twoCategories)
    = (Ok r, w')
    /\ success r = true
    /\ period (insights r) = Some (jan20_2024, jan10_2024)
    /\ reportIncome (insights r) = zero
    /\ reportExpenses (insights r) = zero
    /\ topExpenseCategories (insights r) = []
    /\ spendingTrends (insights r) = []
    /\ paymentMethodBreakdown (insights r) = []
    /\ score (financialHealth r) = 70
    /\ status (financialHealth r) = lit "Good"
    /\ pool w' = Ended.
Proof.
  apply (reversed_range_report 2 (fixedOffset 0) march15_2024
           reversedContext NoMastra
           (fresh twoCategories) jan20_2024 jan10_2024);
    try reflexivity; try constructor.
Defined.

(** ** The view tool *)

Section ViewTool.

Variables (Rows Summary Top Response : Type).
Variable expensesQuery : database -> Rows.
Variable summaryQuery : database -> Summary.
Variable topCategoriesQuery : database -> Top.
Variable respond : Rows -> Summary -> Top -> result Response.
Variable failure : exn -> Response.

Local Notation viewQueries :=
  (ToolSpec.viewQueries Rows Summary Top expensesQuery summaryQuery
     topCategoriesQuery).

Lemma viewQueries_sameTables : keeps sameTables _ viewQueries.
Proof.
  unfold viewQueries.
  repeat (apply (keeps_bind _ sameTables_trans);
          [apply select_sameTables|intros ?]).
  apply (keeps_ret _ sameTables_refl).
Qed.

Lemma viewQueries_stillOpen : keeps stillOpen _ viewQueries.
Proof.
  unfold viewQueries, select.
  repeat (apply (keeps_bind _ stillOpen_trans);
          [apply query_stillOpen|intros ?]).
  apply (keeps_ret _ stillOpen_refl).
Qed.

(** X9: the view tool always returns a result and never changes the tables.
    It reports success only after it has ended the pool.  When one of
    its queries throws, it reports failure and the pool is never ended;
    when only the building of the response throws, it reports failure
    after the pool was ended. *)
Theorem view_exit_paths (w : world) :
  exists (ok : bool) (r : Response) (w' : world),
    ViewExpenses.execute expensesQuery summaryQuery topCategoriesQuery
      respond failure w = (Ok (ok, r), w')
    /\ db w' = db w
    /\ (ok = true -> pool w' = Ended)
    /\ match viewQueries {| db := db w; pool := Idle; script := script w |} with
       | (Throw error, _) =>
           ok = false /\ r = failure error /\ pool w' <> Ended
       | (Ok (a, b, c), _) =>
           pool w' = Ended
           /\ match respond a b c with
              | Ok response => ok = true /\ r = response
              | Throw error => ok = false /\ r = failure error
              end
       end.
Proof.
  destruct (viewQueries _) as [[[[a b] c]|err] w1] eqn:Hq.
  - pose proof (viewQueries_sameTables _ _ _ Hq) as Hdb.
    unfold sameTables in Hdb; cbn [db] in Hdb.
    unfold ViewExpenses.execute, tryCatch, bind, getDbPool, ret, poolEnd, lift.
    unfold viewQueries, bind, ret in Hq.
    destruct (select expensesQuery _) as [[a'|e1] w2]; [|discriminate Hq].
    destruct (select summaryQuery w2) as [[b'|e2] w3]; [|discriminate Hq].
    destruct (select topCategoriesQuery w3) as [[c'|e3] w4]; [|discriminate Hq].
    inversion Hq; subst.
    destruct (respond a b c) as [resp|err]; do 3 eexists;
      (split; [reflexivity|]); cbn [db pool];
      (split; [exact Hdb|]); split; auto; discriminate.
  - pose proof (viewQueries_sameTables _ _ _ Hq) as Hdb.
    pose proof (viewQueries_stillOpen _ _ _ Hq) as Hop.
    unfold sameTables in Hdb; unfold stillOpen in Hop; cbn [db pool] in *.
    unfold ViewExpenses.execute, tryCatch, bind, getDbPool, ret, poolEnd, lift.
    unfold viewQueries, bind, ret in Hq.
    destruct (select expensesQuery _) as [[a'|e1] w2].
    + destruct (select summaryQuery w2) as [[b'|e2] w3].
      * destruct (select topCategoriesQuery w3) as [[c'|e3] w4];
          [discriminate Hq|].
        inversion Hq; subst. do 3 eexists. split; [reflexivity|].
        split; [exact Hdb|]. split; [discriminate|].
        repeat split. apply Hop. discriminate.
      * inversion Hq; subst. do 3 eexists. split; [reflexivity|].
        split; [exact Hdb|]. split; [discriminate|].
        repeat split. apply Hop. discriminate.
    + inversion Hq; subst. do 3 eexists. split; [reflexivity|].
      split; [exact Hdb|]. split; [discriminate|].
      repeat split. apply Hop. discriminate.
Qed.

End ViewTool.

(** ** The add tool *)

Section AddToolOutcomes.

Variable toLowerCase : jsstring -> jsstring.
Variable today : Z.
Variable toNumeric : number -> Z.
Variable numberToString : number -> jsstring.
Variable nextId : database -> Z.

Local Notation storedRow := (ToolSpec.storedRow today toNumeric).

Lemma extract_returns (mastra : Mastra) (entry : jsstring) :
  exists x, AddExpense.extract toLowerCase mastra entry = Ok x.
Proof.
  destruct (parseExpenseWithFallback_fields toLowerCase entry)
    as (a & m & Hp & _).
  unfold AddExpense.extract.
  destruct mastra as [|[[agent|]|e]]; try (rewrite Hp; eauto).
  destruct (generateObject agent entry) as [[o|]|e]; try (rewrite Hp); eauto.
Qed.

(** X10: the extraction never fails: an object of the agent is taken as it
    is, and whenever there is no agent, the lookup or the call throws,
    or the reply has no object, the fallback parser stands in. *)
Theorem extraction_falls_back (entry : jsstring) :
  (forall mastra, exists x, AddExpense.extract toLowerCase mastra entry = Ok x)
  /\ (forall agent object,
         generateObject agent entry = Ok (Some object) ->
         AddExpense.extract toLowerCase (WithAgents (Ok (Some agent))) entry
         = Ok object)
  /\ (forall agent,
         (generateObject agent entry = Ok None
          \/ exists error, generateObject agent entry = Throw error) ->
         AddExpense.extract toLowerCase (WithAgents (Ok (Some agent))) entry
         = Fallback.parseExpenseWithFallback toLowerCase entry)
  /\ AddExpense.extract toLowerCase NoMastra entry
     = Fallback.parseExpenseWithFallback toLowerCase entry
  /\ AddExpense.extract toLowerCase (WithAgents (Ok None)) entry
     = Fallback.parseExpenseWithFallback toLowerCase entry
  /\ (forall error,
         AddExpense.extract toLowerCase (WithAgents (Throw error)) entry
         = Fallback.parseExpenseWithFallback toLowerCase entry).
Proof.
  split; [intros mastra; apply extract_returns|].
  unfold AddExpense.extract. repeat split; try reflexivity.
  - intros agent object ->. reflexivity.
  - intros agent [->|[error ->]]; reflexivity.
Qed.

(** X11: the add tool always returns a result.  When it reports success it
    has ended the pool and appended exactly one row, for the first
    category of the extracted name, with the caller's amount unless that
    is missing, zero or NaN; when it reports failure the tables are as
    they were.  It never touches the categories. *)
Theorem add_expense_outcomes (context : AddExpense.Context) (mastra : Mastra)
    (w : world) :
  exists r w' x,
    AddExpense.execute toLowerCase today toNumeric numberToString nextId
      context mastra w = (Ok r, w')
    /\ AddExpense.extract toLowerCase mastra
         (AddExpense.naturalLanguageEntry context) = Ok x
    /\ expense_categories (db w') = expense_categories (db w)
    /\ (AddExpense.success r = true ->
        pool w' = Ended
        /\ exists c rest,
             AddExpense.categoryIdQuery (Fallback.category x) (db w)
             = c :: rest
             /\ expenses (db w')
                = expenses (db w) ++ [storedRow context x c (nextId (db w))]
             /\ AddExpense.expenseId r = Some (nextId (db w))
             /\ AddExpense.suggestedCategory r = Some (Fallback.category x)
             /\ AddExpense.extractedAmount r = Some (Fallback.amount x))
    /\ (AddExpense.success r = false ->
        db w' = db w /\ AddExpense.expenseId r = None
        /\ pool w' <> Ended).
Proof.
  destruct (extract_returns mastra (AddExpense.naturalLanguageEntry context))
    as [x Hx].
  unfold AddExpense.execute, tryCatch, bind, getDbPool, ret, poolEnd, lift,
    throw, select, query.
  rewrite Hx. cbn [db pool script].
  destruct (script w) as [|[|m|m] rest];
    try (do 3 eexists; split; [reflexivity|]; split; [reflexivity|];
         cbn [db pool AddExpense.success AddExpense.expenseId];
         split; [reflexivity|]; split; [discriminate|];
         intros _; repeat split; discriminate).
  - destruct (AddExpense.categoryIdQuery (Fallback.category x) (db w))
      as [|c cs] eqn:Hc; cbn [db pool script].
    + do 3 eexists. split; [reflexivity|]. split; [reflexivity|].
      cbn [db pool AddExpense.success AddExpense.expenseId].
      split; [reflexivity|]. split; [discriminate|].
      intros _; repeat split; discriminate.
    + do 3 eexists. split; [reflexivity|]. split; [reflexivity|].
      cbn [db pool AddExpense.success AddExpense.expenseId
           AddExpense.suggestedCategory AddExpense.extractedAmount
           expenses expense_categories AddExpense.insertQuery fst snd].
      split; [reflexivity|]. split; [|discriminate].
      intros _. split; [reflexivity|]. exists c, cs. repeat split; try exact Hc; reflexivity.
  - destruct (AddExpense.categoryIdQuery (Fallback.category x) (db w))
      as [|c cs] eqn:Hc; cbn [db pool script].
    + do 3 eexists. split; [reflexivity|]. split; [reflexivity|].
      cbn [db pool AddExpense.success AddExpense.expenseId].
      split; [reflexivity|]. split; [discriminate|].
      intros _; repeat split; discriminate.
    + destruct rest as [|[|m|m] rest'];
        try (do 3 eexists; split; [reflexivity|]; split; [reflexivity|];
             cbn [db pool AddExpense.success AddExpense.expenseId];
             split; [reflexivity|]; split; [discriminate|];
             intros _; repeat split; discriminate);
        (do 3 eexists; split; [reflexivity|]; split; [reflexivity|];
         cbn [db pool AddExpense.success AddExpense.expenseId
              AddExpense.suggestedCategory AddExpense.extractedAmount
              expenses expense_categories AddExpense.insertQuery fst snd];
         split; [reflexivity|]; split; [|discriminate];
         intros _; split; [reflexivity|]; exists c, cs; repeat split; try exact Hc; reflexivity).
Qed.

End AddToolOutcomes.

End ConnectionFacts.

(* ================================================================= *)
Module TextFacts.

Import JsRegExp.
Import StringFacts Insights ParserFacts Examples.

(** ** Trimming, splitting and stripping *)

Lemma trimStart_suffix (s : jsstring) : exists pre, s = pre ++ trimStart s.
Proof.
  induction s as [|c s [pre IH]]; simpl; [exists []; reflexivity|].
  destruct (isWhiteSpace c); [|exists []; reflexivity].
  exists (c :: pre). simpl. rewrite <- IH. reflexivity.
Qed.

Lemma trimStart_idem (s : jsstring) : trimStart (trimStart s) = trimStart s.
Proof.
  induction s as [|c s IH]; simpl; [reflexivity|].
  destruct (isWhiteSpace c) eqn:Hc; [exact IH|]. simpl. rewrite Hc. reflexivity.
Qed.

Lemma trimStart_snoc (u : jsstring) (h : char16) :
  isWhiteSpace h = false -> trimStart (u ++ [h]) = trimStart u ++ [h].
Proof.
  intros Hh. induction u as [|c u IH]; simpl; [rewrite Hh; reflexivity|].
  destruct (isWhiteSpace c); [exact IH|reflexivity].
Qed.

Lemma trimEnd_prefix (s : jsstring) : exists post, s = trimEnd s ++ post.
Proof.
  unfold trimEnd. destruct (trimStart_suffix (rev s)) as [pre H].
  exists (rev pre). rewrite <- rev_app_distr, <- H, rev_involutive. reflexivity.
Qed.

(** What [trim] returns has no white space at either end. *)
Lemma trim_trimmed (s : jsstring) : trim (trim s) = trim s.
Proof.
  unfold trim.
  assert (Hend : forall t, trimEnd (trimEnd t) = trimEnd t).
  { intros t. unfold trimEnd. rewrite rev_involutive, trimStart_idem.
    reflexivity. }
  assert (Hstart : forall t, trimStart t = t -> trimStart (trimEnd t) = trimEnd t).
  { intros t Ht. destruct t as [|h t]; [reflexivity|].
    simpl in Ht. destruct (isWhiteSpace h) eqn:Hh.
    - exfalso. destruct (trimStart_suffix t) as [pre Hp].
      rewrite Ht in Hp. apply (f_equal (@List.length _)) in Hp.
      rewrite length_app in Hp. simpl in Hp. lia.
    - unfold trimEnd. simpl rev. rewrite trimStart_snoc by exact Hh.
      rewrite rev_app_distr. simpl. rewrite Hh. reflexivity. }
  rewrite (Hstart (trimStart s) (trimStart_idem s)). apply Hend.
Qed.

Lemma trim_In (c : char16) (s : jsstring) : In c (trim s) -> In c s.
Proof.
  unfold trim. intros H.
  destruct (trimEnd_prefix (trimStart s)) as [post Hp].
  destruct (trimStart_suffix s) as [pre Hs].
  rewrite Hs, Hp. apply in_or_app. right. apply in_or_app. left. exact H.
Qed.


(** A match hands a suffix of the text to its continuation. *)
Lemma rmatch_suffix (A : Type) (r : regex) :
  forall (s : jsstring) (cap : option jsstring)
         (k : jsstring -> option jsstring -> option A) (x : A),
    rmatch r s cap k = Some x ->
    exists pre s' cap', s = pre ++ s' /\ k s' cap' = Some x.
Proof.
  induction r as [p|r1 IH1 r2 IH2|r IH|r IH|r IH]; intros s cap k x; simpl.
  - destruct s as [|c s]; [discriminate|].
    destruct (p c); [|discriminate]. intros H. exists [c], s, cap. auto.
  - intros H. apply IH1 in H. destruct H as (p1 & s1 & c1 & -> & H).
    apply IH2 in H. destruct H as (p2 & s2 & c2 & -> & H).
    exists (p1 ++ p2), s2, c2. rewrite <- app_assoc. auto.
  - generalize (List.length s) as fuel. intros fuel. revert s cap.
    induction fuel as [|fuel IHf]; intros s cap.
    + intros H. exists [], s, cap. auto.
    + destruct (rmatch r s cap _) as [y|] eqn:Hm.
      * intros Hy. inversion Hy; subst y. apply IH in Hm.
        destruct Hm as (p1 & s1 & c1 & -> & H).
        destruct (List.length s1 <? List.length (p1 ++ s1))%nat; [|discriminate].
        apply IHf in H. destruct H as (p2 & s2 & c2 & -> & H).
        exists (p1 ++ p2), s2, c2. rewrite <- app_assoc. auto.
      * intros H. exists [], s, cap. auto.
  - destruct (rmatch r s cap k) as [y|] eqn:Hm.
    + intros Hy. inversion Hy; subst y. eapply IH, Hm.
    + intros H. exists [], s, cap. auto.
  - intros H. apply IH in H. destruct H as (p1 & s1 & c1 & -> & H). eauto.
Qed.


(** ** The shape of the recommendations *)



Lemma recommendations_length (mastra : Mastra) (currentData : FinancialData)
    (comparisonData : option FinancialData) :
  (List.length (generateAIRecommendations mastra currentData comparisonData)
   <= 5)%nat.
Proof.
  unfold generateAIRecommendations, recommendationsBody.
  destruct mastra as [|[[agent|]|e]]; try (simpl; lia).
  destruct (generate agent currentData comparisonData) as [[text|]|e];
    try (simpl; lia).
  cbv zeta.
  destruct (0 <? Z.of_nat (List.length (parseRecommendations text)));
    [|simpl; lia].
  unfold parseRecommendations. apply firstn_le_length.
Qed.


End TextFacts.

(* ================================================================= *)
Module FallbackFacts.

Import JsRegExp.
Import StringFacts Fallback ParserFacts Examples ParserSpec TextFacts.

(** ** The category loop *)

Lemma categoryLoop_none (f : jsstring -> jsstring)
    (entries : list (jsstring * jsstring)) (entry c : jsstring) :
  (forall k, In k (map fst entries) -> includes k (f entry) = false) ->
  categoryLoop f entries entry c = c.
Proof.
  induction entries as [|[k cat] entries IH]; intros H; simpl; [reflexivity|].
  rewrite (H k) by (left; reflexivity). apply IH.
  intros k' Hk'. apply H. right. exact Hk'.
Qed.

Lemma categoryLoop_first (f : jsstring -> jsstring)
    (pre : list (jsstring * jsstring)) (k cat : jsstring)
    (post : list (jsstring * jsstring)) (entry c : jsstring) :
  (forall k', In k' (map fst pre) -> includes k' (f entry) = false) ->
  includes k (f entry) = true ->
  categoryLoop f (pre ++ (k, cat) :: post) entry c = cat.
Proof.
  induction pre as [|[k0 c0] pre IH]; intros H Hk; simpl.
  - rewrite Hk. reflexivity.
  - rewrite (H k0) by (left; reflexivity). apply IH; [|exact Hk].
    intros k' Hk'. apply H. right. exact Hk'.
Qed.

Lemma categoryLoop_default (f : jsstring -> jsstring)
    (entries : list (jsstring * jsstring)) (entry c : jsstring) :
  ~ In c (map snd entries) ->
  categoryLoop f entries entry c = c ->
  forall k, In k (map fst entries) -> includes k (f entry) = false.
Proof.
  induction entries as [|[k0 c0] entries IH]; intros Hc; simpl; [intros _ k []|].
  destruct (includes k0 (f entry)) eqn:Hk0.
  - intros ->. exfalso. apply Hc. left. reflexivity.
  - intros H k [<-|Hk]; [exact Hk0|].
    apply IH; auto. intros Hin. apply Hc. right. exact Hin.
Qed.

(** X13: the fallback parser files an entry under the category of the first
    keyword of the table, in the table's order, that occurs in the
    lower-cased entry, and under "Miscellaneous" exactly when none
    occurs. *)
Theorem category_first_keyword (toLowerCase : jsstring -> jsstring)
    (entry : jsstring) :
  exists r,
    parseExpenseWithFallback toLowerCase entry = Ok r
    /\ (category r = lit "Miscellaneous"
        <-> forall keyword,
              In keyword (map fst categoryMap) ->
              includes keyword (toLowerCase entry) = false)
    /\ (forall pre keyword cat post,
           categoryMap = pre ++ (keyword, cat) :: post ->
           (forall k, In k (map fst pre) ->
                      includes k (toLowerCase entry) = false) ->
           includes keyword (toLowerCase entry) = true ->
           category r = cat).
Proof.
  destruct (parseExpenseWithFallback_fields toLowerCase entry)
    as (a & m & Hr & _).
  eexists. split; [exact Hr|]. cbn [category]. split; [split|].
  - apply categoryLoop_default.
    intros Hin. vm_compute in Hin. intuition discriminate.
  - apply categoryLoop_none.
  - intros pre keyword cat post -> Hpre Hk.
    apply categoryLoop_first; assumption.
Qed.

(** ** The iteration of a pattern *)

Lemma rmatch_Star (A : Type) (r : regex) (s : jsstring)
    (cap : option jsstring) (k : jsstring -> option jsstring -> option A) :
  rmatch (Star r) s cap k = starLoop r k (List.length s) s cap.
Proof. reflexivity. Qed.

Lemma starLoop_S (A : Type) (r : regex)
    (k : jsstring -> option jsstring -> option A) (fuel : nat)
    (s : jsstring) (cap : option jsstring) :
  starLoop r k (S fuel) s cap
  = match rmatch r s cap
            (fun s' cap' =>
               if (List.length s' <? List.length s)%nat
               then starLoop r k fuel s' cap' else None) with
    | Some x => Some x
    | None => k s cap
    end.
Proof. reflexivity. Qed.

Lemma rmatch_Group (A : Type) (r : regex) (s : jsstring)
    (cap : option jsstring) (k : jsstring -> option jsstring -> option A) :
  rmatch (Group r) s cap k
  = rmatch r s cap
      (fun s' _ => k s' (Some (firstn (List.length s - List.length s') s))).
Proof. reflexivity. Qed.

Lemma rmatch_Opt (A : Type) (r : regex) (s : jsstring)
    (cap : option jsstring) (k : jsstring -> option jsstring -> option A) :
  rmatch (Opt r) s cap k
  = match rmatch r s cap k with Some x => Some x | None => k s cap end.
Proof. reflexivity. Qed.

Lemma exec_cons (r : regex) (c : char16) (s : jsstring) :
  exec r (c :: s)
  = match matchAt r (c :: s) with
    | Some (cap, _) => Some cap
    | None => exec r s
    end.
Proof. reflexivity. Qed.

(** What a one-character class, iterated, consumed is made of that
    class. *)
Lemma starLoop_Chr_sound (A : Type) (p : char16 -> bool)
    (k : jsstring -> option jsstring -> option A) (x : A) :
  forall (fuel : nat) (s : jsstring) (cap : option jsstring),
    starLoop (Chr p) k fuel s cap = Some x ->
    exists pre s', s = pre ++ s' /\ forallb p pre = true /\ k s' cap = Some x.
Proof.
  induction fuel as [|fuel IH]; intros s cap.
  - intros H. exists [], s. auto.
  - rewrite starLoop_S, rmatch_Chr.
    destruct s as [|c s]; [intros H; exists [], []; auto|].
    destruct (p c) eqn:Hc; [|intros H; exists [], (c :: s); auto].
    destruct (List.length s <? List.length (c :: s))%nat;
      [|intros H; exists [], (c :: s); auto].
    destruct (starLoop (Chr p) k fuel s cap) as [y|] eqn:Hs;
      [|intros H; exists [], (c :: s); auto].
    intros Hy. inversion Hy; subst y.
    apply IH in Hs. destruct Hs as (pre & s' & -> & Hpre & Hk).
    exists (c :: pre), s'. simpl. rewrite Hc, Hpre. auto.
Qed.

(** A greedy iteration takes the whole run when the rest of the pattern
    then succeeds. *)
Lemma starLoop_Chr_greedy (A : Type) (p : char16 -> bool)
    (k : jsstring -> option jsstring -> option A) (x : A)
    (rest : jsstring) (cap : option jsstring) :
  headFails p rest = true -> k rest cap = Some x ->
  forall (run : jsstring) (fuel : nat),
    forallb p run = true -> (List.length run <= fuel)%nat ->
    starLoop (Chr p) k fuel (run ++ rest) cap = Some x.
Proof.
  intros Hrest Hk. induction run as [|c run IH]; intros fuel Hrun Hfuel.
  - destruct fuel as [|fuel]; [exact Hk|].
    rewrite starLoop_S, rmatch_Chr. simpl app.
    destruct rest as [|c rest]; [exact Hk|].
    simpl in Hrest. destruct (p c); [discriminate|exact Hk].
  - destruct fuel as [|fuel]; [simpl in Hfuel; lia|].
    simpl in Hrun. apply andb_true_iff in Hrun. destruct Hrun as [Hc Hrun].
    change ((c :: run) ++ rest) with (c :: run ++ rest).
    rewrite starLoop_S, rmatch_Chr. cbv beta iota. rewrite Hc.
    replace (List.length (run ++ rest) <? List.length (c :: run ++ rest))%nat
      with true by (symmetry; apply Nat.ltb_lt; simpl; lia).
    rewrite IH; [reflexivity|exact Hrun|simpl in Hfuel; lia].
Qed.

Lemma Plus_Chr_greedy (A : Type) (p : char16 -> bool)
    (k : jsstring -> option jsstring -> option A) (x : A)
    (run rest : jsstring) (cap : option jsstring) :
  run <> [] -> forallb p run = true ->
  headFails p rest = true -> k rest cap = Some x ->
  rmatch (Plus (Chr p)) (run ++ rest) cap k = Some x.
Proof.
  intros Hne Hrun Hrest Hk. destruct run as [|c run]; [congruence|].
  simpl in Hrun. apply andb_true_iff in Hrun. destruct Hrun as [Hc Hrun].
  unfold Plus. rewrite rmatch_Seq. change ((c :: run) ++ rest) with (c :: run ++ rest).
  rewrite rmatch_Chr. cbv beta iota. rewrite Hc, rmatch_Star.
  apply starLoop_Chr_greedy; auto. rewrite length_app. lia.
Qed.

Lemma firstn_consumed (A : Type) (l r : list A) :
  firstn (List.length (l ++ r) - List.length r) (l ++ r) = l.
Proof.
  rewrite length_app.
  replace (List.length l + List.length r - List.length r)%nat
    with (List.length l + 0)%nat by lia.
  rewrite firstn_app_2. simpl. apply app_nil_r.
Qed.

(** ** The merchant *)

(** Where the merchant pattern matches, its group is a piece of the text
    made of letters and white space. *)
Lemma merchantPattern_capture (s rest : jsstring) (c : option jsstring) :
  matchAt merchantPattern s = Some (c, rest) ->
  exists before g,
    c = Some g /\ s = before ++ g ++ rest /\ forallb merchantClass g = true.
Proof.
  unfold matchAt, merchantPattern. rewrite rmatch_Seq. intros H.
  apply rmatch_suffix in H. destruct H as (p1 & s1 & c1 & -> & H).
  rewrite rmatch_Seq in H.
  apply rmatch_suffix in H. destruct H as (p2 & s2 & c2 & -> & H).
  rewrite rmatch_Seq in H.
  apply rmatch_suffix in H. destruct H as (p3 & s3 & c3 & -> & H).
  rewrite rmatch_Group in H. unfold Plus in H.
  rewrite rmatch_Seq, rmatch_Chr in H.
  destruct s3 as [|a s3]; [discriminate|]. cbv beta iota in H.
  change (isAsciiLetter a || isWhiteSpace a) with (merchantClass a) in H.
  destruct (merchantClass a) eqn:Ha; [|discriminate].
  rewrite rmatch_Star in H.
  apply (starLoop_Chr_sound _ merchantClass) in H.
  destruct H as (run & s' & -> & Hrun & H).
  change (a :: run ++ s') with ((a :: run) ++ s') in H.
  rewrite firstn_consumed in H. inversion H; subst.
  exists (p1 ++ p2 ++ p3), (a :: run). split; [reflexivity|]. split.
  - rewrite <- !app_assoc. reflexivity.
  - simpl. rewrite Ha, Hrun. reflexivity.
Qed.

Lemma trim_piece (g : jsstring) : exists a b, g = a ++ trim g ++ b.
Proof.
  unfold trim. destruct (trimStart_suffix g) as [a Ha].
  destruct (trimEnd_prefix (trimStart g)) as [b Hb].
  exists a, b. rewrite <- Hb. exact Ha.
Qed.

(** X14: a merchant name, when the fallback parser gives one, is a piece of
    the entry made of letters and white space alone, with no white space
    at its ends. *)
Theorem merchant_name_shape (toLowerCase : jsstring -> jsstring)
    (entry : jsstring) :
  exists r,
    parseExpenseWithFallback toLowerCase entry = Ok r
    /\ forall m,
         merchantName r = Some m ->
         trim m = m
         /\ forallb merchantClass m = true
         /\ exists before after, entry = before ++ m ++ after.
Proof.
  destruct (parseExpenseWithFallback_fields toLowerCase entry)
    as (a & m0 & Hr & _ & Hnone).
  eexists. split; [exact Hr|]. cbn [merchantName]. intros m ->.
  revert Hr. unfold parseExpenseWithFallback.
  destruct (exec amountPattern entry) as [[g0|]|]; try discriminate;
    (destruct (exec merchantPattern entry) as [[g|]|] eqn:Hm;
     try discriminate; intros Hr; inversion Hr; subst;
     (apply exec_matchAt in Hm; destruct Hm as (pre & s' & rest & -> & Hm);
      apply merchantPattern_capture in Hm;
      destruct Hm as (before & g' & Hg & -> & Hcls);
      inversion Hg; subst g';
      split; [apply trim_trimmed|]; split;
      [apply forallb_forall; intros c Hc; apply trim_In in Hc;
       exact (proj1 (forallb_forall _ _) Hcls c Hc)
      |destruct (trim_piece g) as (x & y & Hxy);
       exists (pre ++ before ++ x), (y ++ rest);
       rewrite Hxy at 1; rewrite <- !app_assoc; reflexivity])).
Qed.

(** ** The amount *)

Lemma allDigits_spec (ds : jsstring) :
  allDigits ds = true -> ds <> [] /\ forallb isDigit ds = true.
Proof.
  unfold allDigits. intros H. apply andb_true_iff in H. destruct H as [H1 H2].
  split; [|exact H2]. intros ->. discriminate H1.
Qed.

Lemma separator_fails (A : Type) (sep : ascii) (s : jsstring)
    (cap : option jsstring) (k : jsstring -> option jsstring -> option A) :
  startsGroup sep s = false ->
  rmatch (Seq (lit1 sep) (Plus digit)) s cap k = None.
Proof.
  intros H. unfold lit1, Plus, digit. rewrite rmatch_Seq, rmatch_Chr.
  destruct s as [|c [|d s]]; try reflexivity; cbv beta iota.
  - destruct (N.eqb (code sep) c); [|reflexivity].
    rewrite rmatch_Seq, rmatch_Chr. reflexivity.
  - simpl in H. destruct (N.eqb (code sep) c); [|reflexivity]. simpl in H.
    rewrite rmatch_Seq, rmatch_Chr. cbv beta iota. rewrite H. reflexivity.
Qed.

Lemma separator_greedy (A : Type) (sep : ascii) (g rest : jsstring)
    (cap : option jsstring) (k : jsstring -> option jsstring -> option A)
    (x : A) :
  allDigits g = true -> headFails isDigit rest = true ->
  k rest cap = Some x ->
  rmatch (Seq (lit1 sep) (Plus digit)) (code sep :: g ++ rest) cap k = Some x.
Proof.
  intros Hg Hrest Hk. apply allDigits_spec in Hg. destruct Hg as [Hne Hg].
  unfold lit1. rewrite rmatch_Seq, rmatch_Chr. cbv beta iota.
  rewrite N.eqb_refl. apply Plus_Chr_greedy; assumption.
Qed.

Lemma commaGroups_greedy (A : Type)
    (k : jsstring -> option jsstring -> option A) (x : A)
    (tl : jsstring) (cap : option jsstring) :
  headFails isDigit tl = true -> startsGroup "," tl = false ->
  k tl cap = Some x ->
  forall (groups : list jsstring) (fuel : nat),
    forallb allDigits groups = true -> (List.length groups <= fuel)%nat ->
    starLoop (Seq (lit1 ",") (Plus digit)) k fuel (commaGroups groups ++ tl) cap
    = Some x.
Proof.
  intros Htl Hstop Hk. induction groups as [|g groups IH]; intros fuel Hg Hfuel.
  - destruct fuel as [|fuel]; [exact Hk|].
    rewrite starLoop_S. change (commaGroups [] ++ tl) with tl.
    rewrite separator_fails by exact Hstop. exact Hk.
  - destruct fuel as [|fuel]; [simpl in Hfuel; lia|].
    simpl in Hg. apply andb_true_iff in Hg. destruct Hg as [Hg Hgs].
    rewrite starLoop_S.
    change (commaGroups (g :: groups)) with ((code "," :: g) ++ commaGroups groups).
    rewrite <- app_assoc.
    change ((code "," :: g) ++ commaGroups groups ++ tl)
      with (code "," :: g ++ commaGroups groups ++ tl).
    rewrite (separator_greedy _ "," g (commaGroups groups ++ tl) cap _ x);
      [reflexivity|exact Hg| |].
    + destruct groups as [|g' groups]; [exact Htl|reflexivity].
    + match goal with
      | |- (if ?b then _ else _) = _ =>
          replace b with true
            by (symmetry; apply Nat.ltb_lt; simpl; rewrite (length_app g); lia)
      end.
      apply IH; [exact Hgs|simpl in Hfuel; lia].
Qed.

Lemma commaGroups_length (groups : list jsstring) :
  (List.length groups <= List.length (commaGroups groups))%nat.
Proof.
  induction groups as [|g groups IH]; [apply Nat.le_refl|].
  change (commaGroups (g :: groups))
    with ((code "," :: g) ++ commaGroups groups).
  rewrite length_app. simpl. lia.
Qed.

(** The pattern after the rupee sign takes the whole numeral. *)
Lemma numeral_greedy (A : Type)
    (k : jsstring -> option jsstring -> option A) (x : A)
    (ds : jsstring) (groups : list jsstring) (frac : option jsstring)
    (post : jsstring) :
  numeralOk ds groups frac = true -> numeralEnds frac post = true ->
  k post None = Some x ->
  rmatch (Seq (Plus digit)
              (Seq (Star (Seq (lit1 ",") (Plus digit)))
                   (Opt (Seq (lit1 ".") (Plus digit)))))
         (numeral ds groups frac ++ post) None k
  = Some x.
Proof.
  unfold numeralOk, numeralEnds. intros Hok Hend Hk.
  apply andb_true_iff in Hok. destruct Hok as [Hok Hfrac].
  apply andb_true_iff in Hok. destruct Hok as [Hds Hgroups].
  apply andb_true_iff in Hend. destruct Hend as [Hpost Hend].
  apply allDigits_spec in Hds. destruct Hds as [Hne Hds].
  set (fracText := match frac with Some df => code "." :: df | None => [] end).
  assert (Htl : headFails isDigit (fracText ++ post) = true).
  { unfold fracText. destruct frac; [reflexivity|exact Hpost]. }
  assert (Hstop : startsGroup "," (fracText ++ post) = false).
  { unfold fracText. destruct frac as [df|].
    - simpl. destruct (df ++ post); reflexivity.
    - apply andb_true_iff in Hend. destruct Hend as [Hend _].
      apply negb_true_iff in Hend. exact Hend. }
  unfold numeral. fold (commaGroups groups). fold fracText.
  rewrite <- !app_assoc. rewrite rmatch_Seq.
  apply Plus_Chr_greedy; [exact Hne|exact Hds| |].
  { destruct groups as [|g groups]; [exact Htl|reflexivity]. }
  rewrite rmatch_Seq, rmatch_Star.
  apply commaGroups_greedy; [exact Htl|exact Hstop| |exact Hgroups|].
  2:{ rewrite length_app. pose proof (commaGroups_length groups). lia. }
  rewrite rmatch_Opt. unfold fracText. destruct frac as [df|].
  - change ((code "." :: df) ++ post) with (code "." :: df ++ post).
    rewrite (separator_greedy _ "." df post None k x);
      [reflexivity|exact Hfrac|exact Hpost|exact Hk].
  - change ([] ++ post) with post. rewrite separator_fails; [exact Hk|].
    apply andb_true_iff in Hend. destruct Hend as [_ Hend].
    apply negb_true_iff in Hend. exact Hend.
Qed.

Lemma amountPattern_numeral (ds : jsstring) (groups : list jsstring)
    (frac : option jsstring) (post : jsstring) :
  numeralOk ds groups frac = true -> numeralEnds frac post = true ->
  matchAt amountPattern (rupee :: numeral ds groups frac ++ post)
  = Some (Some (numeral ds groups frac), post).
Proof.
  intros Hok Hend. unfold matchAt, amountPattern.
  rewrite rmatch_Seq, rmatch_Chr. cbv beta iota.
  rewrite N.eqb_refl, rmatch_Group.
  transitivity
    (Some (Some (firstn (List.length (numeral ds groups frac ++ post)
                         - List.length post)
                        (numeral ds groups frac ++ post)), post)).
  - apply numeral_greedy; [exact Hok|exact Hend|reflexivity].
  - rewrite firstn_consumed. reflexivity.
Qed.

Lemma amountPattern_skips (pre s : jsstring) :
  ~ In rupee pre -> exec amountPattern (pre ++ s) = exec amountPattern s.
Proof.
  induction pre as [|c pre IH]; intros Hpre; [reflexivity|].
  simpl app. rewrite exec_cons.
  replace (matchAt amountPattern (c :: pre ++ s)) with
    (@None (option jsstring * jsstring)).
  - apply IH. intros H. apply Hpre. right. exact H.
  - unfold matchAt, amountPattern. rewrite rmatch_Seq, rmatch_Chr.
    cbv beta iota. destruct (N.eqb_spec rupee c) as [Heq|_]; [|reflexivity].
    exfalso. apply Hpre. left. symmetry. exact Heq.
Qed.

Lemma removeCommas_cons (c : char16) (s : jsstring) :
  removeCommas (c :: s)
  = if negb (N.eqb c (code ",")) then c :: removeCommas s else removeCommas s.
Proof. reflexivity. Qed.

Lemma removeCommas_app (s t : jsstring) :
  removeCommas (s ++ t) = removeCommas s ++ removeCommas t.
Proof. apply filter_app. Qed.

Lemma removeCommas_digits (ds : jsstring) :
  forallb isDigit ds = true -> removeCommas ds = ds.
Proof.
  induction ds as [|c ds IH]; [reflexivity|].
  cbn [forallb]. intros H. apply andb_true_iff in H. destruct H as [Hc Hds].
  rewrite removeCommas_cons, IH by exact Hds.
  destruct (N.eqb_spec c (code ",")) as [Heq|_]; [|reflexivity].
  rewrite Heq in Hc. discriminate Hc.
Qed.

Lemma removeCommas_groups (groups : list jsstring) :
  forallb allDigits groups = true ->
  removeCommas (commaGroups groups) = List.concat groups.
Proof.
  induction groups as [|g groups IH]; [reflexivity|].
  cbn [forallb]. intros H. apply andb_true_iff in H. destruct H as [Hg Hgs].
  apply allDigits_spec in Hg. destruct Hg as [_ Hg].
  change (commaGroups (g :: groups))
    with (code "," :: g ++ commaGroups groups).
  rewrite removeCommas_cons, N.eqb_refl. cbn [negb].
  rewrite removeCommas_app, IH, removeCommas_digits by assumption.
  reflexivity.
Qed.

Lemma readDigits_run (ds rest : jsstring) :
  forallb isDigit ds = true -> headFails isDigit rest = true ->
  forall (acc : Z) (n : nat),
    readDigits acc n (ds ++ rest)
    = (fold_left digitStep ds acc, (n + List.length ds)%nat, rest).
Proof.
  intros Hds Hrest. induction ds as [|c ds IH]; intros acc n.
  - cbn [app List.length]. rewrite Nat.add_0_r.
    destruct rest as [|c rest]; [reflexivity|].
    cbn [headFails] in Hrest. apply negb_true_iff in Hrest.
    cbn [readDigits]. rewrite Hrest. reflexivity.
  - cbn [forallb] in Hds. apply andb_true_iff in Hds. destruct Hds as [Hc Hds].
    cbn [app readDigits List.length]. rewrite Hc, (IH Hds).
    f_equal. f_equal. lia.
Qed.

Lemma parseFloat_numeral (ds : jsstring) (groups : list jsstring)
    (frac : option jsstring) :
  numeralOk ds groups frac = true ->
  parseFloat (removeCommas (numeral ds groups frac))
  = parseDecimal (digitsValue (ds ++ List.concat groups ++ fractionDigits frac))
                 (List.length (fractionDigits frac)).
Proof.
  unfold numeralOk. intros Hok.
  apply andb_true_iff in Hok. destruct Hok as [Hok Hfrac].
  apply andb_true_iff in Hok. destruct Hok as [Hds Hgroups].
  apply allDigits_spec in Hds. destruct Hds as [Hne Hds].
  assert (Hall : forallb isDigit (ds ++ List.concat groups) = true).
  { rewrite forallb_app, Hds. simpl. clear -Hgroups.
    induction groups as [|g groups IH]; [reflexivity|].
    simpl in *. apply andb_true_iff in Hgroups. destruct Hgroups as [Hg Hgs].
    apply allDigits_spec in Hg. destruct Hg as [_ Hg].
    rewrite forallb_app, Hg, IH by exact Hgs. reflexivity. }
  assert (Hlen : (List.length (ds ++ List.concat groups) <> 0)%nat).
  { rewrite length_app. destruct ds; [congruence|simpl; lia]. }
  unfold numeral. fold (commaGroups groups).
  rewrite !removeCommas_app.
  rewrite removeCommas_digits, removeCommas_groups by assumption.
  rewrite app_assoc. unfold parseFloat, digitsValue.
  destruct frac as [df|]; cbn [fractionDigits].
  - apply allDigits_spec in Hfrac. destruct Hfrac as [_ Hdf].
    rewrite removeCommas_cons.
    change (negb (code "." =? code ",")%N) with true. cbv iota.
    rewrite removeCommas_digits by exact Hdf.
    rewrite readDigits_run by (auto; reflexivity).
    rewrite N.eqb_refl.
    rewrite <- (app_nil_r df) at 1.
    rewrite readDigits_run by (auto; reflexivity).
    rewrite !fold_left_app. cbn [Nat.add].
    destruct (Nat.eqb_spec (List.length (ds ++ List.concat groups)
                            + List.length df) 0);
      [lia|reflexivity].
  - change (removeCommas []) with (@nil char16). rewrite !app_nil_r.
    rewrite <- (app_nil_r (ds ++ List.concat groups)) at 1.
    rewrite readDigits_run by (auto; reflexivity).
    rewrite !fold_left_app. cbn [Nat.add List.length]. rewrite Nat.add_0_r.
    destruct (Nat.eqb_spec (List.length (ds ++ List.concat groups)) 0);
      [lia|reflexivity].
Qed.

(** X15: the amount the fallback parser reads after the first rupee sign: a
    numeral of digits, comma-separated groups and an optional fraction
    is read whole, commas dropped, as the decimal number it writes. *)
Theorem rupee_amount (toLowerCase : jsstring -> jsstring)
    (pre ds : jsstring) (groups : list jsstring) (frac : option jsstring)
    (post : jsstring) :
  ~ In rupee pre ->
  numeralOk ds groups frac = true ->
  numeralEnds frac post = true ->
  exists r,
    parseExpenseWithFallback toLowerCase
      (pre ++ rupee :: numeral ds groups frac ++ post) = Ok r
    /\ amount r
       = parseDecimal (digitsValue (ds ++ List.concat groups ++ fractionDigits frac))
                      (List.length (fractionDigits frac)).
Proof.
  intros Hpre Hok Hend.
  assert (Hexec : exec amountPattern
                    (pre ++ rupee :: numeral ds groups frac ++ post)
                  = Some (Some (numeral ds groups frac))).
  { rewrite amountPattern_skips by exact Hpre.
    rewrite exec_cons, amountPattern_numeral by assumption. reflexivity. }
  unfold parseExpenseWithFallback. rewrite Hexec.
  destruct (exec merchantPattern _) as [c|] eqn:Hm;
    [destruct (merchantPattern_group _ _ Hm) as [g ->]|];
    eexists; (split; [reflexivity|]); cbn [amount];
    apply parseFloat_numeral, Hok.
Qed.

Lemma rupee_amount_witness :
  exists r,
    parseExpenseWithFallback toLowerCase_basic
      (lit "Paid " ++ rupee :: lit "1,50,000.50" ++ lit " for rent") = Ok r
    /\ amount r = parseDecimal 15000050 2.
Proof.
  apply (rupee_amount toLowerCase_basic (lit "Paid ") (lit "1")
           [lit "50"; lit "000"] (Some (lit "50")) (lit " for rent")).
  - vm_compute. intuition discriminate.
  - vm_compute. reflexivity.
  - vm_compute. reflexivity.
Defined.

End FallbackFacts.

(* ================================================================= *)
Module ZoneFacts.

Import StringFacts DateFacts Insights PeriodSpec PeriodFacts Examples.

Lemma days_of_first (y m d : Z) :
  days_of {| year := y; month := m + 1; day := d |} = MakeDay y m d.
Proof.
  unfold days_of. cbn [year month day]. replace (m + 1 - 1) with m by lia.
  reflexivity.
Qed.

(** X16: with neither bound given, a custom analysis covers the current UTC
    date alone, in every zone; in a zone whose offset from UTC is fixed
    it compares that date with the day before. *)
Theorem custom_defaults_to_today (today : Z) :
  (forall LocalTZA : Z -> bool -> Z,
      exists p,
        resolvePeriods LocalTZA today custom None None = Ok p
        /\ currentStartDate p = toISODate today
        /\ currentEndDate p = toISODate today)
  /\ (forall tza : Z,
         resolvePeriods (fixedOffset tza) today custom None None
         = Ok {| currentStartDate := toISODate today;
                 currentEndDate := toISODate today;
                 previousStartDate := civil_from_days (Day today - 1);
                 previousEndDate := civil_from_days (Day today - 1) |}).
Proof.
  split.
  - intros LocalTZA.
    change (resolvePeriods LocalTZA today custom None None)
      with (resolvePeriods LocalTZA today custom (Some (toISODate today))
              (Some (toISODate today))).
    destruct (custom_current today LocalTZA (toISODate today) (toISODate today)
                (civil_valid _) (civil_valid _)) as (ps & pe & Hp).
    eexists. split; [exact Hp|]. split; reflexivity.
  - intros tza.
    change (resolvePeriods (fixedOffset tza) today custom None None)
      with (resolvePeriods (fixedOffset tza) today custom
              (Some (toISODate today)) (Some (toISODate today))).
    rewrite custom_periods by apply civil_valid.
    rewrite days_of_toISODate.
    replace (Day today - 1 - (Day today - Day today)) with (Day today - 1)
      by lia.
    reflexivity.
Qed.

(** X17: the month of a monthly analysis.  In a zone that is never ahead of
    UTC, whatever the season, the interval is the calendar month of the
    local date.  In a zone that is always ahead of UTC both bounds fall
    one day early: the interval starts on the last day of the month
    before and leaves out the last day of the month. *)
Theorem monthly_bounds_by_zone (LocalTZA : Z -> bool -> Z) (today : Z)
    (s e : option isodate) :
  let y := constructorYear (getFullYear LocalTZA today) in
  let m := getMonth LocalTZA today in
  let first := {| year := y; month := m + 1; day := 1 |} in
  let last := {| year := y; month := m + 1; day := DaysInMonth y m |} in
  exists p,
    resolvePeriods LocalTZA today monthly s e = Ok p
    /\ (neverAhead LocalTZA ->
        currentStartDate p = first /\ currentEndDate p = last)
    /\ (alwaysAhead LocalTZA ->
        currentStartDate p = civil_from_days (days_of first - 1)
        /\ currentEndDate p = civil_from_days (days_of last - 1)
        /\ days_of (previousEndDate p) = days_of first - 2).
Proof.
  intros y m first last.
  pose proof (getMonth_range LocalTZA today) as Hm. fold m in Hm.
  pose proof (DaysInMonth_bounds y m) as Hd.
  assert (Hrun : exists p, resolvePeriods LocalTZA today monthly s e = Ok p
                           /\ currentStartDate p
                              = civil_from_days (days_of (currentStartDate p))
                           /\ currentEndDate p
                              = civil_from_days (days_of (currentEndDate p))).
  { eexists. split; [reflexivity|].
    cbn [currentStartDate currentEndDate]. unfold toISODate.
    rewrite !days_of_civil. split; reflexivity. }
  destruct Hrun as (p & Hp & Hs & He).
  exists p. split; [exact Hp|].
  assert (Hf : days_of first = MakeDay y m 1) by apply days_of_first.
  assert (Hl : days_of last = MakeDay y m 1 + DaysInMonth y m - 1).
  { unfold last. rewrite days_of_first.
    replace (DaysInMonth y m) with (1 + (DaysInMonth y m - 1)) at 1 by lia.
    rewrite MakeDay_date. lia. }
  assert (Hvf : valid_date first = true).
  { unfold valid_date, first. cbn [year month day].
    replace (m + 1 - 1) with m by lia.
    repeat (apply andb_true_iff; split); apply Z.leb_le; lia. }
  assert (Hvl : valid_date last = true).
  { unfold valid_date, last. cbn [year month day].
    replace (m + 1 - 1) with m by lia.
    repeat (apply andb_true_iff; split); apply Z.leb_le; lia. }
  split.
  - intros Hzone.
    destruct (monthly_periods today LocalTZA 0 s e (neverAhead_days _ Hzone))
      as (p' & Hp' & Hcs & Hce & _).
    fold y m in Hcs, Hce. rewrite Hp in Hp'. inversion Hp'; subst p'.
    rewrite Hs, He, Hce, Hcs. split.
    + rewrite Z.add_0_r, <- Hf. apply civil_days_of, Hvf.
    + replace (MakeDay y m 1 + 0 + DaysInMonth y m - 1) with (days_of last)
        by lia.
      apply civil_days_of, Hvl.
  - intros Hzone.
    destruct (monthly_periods today LocalTZA (-1) s e
                (alwaysAhead_days _ Hzone))
      as (p' & Hp' & Hcs & Hce & _ & Hpe).
    fold y m in Hcs, Hce. rewrite Hp in Hp'. inversion Hp'; subst p'.
    rewrite Hs, He, Hce, Hpe, Hcs. repeat split; try (f_equal; lia). lia.
Qed.

(** X18: in a zone whose offset from UTC is fixed, the week of a weekly
    analysis holds the current UTC date and starts at most six days
    before it; where local time is UTC it starts on a Sunday. *)
Theorem weekly_window (tza today : Z) (s e : option isodate) :
  exists p,
    resolvePeriods (fixedOffset tza) today weekly s e = Ok p
    /\ days_of (currentStartDate p) <= Day today <= days_of (currentEndDate p)
    /\ Day today - 6 <= days_of (currentStartDate p)
    /\ (tza = 0 -> (days_of (currentStartDate p) + 4) mod 7 = 0).
Proof.
  destruct (weekly_periods today tza s e) as (p & Hp & Hcs & Hce & _).
  exists p. split; [exact Hp|].
  assert (Hday : 0 <= getDay (fixedOffset tza) today < 7)
    by (unfold getDay, WeekDay; apply Z.mod_pos_bound; lia).
  split; [lia|]. split; [lia|].
  intros ->. rewrite Hcs. unfold getDay, WeekDay, LocalTime, fixedOffset.
  rewrite Z.add_0_r.
  generalize (Day today). intros d. Z.div_mod_to_equations. lia.
Qed.

End ZoneFacts.

(* ================================================================= *)
Module WorkflowFacts.

Import Db Effects Insights Workflow.
Import ConnectionFacts TextFacts.

Section Step.

Variable scale : nat.
Variable LocalTZA : Z -> bool -> Z.
Variable today : Z.
Variable numberToString : Z -> jsstring.

(** X19: the report step never reports failure, whatever the insights tool
    met: it returns [success: true] with one report, the pool ended and
    at most five insights, or with no report, no insight and the pool
    of the failed analysis left open.  The tables are as before. *)
Theorem report_step_always_succeeds (inputData : InputData) (mastra : Mastra)
    (w : world) :
  exists r w',
    generateExpenseReportStep scale LocalTZA today numberToString
      inputData mastra w = (Ok r, w')
    /\ success r = true
    /\ db w' = db w
    /\ ((reportsGenerated r = 1 /\ pool w' = Ended
         /\ (List.length (insights r) <= 5)%nat
         /\ (includeInsights inputData = false -> insights r = []))
        \/ (reportsGenerated r = 0 /\ pool w' <> Ended /\ insights r = [])).
Proof.
  unfold generateExpenseReportStep, tryCatch, bind. cbn [reportLoop].
  unfold bind.
  match goal with
  | |- context [Insights.execute scale LocalTZA today ?c mastra w] =>
      destruct (execute_cases scale LocalTZA today c mastra w)
        as (x & w1 & -> & Hdb & [(Hs & Hp & cur & cmp & Hr)|(Hs & Hp & _)])
  end; rewrite Hs; unfold ret; do 2 eexists; (split; [reflexivity|]);
    cbn [success reportsGenerated insights]; (split; [reflexivity|]);
    (split; [exact Hdb|]).
  - left. split; [reflexivity|]. split; [exact Hp|].
    cbn [app includeAdvice] in *. rewrite Hr. split.
    + destruct (includeInsights inputData); [|simpl; lia].
      rewrite length_firstn.
      pose proof (recommendations_length mastra cur cmp). lia.
    + intros ->. reflexivity.
  - right. split; [reflexivity|]. split; [exact Hp|reflexivity].
Qed.

End Step.

End WorkflowFacts.

(* ================================================================= *)
Module ViewFacts.

Import StringFacts Db AggregationFacts ReportFacts ViewQueries.

Lemma StronglySorted_firstn (A : Type) (P : A -> A -> Prop) (n : nat)
    (l : list A) :
  StronglySorted P l -> StronglySorted P (firstn n l).
Proof.
  revert n. induction l as [|a l IH]; intros [|n] H; simpl;
    try constructor.
  - apply IH. inversion H; assumption.
  - inversion H as [|? ? _ Hall]; subst.
    rewrite Forall_forall in *. intros x Hx. apply Hall.
    revert Hx. clear. revert n. induction l as [|b l IH]; intros [|n]; simpl; auto.
    + intros [].
    + intros [H|H]; [auto|right; eapply IH, H].
Qed.

(** X20: the top categories of the view tool are five at most, by decreasing
    amount; a view filtered to income has none, since its rows are also
    required to be expenses. *)
Theorem view_top_categories (context : Context) (d : database) :
  (List.length (topCategoriesQuery context d) <= 5)%nat
  /\ StronglySorted Z.ge (map top_amount (topCategoriesQuery context d))
  /\ (transactionType context = incomeOnly ->
      topCategoriesQuery context d = []).
Proof.
  unfold topCategoriesQuery. split; [apply firstn_le_length|]. split.
  - rewrite <- firstn_map. apply StronglySorted_firstn, sorted_desc.
  - intros Hincome.
    rewrite (filter_none _ _ (flat_map _ _)); [reflexivity|].
    intros r _. unfold whereClause, conditions. rewrite Hincome.
    rewrite !forallb_app. cbn [forallb typeName]. unfold isExpense.
    destruct (jsstring_eqb_spec (transaction_type (fst r)) (lit "income"))
      as [Heq|_]; [|rewrite !andb_false_r; reflexivity].
    rewrite Heq. rewrite andb_false_r. reflexivity.
Qed.

End ViewFacts.
